(** * MStress: multi-modal fusion, severity banding and DASS-21 scoring

    A shallow embedding of the scoring core of the MStress AI services:

    - [models/weighted_ai_assessment.py]   (module [WeightedAI])
    - [weighted_assessment_engine.py]      (module [WeightedEngine])
    - [services/dass21_scoring_service.py] (module [DASS21])
    - [services/assessment_service.py]     (module [AssessmentService])

    Python numbers are rationals: an [int] is a [Z] and a [float] is a [Q].
    The modules named after the source files read the arithmetic exactly
    (the real-number reading of the source, no binary rounding error); the
    properties proved about them are orders, ranges and case distinctions
    that binary rounding does not disturb.  Where a property is about the
    value an arithmetic expression takes, the functions concerned are
    embedded once more with Python's float arithmetic, every result rounded
    to binary64 ([Binary64], [WeightedAI64], [WeightedEngine64]).
    Python dictionaries read by key are
    [gmap string _]; dictionaries whose iteration order matters are
    association lists in insertion order.  Raised exceptions are values of
    the [result] monad. *)

From Stdlib Require Import ZArith QArith Qround Qminmax Qpower Qabs Lqa Lia List.
From stdpp Require Import base option list gmap strings.

Local Open Scope string_scope.
Local Open Scope list_scope.

(** ** Python primitives *)

Module Py.

(** Values that can reach the scorers through an untyped argument. *)
Inductive pyval :=
| PyInt (z : Z)
| PyFloat (q : Q)
| PyStr (s : string)
| PyNone.

(** [isinstance(v, (int, float))], with the number it denotes. *)
Definition as_number (v : pyval) : option Q :=
  match v with
  | PyInt z => Some (inject_Z z)
  | PyFloat q => Some q
  | PyStr _ | PyNone => None
  end.

(** The arguments of the two [ValueError]s raised by the DASS-21 scorer
    (the message is an f-string over exactly these values), and the one
    [list.index] raises for an element that is not in the list. *)
Inductive value_error :=
| ExpectedResponses (expected got : nat)
| ResponseOutOfRange (i : nat) (response : pyval)
| NotInList (name : string).

Inductive exn :=
| ValueError (args : value_error)
| ZeroDivisionError
| IndexError
| TypeError.

Inductive result (A : Type) :=
| Ok (a : A)
| Raise (e : exn).
Arguments Ok {A} a.
Arguments Raise {A} e.

Definition bind {A B} (m : result A) (k : A -> result B) : result B :=
  match m with
  | Ok a => k a
  | Raise e => Raise e
  end.

(** [try: body except Exception: handler] *)
Definition try_except {A} (body : result A) (handler : A) : A :=
  match body with
  | Ok a => a
  | Raise _ => handler
  end.

Definition Qltb (x y : Q) : bool := negb (Qle_bool y x).

(** [x / y] on numbers (true division). *)
Definition truediv (x y : Q) : result Q :=
  if Qeq_bool y 0 then Raise ZeroDivisionError else Ok (x / y)%Q.

(** [min(a, b)] and [max(a, b, ...)]: Python keeps the first argument
    unless a later one is strictly smaller (resp. larger). *)
Definition min2 (a b : Q) : Q := if Qltb b a then b else a.
Definition max2 (a b : Q) : Q := if Qltb a b then b else a.
Definition max3 (a b c : Q) : Q := max2 (max2 a b) c.
Definition max4 (a b c d : Q) : Q := max2 (max3 a b c) d.

(** Round to the nearest integer, ties to the even one. *)
Definition round_half_even (x : Q) : Z :=
  let f := Qfloor x in
  match (x - inject_Z f ?= 1 # 2)%Q with
  | Lt => f
  | Gt => (f + 1)%Z
  | Eq => if Z.even f then f else (f + 1)%Z
  end.

(** [round(x, ndigits)] on a float; the result is kept in lowest terms. *)
Definition round (x : Q) (ndigits : nat) : Q :=
  let scale := inject_Z (10 ^ Z.of_nat ndigits) in
  Qred (inject_Z (round_half_even (x * scale)) / scale)%Q.

(** [int(x)]: truncation towards zero. *)
Definition int (x : Q) : Z :=
  if Qle_bool 0 x then Qfloor x else Qceiling x.

End Py.

Notation "'let!' x ':=' m 'in' k" := (Py.bind m (fun x => k))
  (at level 10, x name, m at level 100, k at level 200).

(** ** Severity bands and categories shared by the scorers *)

Inductive category := Depression | Anxiety | Stress.

Inductive severity := Normal | Mild | Moderate | Severe | ExtremelySevere.

Global Instance category_eq_dec : EqDecision category.
Proof. solve_decision. Defined.

Global Instance severity_eq_dec : EqDecision severity.
Proof. solve_decision. Defined.

Definition category_name (c : category) : string :=
  match c with
  | Depression => "depression"
  | Anxiety => "anxiety"
  | Stress => "stress"
  end.

Definition severity_name (s : severity) : string :=
  match s with
  | Normal => "normal"
  | Mild => "mild"
  | Moderate => "moderate"
  | Severe => "severe"
  | ExtremelySevere => "extremely_severe"
  end.

(** A threshold table as the source writes it: an ordered dictionary from
    band name to an inclusive [(min, max)] pair. *)
Definition band_table := list (severity * (Q * Q)).

(** [for severity, (lo, hi) in thresholds.items(): if lo <= score <= hi:
    return severity], then the fall-through value. *)
Fixpoint first_band (thresholds : band_table) (score : Q) (fallback : severity)
  : severity :=
  match thresholds with
  | [] => fallback
  | (sev, (lo, hi)) :: rest =>
      if Qle_bool lo score && Qle_bool score hi then sev
      else first_band rest score fallback
  end.

(** The bands of a table whose interval contains the score. *)
Definition bands_containing (thresholds : band_table) (score : Q)
  : list severity :=
  map fst
    (List.filter (fun b => Qle_bool (fst (snd b)) score && Qle_bool score (snd (snd b)))
       thresholds).

(** ** models/weighted_ai_assessment.py *)

Module WeightedAI.
Local Open Scope Q_scope.

(** The standardized per-component dictionary
    [{'depression': _, 'anxiety': _, 'stress': _, 'confidence': _}]. *)
Record ModalityScore := {
  depression : Q;
  anxiety : Q;
  stress : Q;
  confidence : Q
}.

Definition score_of (c : category) (s : ModalityScore) : Q :=
  match c with
  | Depression => depression s
  | Anxiety => anxiety s
  | Stress => stress s
  end.

Definition zero_scores : ModalityScore :=
  {| depression := 0; anxiety := 0; stress := 0; confidence := 0 |}.

(** [self.component_weights], in insertion order. *)
Definition component_weights : list (string * Q) :=
  [ ("voice_analysis", 40 # 100);
    ("sentiment_analysis", 25 # 100);
    ("keyword_matching", 20 # 100);
    ("facial_analysis", 15 # 100) ].

(** [self.severity_thresholds]; [category] is one of the three keys, so
    the [.get(category, ...)] default is never taken. *)
Definition severity_thresholds (c : category) : band_table :=
  match c with
  | Depression =>
      [ (Normal, (0, 9)); (Mild, (10, 13)); (Moderate, (14, 20));
        (Severe, (21, 27)); (ExtremelySevere, (28, 100)) ]
  | Anxiety =>
      [ (Normal, (0, 7)); (Mild, (8, 9)); (Moderate, (10, 14));
        (Severe, (15, 19)); (ExtremelySevere, (20, 100)) ]
  | Stress =>
      [ (Normal, (0, 14)); (Mild, (15, 18)); (Moderate, (19, 25));
        (Severe, (26, 33)); (ExtremelySevere, (34, 100)) ]
  end.

(** Truth value of a dictionary argument: [None] and [{}] are false. *)
Definition truthy {V} (d : option (gmap string V)) : bool :=
  match d with
  | Some m => negb (Nat.eqb (size m) 0)
  | None => false
  end.

(** [d.get(k, dflt)] *)
Definition get {V} (d : gmap string V) (k : string) (dflt : V) : V :=
  default dflt (d !! k).

Definition _process_voice_results
    (voice_results : gmap string (gmap string Q)) : ModalityScore :=
  if negb (truthy (Some voice_results)) then zero_scores
  else
    let depression_score := get (get voice_results "depression" ∅) "score" 0 in
    let anxiety_score := get (get voice_results "anxiety" ∅) "score" 0 in
    let stress_score := get (get voice_results "stress" ∅) "score" 0 in
    let confidence := get (get voice_results "depression" ∅) "confidence" (1 # 2) in
    {| depression := Py.min2 depression_score 100;
       anxiety := Py.min2 anxiety_score 100;
       stress := Py.min2 stress_score 100;
       confidence := confidence |}.

Definition _process_sentiment_results
    (sentiment_results : gmap string Q) : ModalityScore :=
  if negb (truthy (Some sentiment_results)) then zero_scores
  else
    let negative_score := get sentiment_results "negative" 0 in
    let positive_score := get sentiment_results "positive" 0 in
    let neutral_score := get sentiment_results "neutral" 0 in
    let depression_score := negative_score * 80 in
    let anxiety_score := negative_score * 70 + (1 - neutral_score) * 20 in
    let stress_score := negative_score * 60 + (1 - positive_score) * 30 in
    let confidence := Py.max3 negative_score positive_score neutral_score in
    {| depression := Py.min2 depression_score 100;
       anxiety := Py.min2 anxiety_score 100;
       stress := Py.min2 stress_score 100;
       confidence := confidence |}.

Definition _process_keyword_results
    (keyword_results : gmap string Q) : Py.result ModalityScore :=
  if negb (truthy (Some keyword_results)) then Py.Ok zero_scores
  else
    let depression_keywords := get keyword_results "depression_indicators" 0 in
    let anxiety_keywords := get keyword_results "anxiety_indicators" 0 in
    let stress_keywords := get keyword_results "stress_indicators" 0 in
    let total_words := get keyword_results "total_words" 1 in
    let! dd := Py.truediv depression_keywords total_words in
    let depression_score := Py.min2 (dd * 500) 100 in
    let! ad := Py.truediv anxiety_keywords total_words in
    let anxiety_score := Py.min2 (ad * 500) 100 in
    let! sd := Py.truediv stress_keywords total_words in
    let stress_score := Py.min2 (sd * 500) 100 in
    let total_keywords := depression_keywords + anxiety_keywords + stress_keywords in
    let confidence := Py.min2 (total_keywords / 10) 1 in
    Py.Ok {| depression := depression_score;
             anxiety := anxiety_score;
             stress := stress_score;
             confidence := confidence |}.

Definition _process_facial_results
    (facial_results : gmap string Q) : ModalityScore :=
  if negb (truthy (Some facial_results)) then zero_scores
  else
    let sadness := get facial_results "sadness" 0 in
    let fear := get facial_results "fear" 0 in
    let anger := get facial_results "anger" 0 in
    let happiness := get facial_results "happiness" 0 in
    let depression_score := sadness * 80 + (1 - happiness) * 20 in
    let anxiety_score := fear * 70 + sadness * 20 in
    let stress_score := anger * 60 + fear * 30 in
    let confidence := Py.max4 sadness fear anger happiness in
    {| depression := Py.min2 depression_score 100;
       anxiety := Py.min2 anxiety_score 100;
       stress := Py.min2 stress_score 100;
       confidence := confidence |}.

Definition _score_to_severity (score : Q) (c : category) : severity :=
  first_band (severity_thresholds c) score Normal.

(** The running sums of [_calculate_weighted_scores]. *)
Record sums := {
  sum_depression : Q;
  sum_anxiety : Q;
  sum_stress : Q;
  total_weight : Q
}.

Definition sum_of (c : category) (a : sums) : Q :=
  match c with
  | Depression => sum_depression a
  | Anxiety => sum_anxiety a
  | Stress => sum_stress a
  end.

(** One iteration of [for component, weight in component_weights.items()]. *)
Definition accumulate (component_scores : gmap string ModalityScore)
    (a : sums) (cw : string * Q) : sums :=
  match component_scores !! (fst cw) with
  | Some scores =>
      let effective_weight := snd cw * confidence scores in
      {| total_weight := total_weight a + effective_weight;
         sum_depression := sum_depression a + depression scores * effective_weight;
         sum_anxiety := sum_anxiety a + anxiety scores * effective_weight;
         sum_stress := sum_stress a + stress scores * effective_weight |}
  | None => a
  end.

Definition weighted_sums (component_scores : gmap string ModalityScore) : sums :=
  fold_left (accumulate component_scores) component_weights
    {| sum_depression := 0; sum_anxiety := 0; sum_stress := 0; total_weight := 0 |}.

(** The dictionary returned by [_calculate_weighted_scores]: the three
    scores, then the three [<category>_severity] keys added to it. *)
Record FinalScores := {
  final_depression : Q;
  final_anxiety : Q;
  final_stress : Q;
  depression_severity : option severity;
  anxiety_severity : option severity;
  stress_severity : option severity
}.

Definition final_of (c : category) (f : FinalScores) : Q :=
  match c with
  | Depression => final_depression f
  | Anxiety => final_anxiety f
  | Stress => final_stress f
  end.

Definition severity_key (c : category) (f : FinalScores) : option severity :=
  match c with
  | Depression => depression_severity f
  | Anxiety => anxiety_severity f
  | Stress => stress_severity f
  end.

(** [if total_weight > 0: final_scores[category] =
    round(final_scores[category] / total_weight, 2)] *)
Definition normalize (a : sums) (c : category) : Q :=
  if Py.Qltb 0 (total_weight a)
  then Py.round (sum_of c a / total_weight a) 2
  else sum_of c a.

Definition _calculate_weighted_scores
    (component_scores : gmap string ModalityScore) : FinalScores :=
  let a := weighted_sums component_scores in
  let d := normalize a Depression in
  let x := normalize a Anxiety in
  let s := normalize a Stress in
  {| final_depression := d;
     final_anxiety := x;
     final_stress := s;
     depression_severity := Some (_score_to_severity d Depression);
     anxiety_severity := Some (_score_to_severity x Anxiety);
     stress_severity := Some (_score_to_severity s Stress) |}.

Definition recommendation_for (c : category) (sev : severity) : list string :=
  match sev with
  | Severe | ExtremelySevere =>
      ["Immediate professional consultation recommended for " +:+ category_name c]
  | Moderate =>
      ["Consider professional support for " +:+ category_name c +:+ " management"]
  | Mild =>
      ["Monitor " +:+ category_name c +:+ " levels and practice self-care techniques"]
  | Normal => []
  end.

Definition _generate_recommendations (final_scores : FinalScores) : list string :=
  let recommendations :=
    flat_map
      (fun c => recommendation_for c (default Normal (severity_key c final_scores)))
      [Depression; Anxiety; Stress] in
  match recommendations with
  | [] => ["Mental health indicators appear normal - continue healthy practices"]
  | _ => recommendations
  end.

Inductive risk := Low | Medium | High | Critical.

Definition severity_levels : list severity :=
  [Normal; Mild; Moderate; Severe; ExtremelySevere].

(** [levels.index(s)] *)
Fixpoint index (levels : list severity) (s : severity) : Py.result nat :=
  match levels with
  | [] => Py.Raise (Py.ValueError (Py.NotInList (severity_name s)))
  | x :: rest =>
      if decide (x = s) then Py.Ok O
      else let! i := index rest s in Py.Ok (S i)
  end.

(** [[levels.index(s) for s in severities]] *)
Fixpoint indices (levels : list severity) (l : list severity)
  : Py.result (list nat) :=
  match l with
  | [] => Py.Ok []
  | s :: rest =>
      let! i := index levels s in
      let! rest_indices := indices levels rest in
      Py.Ok (i :: rest_indices)
  end.

(** [levels[i]] *)
Definition item (levels : list severity) (i : nat) : Py.result severity :=
  match levels !! i with
  | Some s => Py.Ok s
  | None => Py.Raise Py.IndexError
  end.

Definition risk_mapping (s : severity) : risk :=
  match s with
  | Normal => Low
  | Mild => Low
  | Moderate => Medium
  | Severe => High
  | ExtremelySevere => Critical
  end.

Record RiskAssessment := {
  overall_risk : risk;
  highest_severity : severity;
  requires_attention : bool
}.

Definition _assess_risk_level (final_scores : FinalScores)
  : Py.result RiskAssessment :=
  let severities :=
    [ default Normal (depression_severity final_scores);
      default Normal (anxiety_severity final_scores);
      default Normal (stress_severity final_scores) ] in
  let! idx := indices severity_levels severities in
  let max_severity_index := fold_right Nat.max O idx in
  let! overall_severity := item severity_levels max_severity_index in
  Py.Ok {| overall_risk := risk_mapping overall_severity;
           highest_severity := overall_severity;
           requires_attention :=
             bool_decide (overall_severity ∈ [Moderate; Severe; ExtremelySevere]) |}.

(** The report of [calculate_comprehensive_scores]; the echoed weight table
    and the confidence summary are not part of the model. *)
Record Report := {
  final_scores : FinalScores;
  component_scores : gmap string ModalityScore;
  recommendations : list string;
  risk_assessment : RiskAssessment
}.

Definition calculate_comprehensive_scores
    (voice_results : option (gmap string (gmap string Q)))
    (sentiment_results keyword_results facial_results : option (gmap string Q))
  : Py.result Report :=
  let cs0 : gmap string ModalityScore :=
    {[ "voice_analysis" := zero_scores;
       "sentiment_analysis" := zero_scores;
       "keyword_matching" := zero_scores;
       "facial_analysis" := zero_scores ]} in
  let cs1 :=
    match voice_results with
    | Some v => if truthy voice_results
                then <["voice_analysis" := _process_voice_results v]> cs0 else cs0
    | None => cs0
    end in
  let cs2 :=
    match sentiment_results with
    | Some v => if truthy sentiment_results
                then <["sentiment_analysis" := _process_sentiment_results v]> cs1 else cs1
    | None => cs1
    end in
  let! cs3 :=
    match keyword_results with
    | Some v => if truthy keyword_results
                then let! k := _process_keyword_results v in
                     Py.Ok (<["keyword_matching" := k]> cs2)
                else Py.Ok cs2
    | None => Py.Ok cs2
    end in
  let cs4 :=
    match facial_results with
    | Some v => if truthy facial_results
                then <["facial_analysis" := _process_facial_results v]> cs3 else cs3
    | None => cs3
    end in
  let fs := _calculate_weighted_scores cs4 in
  let! ra := _assess_risk_level fs in
  Py.Ok {| final_scores := fs;
           component_scores := cs4;
           recommendations := _generate_recommendations fs;
           risk_assessment := ra |}.

(** The dictionary returned by [_calculate_overall_confidence]; the
    ['confidence_range'] key is only there when some component is
    confident. *)
Record ConfidenceMetrics := {
  overall_confidence : Q;
  component_count : nat;
  confidence_range : option (Q * Q)
}.

(** [min(l)] and [max(l)] on a non-empty list: start from the first item
    and replace it by a strictly smaller (resp. larger) one. *)
Definition list_min (first : Q) (rest : list Q) : Q := fold_left Py.min2 rest first.
Definition list_max (first : Q) (rest : list Q) : Q := fold_left Py.max2 rest first.

(** [np.mean(l)] *)
Definition mean (l : list Q) : Q :=
  fold_right Qplus 0 l / inject_Z (Z.of_nat (length l)).

(** The confidences collected by the loop: those that are positive, in the
    order the dictionary yields them. *)
Definition positive_confidences (component_scores : gmap string ModalityScore)
  : list Q :=
  List.filter (fun c => Py.Qltb 0 c)
    (map (fun kv => confidence (snd kv)) (map_to_list component_scores)).

Definition _calculate_overall_confidence
    (component_scores : gmap string ModalityScore) : ConfidenceMetrics :=
  match positive_confidences component_scores with
  | [] => {| overall_confidence := 0; component_count := 0;
             confidence_range := None |}
  | c :: rest =>
      {| overall_confidence := Py.round (mean (c :: rest)) 2;
         component_count := length (c :: rest);
         confidence_range :=
           Some (Py.round (list_min c rest) 2, Py.round (list_max c rest) 2) |}
  end.

End WeightedAI.

(** ** weighted_assessment_engine.py *)

Module WeightedEngine.
Local Open Scope Q_scope.

(** A [{'depression': _, 'anxiety': _, 'stress': _}] dictionary. *)
Record Scores := {
  depression : Q;
  anxiety : Q;
  stress : Q
}.

Definition score_of (c : category) (s : Scores) : Q :=
  match c with
  | Depression => depression s
  | Anxiety => anxiety s
  | Stress => stress s
  end.

Definition _convert_keywords_to_scores
    (keyword_results : gmap string Q) : Py.result Scores :=
  let total_words := WeightedAI.get keyword_results "total_words" 1 in
  let! depression_density :=
    Py.truediv (WeightedAI.get keyword_results "depression_indicators" 0) total_words in
  let! anxiety_density :=
    Py.truediv (WeightedAI.get keyword_results "anxiety_indicators" 0) total_words in
  let! stress_density :=
    Py.truediv (WeightedAI.get keyword_results "stress_indicators" 0) total_words in
  Py.Ok {| depression := Py.min2 (depression_density * 200) 100;
           anxiety := Py.min2 (anxiety_density * 200) 100;
           stress := Py.min2 (stress_density * 200) 100 |}.

(** [self.severity_thresholds]: one upper bound per band. *)
Record Thresholds := {
  normal : Q;
  mild : Q;
  moderate : Q;
  severe : Q
}.

Definition severity_thresholds (c : category) : Thresholds :=
  match c with
  | Depression => {| normal := 9; mild := 13; moderate := 20; severe := 27 |}
  | Anxiety => {| normal := 7; mild := 9; moderate := 14; severe := 19 |}
  | Stress => {| normal := 14; mild := 18; moderate := 25; severe := 33 |}
  end.

Definition _score_to_severity (score : Q) (condition : category) : severity :=
  let thresholds := severity_thresholds condition in
  if Qle_bool score (normal thresholds) then Normal
  else if Qle_bool score (mild thresholds) then Mild
  else if Qle_bool score (moderate thresholds) then Moderate
  else if Qle_bool score (severe thresholds) then Severe
  else ExtremelySevere.

Definition _convert_sentiment_to_scores (sentiment_results : gmap string Q) : Scores :=
  let negative_score := WeightedAI.get sentiment_results "negative" 0 in
  let positive_score := WeightedAI.get sentiment_results "positive" 0 in
  let base_score := negative_score * 50 in
  let adjustment := positive_score * 10 in
  {| depression := Py.max2 0 (base_score - adjustment);
     anxiety := Py.max2 0 (base_score * (8 # 10) - adjustment);
     stress := Py.max2 0 (base_score * (9 # 10) - adjustment) |}.

Definition _convert_facial_to_scores (facial_results : gmap string Q) : Scores :=
  let sadness := WeightedAI.get facial_results "sadness" 0 in
  let fear := WeightedAI.get facial_results "fear" 0 in
  let anger := WeightedAI.get facial_results "anger" 0 in
  let happiness := WeightedAI.get facial_results "happiness" 0 in
  {| depression := Py.min2 (sadness * 80 + (1 - happiness) * 20) 100;
     anxiety := Py.min2 (fear * 70 + sadness * 30) 100;
     stress := Py.min2 (anger * 60 + fear * 40) 100 |}.

(** [self.component_weights] of this engine, in insertion order. *)
Definition component_weights : list (string * Q) :=
  [ ("voice_analysis", 40 # 100);
    ("sentiment_analysis", 25 # 100);
    ("keyword_analysis", 20 # 100);
    ("facial_analysis", 15 # 100) ].

(** [d.get(k)] / [k in d] on an insertion-ordered dictionary of numbers. *)
Fixpoint lookup_weight (d : list (string * Q)) (k : string) : option Q :=
  match d with
  | [] => None
  | (k', v) :: rest => if decide (k' = k) then Some v else lookup_weight rest k
  end.

(** [weight_mapping]: the short component names with the weights read from
    [self.component_weights]; the four keys read are all there. *)
Definition weight_mapping : list (string * Q) :=
  [ ("voice", default 0 (lookup_weight component_weights "voice_analysis"));
    ("sentiment", default 0 (lookup_weight component_weights "sentiment_analysis"));
    ("keyword", default 0 (lookup_weight component_weights "keyword_analysis"));
    ("facial", default 0 (lookup_weight component_weights "facial_analysis")) ].

(** [component_scores]: per condition, the component scores collected so
    far, in insertion order. *)
Definition ComponentScores := category -> list (string * Q).

(** [component_scores[condition][component] = score] for the three
    conditions: a component is only ever added once, at the end. *)
Definition add_component (component : string) (scores : Scores)
    (cs : ComponentScores) : ComponentScores :=
  fun c => cs c ++ [(component, score_of c scores)].

(** The loop over the items of one condition: [(weighted_sum,
    condition_weight)]. *)
Definition condition_sums (items : list (string * Q)) : Q * Q :=
  fold_left
    (fun acc item =>
       match lookup_weight weight_mapping (fst item) with
       | Some weight => (fst acc + snd item * weight, snd acc + weight)
       | None => acc
       end)
    items (0, 0).

Definition weighted_score (items : list (string * Q)) : Q :=
  let sums := condition_sums items in
  if Py.Qltb 0 (snd sums) then fst sums / snd sums else 0.

(** The dictionary returned by [_calculate_weighted_scores]. *)
Record FinalScores := {
  final : Scores;
  depression_severity : severity;
  anxiety_severity : severity;
  stress_severity : severity
}.

Definition _calculate_weighted_scores (component_scores : ComponentScores)
  : FinalScores :=
  let d := weighted_score (component_scores Depression) in
  let a := weighted_score (component_scores Anxiety) in
  let s := weighted_score (component_scores Stress) in
  {| final := {| depression := d; anxiety := a; stress := s |};
     depression_severity := _score_to_severity d Depression;
     anxiety_severity := _score_to_severity a Anxiety;
     stress_severity := _score_to_severity s Stress |}.

(** [max(scores, key=scores.get)] over the keys depression, anxiety,
    stress: the first key whose score is not exceeded. *)
Definition _identify_primary_concern (final_scores : FinalScores) : category :=
  fold_left
    (fun best c =>
       if Py.Qltb (score_of best (final final_scores)) (score_of c (final final_scores))
       then c else best)
    [Anxiety; Stress] Depression.

Inductive risk_level := Minimal | LowRisk | ModerateRisk | HighRisk.

Record RiskAssessment := {
  overall_risk : risk_level;
  max_score : Q;
  average_score : Q;
  primary_concern : category
}.

Definition _assess_overall_risk (final_scores : FinalScores) : RiskAssessment :=
  let depression_score := depression (final final_scores) in
  let anxiety_score := anxiety (final final_scores) in
  let stress_score := stress (final final_scores) in
  let max_score := Py.max3 depression_score anxiety_score stress_score in
  let avg_score := (depression_score + anxiety_score + stress_score) / 3 in
  let risk :=
    if Qle_bool 50 max_score || Qle_bool 35 avg_score then HighRisk
    else if Qle_bool 25 max_score || Qle_bool 20 avg_score then ModerateRisk
    else if Qle_bool 15 max_score || Qle_bool 10 avg_score then LowRisk
    else Minimal in
  {| overall_risk := risk;
     max_score := max_score;
     average_score := avg_score;
     primary_concern := _identify_primary_concern final_scores |}.

Inductive quality_level := HighQuality | ModerateQuality | LowQuality | Insufficient.

Record Quality := {
  completeness : Q;
  quality : quality_level;
  available_components : nat;
  total_components : nat
}.

Definition _assess_quality (component_scores : ComponentScores) : Quality :=
  let total_components := length component_weights in
  let available_components :=
    length (List.filter
              (fun component =>
                 bool_decide (component ∈ map fst (component_scores Depression)))
              ["voice"; "sentiment"; "keyword"; "facial"]) in
  let completeness :=
    inject_Z (Z.of_nat available_components) / inject_Z (Z.of_nat total_components) in
  {| completeness := completeness;
     quality :=
       if Qle_bool (75 # 100) completeness then HighQuality
       else if Qle_bool (50 # 100) completeness then ModerateQuality
       else if Qle_bool (25 # 100) completeness then LowQuality
       else Insufficient;
     available_components := available_components;
     total_components := total_components |}.

(** What [calculate_comprehensive_scores] returns: the report, or the
    [{'error': str(e)}] dictionary of its [except] branch. *)
Record Report := {
  final_scores : FinalScores;
  component_scores : ComponentScores;
  risk_assessment : RiskAssessment;
  assessment_quality : Quality
}.

Inductive Outcome :=
| Assessed (report : Report)
| Error (e : Py.exn).

(** The voice scores are copied condition by condition, and only for the
    conditions the voice result has a key for. *)
Definition add_voice (voice_results : gmap string (gmap string Q))
    (cs : ComponentScores) : ComponentScores :=
  fun c =>
    match voice_results !! category_name c with
    | Some entry => cs c ++ [("voice", WeightedAI.get entry "score" 0)]
    | None => cs c
    end.

Definition calculate_comprehensive_scores
    (voice_results : option (gmap string (gmap string Q)))
    (sentiment_results keyword_results facial_results : option (gmap string Q))
  : Outcome :=
  let body :=
    let cs0 : ComponentScores := fun _ => [] in
    let cs1 :=
      match voice_results with
      | Some v => if WeightedAI.truthy voice_results then add_voice v cs0 else cs0
      | None => cs0
      end in
    let cs2 :=
      match sentiment_results with
      | Some v => if WeightedAI.truthy sentiment_results
                  then add_component "sentiment" (_convert_sentiment_to_scores v) cs1
                  else cs1
      | None => cs1
      end in
    let! cs3 :=
      match keyword_results with
      | Some v => if WeightedAI.truthy keyword_results
                  then let! k := _convert_keywords_to_scores v in
                       Py.Ok (add_component "keyword" k cs2)
                  else Py.Ok cs2
      | None => Py.Ok cs2
      end in
    let cs4 :=
      match facial_results with
      | Some v => if WeightedAI.truthy facial_results
                  then add_component "facial" (_convert_facial_to_scores v) cs3
                  else cs3
      | None => cs3
      end in
    let final_scores := _calculate_weighted_scores cs4 in
    Py.Ok {| final_scores := final_scores;
             component_scores := cs4;
             risk_assessment := _assess_overall_risk final_scores;
             assessment_quality := _assess_quality cs4 |} in
  match body with
  | Py.Ok report => Assessed report
  | Py.Raise e => Error e
  end.

End WeightedEngine.

(** ** services/dass21_scoring_service.py *)

(** The JSON-shaped dictionaries a scorer returns; a dictionary keeps its
    keys in insertion order. *)
#[local] Unset Elimination Schemes.
Inductive json :=
| JInt (z : Z)
| JFloat (q : Q)
| JStr (s : string)
| JList (l : list json)
| JDict (d : list (string * json)).
#[local] Set Elimination Schemes.

(** [d[k]] on a returned dictionary ([None] when the key is absent). *)
Fixpoint assoc (d : list (string * json)) (k : string) : option json :=
  match d with
  | [] => None
  | (k', v) :: rest => if decide (k' = k) then Some v else assoc rest k
  end.

Definition field (j : json) (k : string) : option json :=
  match j with
  | JDict d => assoc d k
  | _ => None
  end.

(** [j[k1][k2]] *)
Definition field2 (j : json) (k1 k2 : string) : option json :=
  match field j k1 with
  | Some j' => field j' k2
  | None => None
  end.

Module DASS21.
Local Open Scope Q_scope.

(** [QUESTION_MAPPING]: question index to [(subscale, weight)]. *)
Definition QUESTION_MAPPING : list (nat * (category * Z)) :=
  [ (0, (Depression, 1%Z)); (1, (Anxiety, 1%Z)); (2, (Stress, 1%Z));
    (3, (Depression, 1%Z)); (4, (Anxiety, 1%Z)); (5, (Stress, 1%Z));
    (6, (Depression, 1%Z)); (7, (Anxiety, 1%Z)); (8, (Stress, 1%Z));
    (9, (Depression, 1%Z)); (10, (Anxiety, 1%Z)); (11, (Stress, 1%Z));
    (12, (Depression, 1%Z)); (13, (Anxiety, 1%Z)); (14, (Stress, 1%Z));
    (15, (Depression, 1%Z)); (16, (Anxiety, 1%Z)); (17, (Stress, 1%Z));
    (18, (Depression, 1%Z)); (19, (Anxiety, 1%Z)) ]%nat.

Definition SEVERITY_THRESHOLDS (c : category) : band_table :=
  match c with
  | Depression =>
      [ (Normal, (0, 9)); (Mild, (10, 13)); (Moderate, (14, 20));
        (Severe, (21, 27)); (ExtremelySevere, (28, 42)) ]
  | Anxiety =>
      [ (Normal, (0, 7)); (Mild, (8, 9)); (Moderate, (10, 14));
        (Severe, (15, 19)); (ExtremelySevere, (20, 42)) ]
  | Stress =>
      [ (Normal, (0, 14)); (Mild, (15, 18)); (Moderate, (19, 25));
        (Severe, (26, 33)); (ExtremelySevere, (34, 42)) ]
  end.

Definition total_questions : nat := 20.

(** [not isinstance(response, (int, float)) or response < 0 or response > 3] *)
Definition rejected (response : Py.pyval) : bool :=
  match Py.as_number response with
  | Some q => Py.Qltb q 0 || Py.Qltb 3 q
  | None => true
  end.

(** [for i, response in enumerate(responses): ... raise ValueError(...)] *)
Fixpoint validate (i : nat) (responses : list Py.pyval) : Py.result unit :=
  match responses with
  | [] => Py.Ok tt
  | response :: rest =>
      if rejected response
      then Py.Raise (Py.ValueError (Py.ResponseOutOfRange i response))
      else validate (S i) rest
  end.

(** [score += responses[question_idx] * weight; count += 1] for the
    questions of the subscale, over the mapping in order. *)
Fixpoint subscale_sum (mapping : list (nat * (category * Z)))
    (responses : list Py.pyval) (subscale : category) (score : Q) (count : nat)
  : Py.result (Q * nat) :=
  match mapping with
  | [] => Py.Ok (score, count)
  | (question_idx, (sub, weight)) :: rest =>
      if decide (sub = subscale) then
        match responses !! question_idx with
        | None => Py.Raise Py.IndexError
        | Some response =>
            match Py.as_number response with
            | None => Py.Raise Py.TypeError
            | Some q =>
                subscale_sum rest responses subscale
                  (score + q * inject_Z weight) (S count)
            end
        end
      else subscale_sum rest responses subscale score count
  end.

Definition _calculate_subscale_score (responses : list Py.pyval)
    (subscale : category) : Py.result Q :=
  let! sc := subscale_sum QUESTION_MAPPING responses subscale 0 O in
  Py.Ok (if Nat.ltb 0 (snd sc) then fst sc * 2 else 0).

Definition _get_severity (score : Q) (subscale : category) : severity :=
  first_band (SEVERITY_THRESHOLDS subscale) score ExtremelySevere.

Definition _get_overall_severity (overall_score : Q) : severity :=
  if Qle_bool overall_score 10 then Normal
  else if Qle_bool overall_score 13 then Mild
  else if Qle_bool overall_score 20 then Moderate
  else if Qle_bool overall_score 27 then Severe
  else ExtremelySevere.

Definition _get_interpretation (depression anxiety stress : Q) : string :=
  let highest := Py.max3 depression anxiety stress in
  if Qle_bool highest 9 then
    "Your mental health appears to be within normal range. Continue maintaining healthy habits."
  else if Qle_bool highest 13 then
    "You may be experiencing mild symptoms. Consider stress management techniques."
  else if Qle_bool highest 20 then
    "You may be experiencing moderate symptoms. Professional support is recommended."
  else if Qle_bool highest 27 then
    "You may be experiencing severe symptoms. Please seek professional help."
  else
    "You may be experiencing extremely severe symptoms. Immediate professional support is strongly recommended.".

Definition _get_recommendations (depression anxiety stress : Q) : list string :=
  let r1 :=
    if Py.Qltb 13 depression then
      [ "Consider speaking with a mental health professional about depression symptoms";
        "Engage in regular physical activity and maintain social connections" ]
    else [] in
  let r2 :=
    if Py.Qltb 9 anxiety then
      r1 ++ [ "Practice relaxation techniques such as deep breathing or meditation";
              "Limit caffeine intake and maintain regular sleep schedule" ]
    else r1 in
  let r3 :=
    if Py.Qltb 18 stress then
      r2 ++ [ "Identify and address major sources of stress in your life";
              "Practice time management and set realistic goals" ]
    else r2 in
  match r3 with
  | [] => [ "Maintain your current healthy lifestyle and coping strategies";
            "Continue regular self-care and stress management practices" ]
  | _ => r3
  end.

(** One [{'score': _, 'severity': _, 'percentage': _}] entry. *)
Definition subscale_entry (score : Q) (sev : severity) : json :=
  JDict [ ("score", JInt (Py.int score));
          ("severity", JStr (severity_name sev));
          ("percentage", JFloat (Py.round (score / 42 * 100) 1)) ].

Definition score_assessment (responses : list Py.pyval) : Py.result json :=
  if negb (Nat.eqb (length responses) total_questions)
  then Py.Raise (Py.ValueError
                   (Py.ExpectedResponses total_questions (length responses)))
  else
    let! _checked := validate O responses in
    let! depression_score := _calculate_subscale_score responses Depression in
    let! anxiety_score := _calculate_subscale_score responses Anxiety in
    let! stress_score := _calculate_subscale_score responses Stress in
    let depression_severity := _get_severity depression_score Depression in
    let anxiety_severity := _get_severity anxiety_score Anxiety in
    let stress_severity := _get_severity stress_score Stress in
    let overall_score := (depression_score + anxiety_score + stress_score) / 3 in
    let overall_severity := _get_overall_severity overall_score in
    Py.Ok (JDict
      [ ("depression", subscale_entry depression_score depression_severity);
        ("anxiety", subscale_entry anxiety_score anxiety_severity);
        ("stress", subscale_entry stress_score stress_severity);
        ("overall",
          JDict [ ("score", JFloat (Py.round overall_score 1));
                  ("severity", JStr (severity_name overall_severity));
                  ("percentage", JFloat (Py.round (overall_score / 42 * 100) 1)) ]);
        ("interpretation",
          JStr (_get_interpretation depression_score anxiety_score stress_score));
        ("recommendations",
          JList (map JStr
            (_get_recommendations depression_score anxiety_score stress_score))) ]).

End DASS21.

(** ** services/assessment_service.py *)

Module AssessmentService.
Local Open Scope Q_scope.

(** The part of [facial_analysis] that [generate_recommendations] reads:
    the value under ['emotions_detected'], if the key is there.  Every
    producer of the dictionary fills at least four keys, so the dictionary
    itself is true whenever it is not [None]. *)
Record FacialAnalysis := {
  emotions_detected : option (list (gmap string string))
}.

(** [list(dict.fromkeys(l))]: first occurrences, in order. *)
Definition fromkeys (l : list string) : list string :=
  fold_left (fun keys x => if decide (x ∈ keys) then keys else keys ++ [x]) l [].

(** [scores.get('percentage', 0) >= 70] *)
Definition at_least_70 (scores : gmap string Py.pyval) : Py.result bool :=
  match Py.as_number (default (Py.PyInt 0) (scores !! "percentage")) with
  | Some q => Py.Ok (Qle_bool 70 q)
  | None => Py.Raise Py.TypeError
  end.

Definition category_recommendation (category : string) : list string :=
  if decide (category = "academic") then
    ["Consider time management techniques for academic workload"]
  else if decide (category = "social") then
    ["Focus on building supportive social connections"]
  else if decide (category = "financial") then
    ["Consider financial planning or counseling resources"]
  else if decide (category = "health") then
    ["Prioritize physical and mental health self-care"]
  else if decide (category = "work") then
    ["Explore work-life balance strategies"]
  else [].

(** [for category, scores in category_scores.items(): ...] *)
Fixpoint category_loop (category_scores : list (string * gmap string Py.pyval))
    (recommendations : list string) : Py.result (list string) :=
  match category_scores with
  | [] => Py.Ok recommendations
  | (category, scores) :: rest =>
      let! high := at_least_70 scores in
      category_loop rest
        (if high then recommendations ++ category_recommendation category
         else recommendations)
  end.

Definition base_recommendations (stress_level : string) : list string :=
  if decide (stress_level = "high") then
    [ "Consider speaking with a mental health professional";
      "Practice deep breathing exercises for 10-15 minutes daily";
      "Ensure you're getting 7-9 hours of quality sleep";
      "Try progressive muscle relaxation techniques" ]
  else if decide (stress_level = "moderate") then
    [ "Practice mindfulness or meditation for 10-15 minutes daily";
      "Maintain a regular sleep schedule";
      "Take short breaks throughout your day";
      "Try stress-reducing activities like yoga or walking" ]
  else if decide (stress_level = "mild") then
    [ "Continue current stress management practices";
      "Maintain work-life balance";
      "Stay physically active";
      "Practice gratitude exercises" ]
  else
    [ "Maintain your current healthy lifestyle";
      "Continue regular exercise and good sleep habits";
      "Stay connected with your support network" ].

Definition facial_recommendations (facial_analysis : option FacialAnalysis)
  : list string :=
  match facial_analysis with
  | Some fa =>
      match emotions_detected fa with
      | Some (e :: es) =>
          let dominant_emotions :=
            map (fun emotion => default "" (emotion !! "dominant_emotion")) (e :: es) in
          (if decide ("angry" ∈ dominant_emotions)
           then ["Practice anger management techniques"] else [])
          ++ (if decide ("sad" ∈ dominant_emotions)
              then ["Consider mood-boosting activities and social support"] else [])
          ++ (if decide ("fear" ∈ dominant_emotions)
              then ["Try anxiety reduction techniques like grounding exercises"] else [])
      | _ => []
      end
  | None => []
  end.

Definition fallback_recommendations : list string :=
  [ "Practice deep breathing exercises";
    "Maintain regular sleep schedule";
    "Stay physically active";
    "Consider speaking with a mental health professional if needed" ].

Definition generate_recommendations (stress_level : string)
    (category_scores : list (string * gmap string Py.pyval))
    (facial_analysis : option FacialAnalysis) : list string :=
  Py.try_except
    (let! recommendations :=
       category_loop category_scores (base_recommendations stress_level) in
     let recommendations := recommendations ++ facial_recommendations facial_analysis in
     Py.Ok (take 8 (fromkeys recommendations)))
    fallback_recommendations.

(** *** [analyze_questionnaire_responses] *)

(** One questionnaire response: the keys the loop reads, each possibly
    missing. *)
Record Response := {
  value : option Q;
  weight : option Q;
  scale_max : option Q;
  category : option string
}.

(** [self.stress_categories], keys in insertion order. *)
Definition stress_categories : list string :=
  ["academic"; "social"; "financial"; "health"; "work"].

(** A [{'score': _, 'max_score': _, 'count': _}] entry while the loop runs,
    and the same entry once ['percentage'] has been added. *)
Record Tally := {
  score : Q;
  max_score : Q;
  count : nat
}.

Record CategoryScore := {
  tally : Tally;
  percentage : Q
}.

(** [if category in category_scores: category_scores[category][...] += ...] *)
Definition update_category (category : string) (weighted_score max_weighted_score : Q)
    (category_scores : list (string * Tally)) : list (string * Tally) :=
  map (fun kv =>
         if decide (fst kv = category)
         then (fst kv,
                {| score := score (snd kv) + weighted_score;
                   max_score := max_score (snd kv) + max_weighted_score;
                   count := S (count (snd kv)) |})
         else kv)
    category_scores.

(** The running [total_score], [max_possible_score] and [category_scores]. *)
Record Totals := {
  total_score : Q;
  max_possible_score : Q;
  tallies : list (string * Tally)
}.

Definition process_response (t : Totals) (response : Response) : Totals :=
  let value := default 0 (value response) in
  let weight := default 1 (weight response) in
  let scale_max := default 5 (scale_max response) in
  let category := default "general" (category response) in
  let weighted_score := value * weight in
  let max_weighted_score := scale_max * weight in
  {| total_score := total_score t + weighted_score;
     max_possible_score := max_possible_score t + max_weighted_score;
     tallies := update_category category weighted_score max_weighted_score (tallies t) |}.

Definition with_percentage (t : Tally) : CategoryScore :=
  {| tally := t;
     percentage := if Py.Qltb 0 (max_score t)
                   then score t / max_score t * 100 else 0 |}.

(** [high] from 75, [moderate] from 50, [mild] from 25, else [low]. *)
Definition level_of (score : Q) : string :=
  if Qle_bool 75 score then "high"
  else if Qle_bool 50 score then "moderate"
  else if Qle_bool 25 score then "mild"
  else "low".

(** The dictionary returned by [analyze_questionnaire_responses]; the
    ['analysis'] text is not part of the model. *)
Record QuestionnaireAnalysis := {
  questionnaire_score : Q;
  stress_level : string;
  category_scores : list (string * CategoryScore);
  total_responses : option nat
}.

(** With responses whose fields are numbers nothing in the body raises, so
    the [except] branch is never entered. *)
Definition analyze_questionnaire_responses (responses : list Response)
  : QuestionnaireAnalysis :=
  match responses with
  | [] => {| questionnaire_score := 0; stress_level := "unknown";
             category_scores := []; total_responses := None |}
  | _ =>
      let t := fold_left process_response responses
                 {| total_score := 0; max_possible_score := 0;
                    tallies := map (fun c => (c, {| score := 0; max_score := 0;
                                                     count := 0 |}))
                                 stress_categories |} in
      let overall_score :=
        if Py.Qltb 0 (max_possible_score t)
        then total_score t / max_possible_score t * 100 else 0 in
      {| questionnaire_score := Py.round overall_score 2;
         stress_level := level_of overall_score;
         category_scores := map (fun kv => (fst kv, with_percentage (snd kv))) (tallies t);
         total_responses := Some (length responses) |}
  end.

(** *** [analyze_facial_emotions] *)

(** What the facial emotion service does with an image: it cannot be
    imported, it (or the decoding of the image) raises, or it returns the
    per-face emotions with the stress assessment computed from them. *)
Record StressAssessment := {
  stress_score : option Q;
  assessed_level : option string;
  assessed_confidence : option Q
}.

Inductive ServiceOutcome :=
| ServiceMissing
| ServiceRaised
| ServiceAnalyzed (emotions : list (gmap string string))
    (stress_assessment : StressAssessment).

(** The dictionary returned by [analyze_facial_emotions]; only the success
    shape has a ['confidence'] key. *)
Record FacialResult := {
  facial_score : Q;
  facial_stress_level : string;
  detected : list (gmap string string);
  facial_confidence : option Q
}.

Definition failed_facial_result : FacialResult :=
  {| facial_score := 0; facial_stress_level := "unknown"; detected := [];
     facial_confidence := None |}.

Definition analyze_facial_emotions (outcome : ServiceOutcome) : FacialResult :=
  match outcome with
  | ServiceMissing => failed_facial_result
  | ServiceRaised => failed_facial_result
  | ServiceAnalyzed emotions stress_assessment =>
      {| facial_score := default 0 (stress_score stress_assessment);
         facial_stress_level := default "unknown" (assessed_level stress_assessment);
         detected := emotions;
         facial_confidence := Some (default 0 (assessed_confidence stress_assessment)) |}
  end.

(** *** [generate_comprehensive_assessment] *)

(** A category entry as the dictionary [generate_recommendations] reads. *)
Definition category_dict (c : CategoryScore) : gmap string Py.pyval :=
  {[ "score" := Py.PyFloat (score (tally c));
     "max_score" := Py.PyFloat (max_score (tally c));
     "count" := Py.PyInt (Z.of_nat (count (tally c)));
     "percentage" := Py.PyFloat (percentage c) ]}.

(** The result of [generate_comprehensive_assessment] (without its
    timestamp), or the dictionary of its [except] branch with the text of the
    exception. *)
Record Comprehensive := {
  overall_score : Q;
  final_stress_level : string;
  combined_confidence : Q;
  questionnaire_analysis : QuestionnaireAnalysis;
  facial_analysis : option FacialResult;
  recommendations : list string;
  facial_emotion_used : bool
}.

Inductive ComprehensiveResult :=
| Completed (result : Comprehensive)
| Failed (error : string).

Definition generate_comprehensive_assessment
    (facial_emotion_service : string -> ServiceOutcome)
    (questionnaire_responses : list Response)
    (facial_image_data : option string) : ComprehensiveResult :=
  let questionnaire_analysis := analyze_questionnaire_responses questionnaire_responses in
  let facial_analysis :=
    match facial_image_data with
    | Some data =>
        if decide (data = "") then None
        else Some (analyze_facial_emotions (facial_emotion_service data))
    | None => None
    end in
  let combined : option (Q * Q) :=
    match facial_analysis with
    | Some fa =>
        if Py.Qltb 0 (facial_score fa) then
          match facial_confidence fa with
          | Some confidence =>
              Some (questionnaire_score questionnaire_analysis * (7 # 10)
                    + facial_score fa * (3 # 10),
                    1 * (7 # 10) + confidence * (3 # 10))
          | None => None
          end
        else Some (questionnaire_score questionnaire_analysis, 1)
    | None => Some (questionnaire_score questionnaire_analysis, 1)
    end in
  match combined with
  | None => Failed "'confidence'"
  | Some (combined_score, combined_confidence) =>
      let final_stress_level := level_of combined_score in
      let recommendations :=
        generate_recommendations final_stress_level
          (map (fun kv => (fst kv, category_dict (snd kv)))
             (category_scores questionnaire_analysis))
          (option_map (fun fa => {| emotions_detected := Some (detected fa) |})
             facial_analysis) in
      Completed
        {| overall_score := Py.round combined_score 2;
           final_stress_level := final_stress_level;
           combined_confidence := Py.round combined_confidence 2;
           questionnaire_analysis := questionnaire_analysis;
           facial_analysis := facial_analysis;
           recommendations := recommendations;
           facial_emotion_used :=
             match facial_analysis with Some _ => true | None => false end |}
  end.

End AssessmentService.

(** ** main.py: the DASS-21 endpoint *)

Module Api.

(** What the body of the endpoint can raise, and what the endpoint answers:
    the payload (its ['data'] entry), or an HTTP error status. *)
Inductive raised :=
| PythonError (e : Py.exn)
| HTTPException (status_code : nat).

Inductive reply :=
| Success (data : json)
| Failure (status_code : nat).

(** [dass21_scorer] is the scorer, or [None] when its import failed; the
    request body has been parsed as [List[int]]. *)
Definition score_dass21 (dass21_scorer : bool) (responses : list Z) : reply :=
  let body : raised + json :=
    if negb dass21_scorer then inl (HTTPException 503)
    else match DASS21.score_assessment (map Py.PyInt responses) with
         | Py.Ok result => inr result
         | Py.Raise e => inl (PythonError e)
         end in
  match body with
  | inr result => Success result
  | inl (PythonError (Py.ValueError _)) => Failure 400
  | inl _ => Failure 500
  end.

End Api.

(** ** The fusion formula as the specification words it *)

Module FusionSpec.
Import WeightedAI.
Local Open Scope Q_scope.

Definition Qsum (l : list Q) : Q := fold_right Qplus 0 l.

(** The modalities of the weight table that have an entry in the scores,
    each with its component weight. *)
Definition present_in (component_scores : gmap string ModalityScore)
    (weights : list (string * Q)) : list (Q * ModalityScore) :=
  omap (fun cw => (fun s => (snd cw, s)) <$> component_scores !! (fst cw)) weights.

Definition present (component_scores : gmap string ModalityScore)
  : list (Q * ModalityScore) :=
  present_in component_scores component_weights.

(** [Σ (score.d * weight[source] * score.confidence)] *)
Definition numerator (d : category) (ms : list (Q * ModalityScore)) : Q :=
  Qsum (map (fun ws => score_of d (snd ws) * fst ws * confidence (snd ws)) ms).

(** [Σ (weight[source] * score.confidence)] *)
Definition denominator (ms : list (Q * ModalityScore)) : Q :=
  Qsum (map (fun ws => fst ws * confidence (snd ws)) ms).

(** [fused[d]]: the quotient, or 0 when the denominator is 0. *)
Definition fused (d : category) (component_scores : gmap string ModalityScore) : Q :=
  let ms := present component_scores in
  if Qeq_bool (denominator ms) 0 then 0 else numerator d ms / denominator ms.

(** A modality score within its declared ranges. *)
Definition valid_modality (s : ModalityScore) : Prop :=
  (0 <= depression s <= 100) /\ (0 <= anxiety s <= 100)
  /\ (0 <= stress s <= 100) /\ (0 <= confidence s <= 1).

(** [min(max(x, lo), hi)] *)
Definition clip (lo hi x : Q) : Q := Qmin (Qmax x lo) hi.

(** Raw modality outputs within their documented ranges: voice scores in
    [0, 100] with a confidence in [0, 1], label probabilities and emotion
    intensities in [0, 1], keyword counts that are not negative over a
    positive word count. *)
Definition unit_interval (x : Q) : Prop := 0 <= x <= 1.

Definition valid_voice (v : gmap string (gmap string Q)) : Prop :=
  (forall c, 0 <= get (get v (category_name c) ∅) "score" 0 <= 100)
  /\ unit_interval (get (get v "depression" ∅) "confidence" (1 # 2)).

Definition valid_sentiment (s : gmap string Q) : Prop :=
  unit_interval (get s "negative" 0) /\ unit_interval (get s "positive" 0)
  /\ unit_interval (get s "neutral" 0).

Definition valid_keyword (k : gmap string Q) : Prop :=
  0 <= get k "depression_indicators" 0 /\ 0 <= get k "anxiety_indicators" 0
  /\ 0 <= get k "stress_indicators" 0 /\ 0 < get k "total_words" 1.

Definition valid_facial (f : gmap string Q) : Prop :=
  unit_interval (get f "sadness" 0) /\ unit_interval (get f "fear" 0)
  /\ unit_interval (get f "anger" 0) /\ unit_interval (get f "happiness" 0).

(** A requirement on an optional argument, when it is given. *)
Definition when_given {A} (P : A -> Prop) (o : option A) : Prop :=
  match o with
  | Some a => P a
  | None => True
  end.

End FusionSpec.

(** ** The DASS-21 form contract *)

Module FormContract.
Import Py.
Local Open Scope Q_scope.

(** A response the validation loop lets through: a number in [0, 3]. *)
Definition in_range (v : pyval) : Prop :=
  exists q, as_number v = Some q /\ 0 <= q <= 3.

(** A response of the form: one of 0, 1, 2, 3. *)
Definition form_value (v : pyval) : Prop :=
  exists q, as_number v = Some q /\ (q == 0 \/ q == 1 \/ q == 2 \/ q == 3).

(** [len(responses) == 20] and each value in {0, 1, 2, 3}. *)
Definition form_contract (responses : list pyval) : Prop :=
  length responses = 20%nat /\ Forall form_value responses.

(** The questions assigned to a subscale, and their total weight. *)
Definition questions_of (mapping : list (nat * (category * Z))) (c : category)
  : list (nat * (category * Z)) :=
  filter (fun e => fst (snd e) = c) mapping.

Definition subscale_weight (mapping : list (nat * (category * Z))) (c : category) : Z :=
  fold_right Z.add 0%Z (map (fun e => snd (snd e)) (questions_of mapping c)).

End FormContract.

(** ** Keyword counts as the specification names them *)

Module KeywordSpec.
Local Open Scope Q_scope.

(** The key holding the match count of a domain. *)
Definition indicator_key (c : category) : string :=
  category_name c +:+ "_indicators".

(** The match count of a domain (0 when the key is missing). *)
Definition count (keyword_results : gmap string Q) (c : category) : Q :=
  WeightedAI.get keyword_results (indicator_key c) 0.

(** Total matched keywords across the three domains. *)
Definition total_matches (keyword_results : gmap string Q) : Q :=
  count keyword_results Depression + count keyword_results Anxiety
  + count keyword_results Stress.

End KeywordSpec.

(** ** The order of the severity bands *)

Module Bands.

(** normal < mild < moderate < severe < extremely_severe *)
Definition rank (s : severity) : nat :=
  match s with
  | Normal => 0
  | Mild => 1
  | Moderate => 2
  | Severe => 3
  | ExtremelySevere => 4
  end.

(** The severities the risk assessor works from: the entries of the
    dictionary, or normal where a key is missing. *)
Definition severities_of (fs : WeightedAI.FinalScores) : list severity :=
  [ default Normal (WeightedAI.depression_severity fs);
    default Normal (WeightedAI.anxiety_severity fs);
    default Normal (WeightedAI.stress_severity fs) ].

End Bands.

Global Instance risk_eq_dec : EqDecision WeightedAI.risk.
Proof. solve_decision. Defined.

(** ** Concrete inputs used by the examples below *)

Module Scenario.
Import WeightedAI.
Local Open Scope Q_scope.

(** Voice and sentiment both fully confident, depression scores 1 and 0. *)
Definition two_modalities : gmap string ModalityScore :=
  {[ "voice_analysis" :=
       {| depression := 1; anxiety := 0; stress := 0; confidence := 1 |};
     "sentiment_analysis" :=
       {| depression := 0; anxiety := 0; stress := 0; confidence := 1 |} ]}.

(** A voice score that carries no confidence. *)
Definition silent_voice : gmap string ModalityScore :=
  {[ "voice_analysis" :=
       {| depression := 80; anxiety := 10; stress := 30; confidence := 0 |} ]}.

Definition all_threes : list Py.pyval := replicate 20 (Py.PyInt 3).
Definition half_answer : list Py.pyval :=
  Py.PyFloat (3 # 2) :: replicate 19 (Py.PyInt 0).

(** A voice-only assessment whose depression score is 13.5, fully
    confident. *)
Definition voice_13_5 : gmap string (gmap string Q) :=
  {[ "depression" := {[ "score" := 27 # 2; "confidence" := 1 ]} ]}.

(** A questionnaire whose academic category stands at 80 percent, with one
    sad face detected, at stress level high. *)
Definition academic_80 : list (string * gmap string Py.pyval) :=
  [ ("academic", {[ "percentage" := Py.PyInt 80 ]}) ].

Definition one_sad_face : option AssessmentService.FacialAnalysis :=
  Some {| AssessmentService.emotions_detected :=
            Some [ {[ "dominant_emotion" := "sad" ]} ] |}.

(** A keyword result: one depression keyword in a text of ten words. *)
Definition one_in_ten : gmap string Q :=
  {[ "depression_indicators" := 1; "anxiety_indicators" := 0;
     "stress_indicators" := 0; "total_words" := 10 ]}.

(** A sentiment result that puts 0.9 on negative and the given shares on
    neutral and positive. *)
Definition negative_sentiment (neutral positive : Q) : gmap string Q :=
  {[ "negative" := 9 # 10; "neutral" := neutral; "positive" := positive ]}.

End Scenario.

(** ** Conditions on the inputs used below *)

Module Conditions.
Local Open Scope Q_scope.

(** A keyword result that is given, not empty, and whose word count (1 when
    the key is missing) is zero. *)
Definition zero_word_count (keyword_results : option (gmap string Q)) : Prop :=
  exists kw, keyword_results = Some kw
             /\ WeightedAI.truthy (Some kw) = true
             /\ WeightedAI.get kw "total_words" 1 == 0.

(** [minimal < low < moderate < high] *)
Definition risk_rank (r : WeightedEngine.risk_level) : nat :=
  match r with
  | WeightedEngine.Minimal => 0
  | WeightedEngine.LowRisk => 1
  | WeightedEngine.ModerateRisk => 2
  | WeightedEngine.HighRisk => 3
  end.

(** Every component of the items has a weight in the engine's mapping. *)
Definition known_components (items : list (string * Q)) : Prop :=
  Forall (fun item => is_Some (WeightedEngine.lookup_weight
                                 WeightedEngine.weight_mapping (fst item))) items.

(** Position of a subscale in the order depression, anxiety, stress. *)
Definition subscale_index (c : category) : nat :=
  match c with
  | Depression => 0
  | Anxiety => 1
  | Stress => 2
  end.

(** The value of an answer (0 for something that is not a number). *)
Definition answer_value (response : Py.pyval) : Q :=
  default 0 (Py.as_number response).

(** The answers to the questions of a subscale: those at the positions,
    counted from [position], whose remainder modulo 3 is the index of the
    subscale. *)
Fixpoint answers_from (position : nat) (responses : list Py.pyval) (index : nat)
  : list Q :=
  match responses with
  | [] => []
  | response :: rest =>
      if Nat.eqb (position mod 3) index
      then answer_value response :: answers_from (S position) rest index
      else answers_from (S position) rest index
  end.

Definition own_answers (responses : list Py.pyval) (c : category) : list Q :=
  answers_from 0 responses (subscale_index c).

(** A questionnaire response within its scale: a value between 0 and the
    scale maximum, with a weight that is not negative (defaults applied as
    the code applies them). *)
Definition valid_response (r : AssessmentService.Response) : Prop :=
  0 <= default 0 (AssessmentService.value r)
       <= default 5 (AssessmentService.scale_max r)
  /\ 0 <= default 1 (AssessmentService.weight r).

(** [low < mild < moderate < high] ([unknown] counts as the lowest). *)
Definition level_rank (level : string) : nat :=
  if decide (level = "high") then 3
  else if decide (level = "moderate") then 2
  else if decide (level = "mild") then 1
  else 0.

(** No usable facial score: no image, an empty image string, or an analysis
    whose facial score is not positive. *)
Definition no_facial_score
    (facial_emotion_service : string -> AssessmentService.ServiceOutcome)
    (facial_image_data : option string) : Prop :=
  match facial_image_data with
  | Some data =>
      data = ""
      \/ AssessmentService.facial_score
           (AssessmentService.analyze_facial_emotions (facial_emotion_service data)) <= 0
  | None => True
  end.

(** Every category's points are between 0 and the points attainable. *)
Definition tallies_within (l : list (string * AssessmentService.Tally)) : Prop :=
  Forall (fun kv => 0 <= AssessmentService.score (snd kv)
                         <= AssessmentService.max_score (snd kv)) l.

(** Every component collected for every condition has a weight and a
    score between 0 and 100. *)
Definition collected_within (cs : WeightedEngine.ComponentScores) : Prop :=
  forall c, known_components (cs c)
            /\ Forall (fun item => 0 <= snd item <= 100) (cs c).

End Conditions.

(** ** Further concrete inputs *)

Module Sample.
Import WeightedAI.
Local Open Scope Q_scope.

(** A confident voice score next to a facial score without confidence. *)
Definition voice_and_silent_face : gmap string ModalityScore :=
  {[ "voice_analysis" :=
       {| depression := 80; anxiety := 10; stress := 30; confidence := 9 # 10 |};
     "facial_analysis" :=
       {| depression := 50; anxiety := 50; stress := 50; confidence := 0 |} ]}.

(** A keyword result over a text of no words. *)
Definition no_words : gmap string Q :=
  {[ "depression_indicators" := 1; "total_words" := 0 ]}.

(** The component scores of one condition: voice 60, keyword 20. *)
Definition voice_and_keyword : list (string * Q) :=
  [ ("voice", 60); ("keyword", 20) ].

(** Two questionnaire responses, and a facial service that finds nothing. *)
Definition two_answers : list AssessmentService.Response :=
  [ {| AssessmentService.value := Some 4; AssessmentService.weight := None;
       AssessmentService.scale_max := None;
       AssessmentService.category := Some "academic" |};
    {| AssessmentService.value := Some 1; AssessmentService.weight := Some 2;
       AssessmentService.scale_max := None;
       AssessmentService.category := None |} ].

Definition no_service (image : string) : AssessmentService.ServiceOutcome :=
  AssessmentService.ServiceMissing.


End Sample.

(** ** Binary floating point *)

Module Binary64.
Local Open Scope Q_scope.

(** Python's [float] is IEEE 754 binary64: 53 significant bits, results
    rounded to the nearest representable number, ties to the even
    significand.  The exponent is not bounded here, so [fl] agrees with the
    hardware on every number whose magnitude lies between 2^-1022 and 2^1024
    (no subnormal numbers, no overflow to infinity).  An [int] operand is
    the float of the same value, which it is below 2^53. *)

(** [floor (log2 x)] for a positive [x]. *)
Definition exponent (x : Q) : Z :=
  let k := (Z.log2 (Qnum x) - Z.log2 (Z.pos (Qden x)))%Z in
  if Qle_bool (2 ^ k) x then k else (k - 1)%Z.

(** A positive number rounded to 53 significant bits. *)
Definition round_positive (x : Q) : Q :=
  let shift := (52 - exponent x)%Z in
  inject_Z (Py.round_half_even (x * 2 ^ shift)) / 2 ^ shift.

(** The binary64 number nearest to [x]. *)
Definition fl (x : Q) : Q :=
  match Qred x ?= 0 with
  | Eq => 0
  | Gt => Qred (round_positive (Qred x))
  | Lt => Qred (- round_positive (Qred (- x)))
  end.

(** [x + y], [x - y], [x * y] and [x / y] on floats. *)
Definition add (x y : Q) : Q := fl (x + y).
Definition sub (x y : Q) : Q := fl (x - y).
Definition mul (x y : Q) : Q := fl (x * y).
Definition truediv (x y : Q) : Py.result Q :=
  if Qeq_bool y 0 then Py.Raise Py.ZeroDivisionError else Py.Ok (fl (x / y)).

(** [round(x, ndigits)] on a float: the decimal with [ndigits] places
    nearest to the exact value of [x] (ties to even), converted back to the
    nearest float. *)
Definition round (x : Q) (ndigits : nat) : Q := fl (Py.round x ndigits).

(** The unit roundoff 2^-53. *)
Definition u : Q := Eval vm_compute in 1 # (2 ^ 53).

(** [x] is [y] up to [k] roundings: [(1-u)^k * y <= x <= y / (1-u)^k]. *)
Fixpoint shrink (k : nat) : Q :=
  match k with
  | O => 1
  | S k => (1 - u) * shrink k
  end.

Definition close (k : nat) (x y : Q) : Prop :=
  shrink k * y <= x /\ shrink k * x <= y.

(** 2^-k, for tolerances. *)
Definition eps (k : positive) : Q := 1 # (2 ^ k).

End Binary64.

(** ** The fusion engine in floating-point arithmetic *)

Module WeightedAI64.
Import WeightedAI.
Local Open Scope Q_scope.

(** [_process_keyword_results] and [_calculate_weighted_scores] of
    [models/weighted_ai_assessment.py] once more, this time with the
    arithmetic Python performs: the literals with a fraction and the result
    of every operation are binary64 numbers. *)

(** [self.component_weights]: the literals 0.40, 0.25, 0.20 and 0.15. *)
Definition component_weights : list (string * Q) :=
  [ ("voice_analysis", Binary64.fl (40 # 100));
    ("sentiment_analysis", Binary64.fl (25 # 100));
    ("keyword_matching", Binary64.fl (20 # 100));
    ("facial_analysis", Binary64.fl (15 # 100)) ].

Definition _process_keyword_results
    (keyword_results : gmap string Q) : Py.result ModalityScore :=
  if negb (truthy (Some keyword_results)) then Py.Ok zero_scores
  else
    let depression_keywords := get keyword_results "depression_indicators" 0 in
    let anxiety_keywords := get keyword_results "anxiety_indicators" 0 in
    let stress_keywords := get keyword_results "stress_indicators" 0 in
    let total_words := get keyword_results "total_words" 1 in
    let! dd := Binary64.truediv depression_keywords total_words in
    let depression_score := Py.min2 (Binary64.mul dd 500) 100 in
    let! ad := Binary64.truediv anxiety_keywords total_words in
    let anxiety_score := Py.min2 (Binary64.mul ad 500) 100 in
    let! sd := Binary64.truediv stress_keywords total_words in
    let stress_score := Py.min2 (Binary64.mul sd 500) 100 in
    let total_keywords :=
      Binary64.add (Binary64.add depression_keywords anxiety_keywords)
        stress_keywords in
    let! tenth := Binary64.truediv total_keywords 10 in
    let confidence := Py.min2 tenth 1 in
    Py.Ok {| depression := depression_score;
             anxiety := anxiety_score;
             stress := stress_score;
             confidence := confidence |}.

(** One iteration of [for component, weight in component_weights.items()]. *)
Definition accumulate (component_scores : gmap string ModalityScore)
    (a : sums) (cw : string * Q) : sums :=
  match component_scores !! (fst cw) with
  | Some scores =>
      let effective_weight := Binary64.mul (snd cw) (confidence scores) in
      {| total_weight := Binary64.add (total_weight a) effective_weight;
         sum_depression :=
           Binary64.add (sum_depression a)
             (Binary64.mul (depression scores) effective_weight);
         sum_anxiety :=
           Binary64.add (sum_anxiety a)
             (Binary64.mul (anxiety scores) effective_weight);
         sum_stress :=
           Binary64.add (sum_stress a)
             (Binary64.mul (stress scores) effective_weight) |}
  | None => a
  end.

Definition weighted_sums (component_scores : gmap string ModalityScore) : sums :=
  fold_left (accumulate component_scores) component_weights
    {| sum_depression := 0; sum_anxiety := 0; sum_stress := 0; total_weight := 0 |}.

(** [final_scores[category] / total_weight], evaluated when
    [total_weight > 0]. *)
Definition quotient (a : sums) (c : category) : Q :=
  Binary64.fl (sum_of c a / total_weight a).

(** [if total_weight > 0: final_scores[category] =
    round(final_scores[category] / total_weight, 2)] *)
Definition normalize (a : sums) (c : category) : Q :=
  if Py.Qltb 0 (total_weight a)
  then Binary64.round (quotient a c) 2
  else sum_of c a.

Definition _calculate_weighted_scores
    (component_scores : gmap string ModalityScore) : FinalScores :=
  let a := weighted_sums component_scores in
  let d := normalize a Depression in
  let x := normalize a Anxiety in
  let s := normalize a Stress in
  {| final_depression := d;
     final_anxiety := x;
     final_stress := s;
     depression_severity := Some (_score_to_severity d Depression);
     anxiety_severity := Some (_score_to_severity x Anxiety);
     stress_severity := Some (_score_to_severity s Stress) |}.

End WeightedAI64.

(** A float weight table for a table of exact weights that are not
    negative: the same keys, each weight rounded once. *)
Definition rounded_weights (ws64 ws : list (string * Q)) : Prop :=
  Forall2 (fun cw64 cw => fst cw64 = fst cw /\ (0 <= snd cw)%Q
                          /\ Binary64.close 1 (snd cw64) (snd cw)) ws64 ws.

(** ** The standalone engine in floating-point arithmetic *)

Module WeightedEngine64.
Import WeightedEngine.
Local Open Scope Q_scope.

Definition _convert_keywords_to_scores (keyword_results : gmap string Q)
  : Py.result Scores :=
  let total_words := WeightedAI.get keyword_results "total_words" 1 in
  let! depression_density :=
    Binary64.truediv (WeightedAI.get keyword_results "depression_indicators" 0)
      total_words in
  let! anxiety_density :=
    Binary64.truediv (WeightedAI.get keyword_results "anxiety_indicators" 0)
      total_words in
  let! stress_density :=
    Binary64.truediv (WeightedAI.get keyword_results "stress_indicators" 0)
      total_words in
  Py.Ok {| depression := Py.min2 (Binary64.mul depression_density 200) 100;
           anxiety := Py.min2 (Binary64.mul anxiety_density 200) 100;
           stress := Py.min2 (Binary64.mul stress_density 200) 100 |}.

(** [self.component_weights] and [weight_mapping]: the literals 0.40,
    0.25, 0.20 and 0.15 under the short component names. *)
Definition component_weights : list (string * Q) :=
  [ ("voice_analysis", Binary64.fl (40 # 100));
    ("sentiment_analysis", Binary64.fl (25 # 100));
    ("keyword_analysis", Binary64.fl (20 # 100));
    ("facial_analysis", Binary64.fl (15 # 100)) ].

Definition weight_mapping : list (string * Q) :=
  [ ("voice", default 0 (lookup_weight component_weights "voice_analysis"));
    ("sentiment", default 0 (lookup_weight component_weights "sentiment_analysis"));
    ("keyword", default 0 (lookup_weight component_weights "keyword_analysis"));
    ("facial", default 0 (lookup_weight component_weights "facial_analysis")) ].

(** The loop over the items of one condition: [(weighted_sum,
    condition_weight)]. *)
Definition condition_sums (items : list (string * Q)) : Q * Q :=
  fold_left
    (fun acc item =>
       match lookup_weight weight_mapping (fst item) with
       | Some weight =>
           (Binary64.add (fst acc) (Binary64.mul (snd item) weight),
            Binary64.add (snd acc) weight)
       | None => acc
       end)
    items (0, 0).

(** [weighted_sum / condition_weight if condition_weight > 0], else the
    initial 0. *)
Definition weighted_score (items : list (string * Q)) : Q :=
  let sums := condition_sums items in
  if Py.Qltb 0 (snd sums) then Binary64.fl (fst sums / snd sums) else 0.

End WeightedEngine64.

(** ** Conditions on the inputs of the floating-point functions *)

Module FloatConditions.
Local Open Scope Q_scope.

(** The match counts of a keyword result are whole numbers, as counts are
    (below 2^50, so that their sum is a float). *)
Definition whole_counts (keyword_results : gmap string Q) : Prop :=
  forall c, exists n : Z,
    (0 <= n < 2 ^ 50)%Z /\ KeywordSpec.count keyword_results c == inject_Z n.

End FloatConditions.

(** * Properties *)

(** ** Facts about the Python primitives *)
Section PyFacts.
Local Open Scope Q_scope.

Lemma Qltb_true x y : Py.Qltb x y = true <-> x < y.
Proof.
  unfold Py.Qltb. rewrite negb_true_iff, <- not_true_iff_false, Qle_bool_iff.
  split; [apply Qnot_le_lt | apply Qlt_not_le].
Qed.

Lemma Qltb_false x y : Py.Qltb x y = false <-> y <= x.
Proof.
  unfold Py.Qltb. rewrite negb_false_iff. apply Qle_bool_iff.
Qed.

Lemma min2_spec a b : Py.min2 a b == Qmin a b.
Proof.
  unfold Py.min2. destruct (Py.Qltb b a) eqn:E.
  - apply Qltb_true in E. symmetry. apply Q.min_r. lra.
  - apply Qltb_false in E. symmetry. apply Q.min_l. exact E.
Qed.

Lemma max2_spec a b : Py.max2 a b == Qmax a b.
Proof.
  unfold Py.max2. destruct (Py.Qltb a b) eqn:E.
  - apply Qltb_true in E. symmetry. apply Q.max_r. lra.
  - apply Qltb_false in E. symmetry. apply Q.max_l. exact E.
Qed.

Lemma round_half_even_proper x y : x == y -> Py.round_half_even x = Py.round_half_even y.
Proof.
  intros H. unfold Py.round_half_even.
  rewrite (Qfloor_comp _ _ H).
  assert (Hc : (x - inject_Z (Qfloor y) ?= 1 # 2) = (y - inject_Z (Qfloor y) ?= 1 # 2)).
  { apply Qcompare_comp; [rewrite H|]; reflexivity. }
  rewrite Hc. reflexivity.
Qed.

Lemma round_proper x y n : x == y -> Py.round x n = Py.round y n.
Proof.
  intros H. unfold Py.round.
  set (scale := inject_Z (10 ^ Z.of_nat n)).
  rewrite (round_half_even_proper (x * scale) (y * scale)); [reflexivity|].
  rewrite H. reflexivity.
Qed.

Lemma round_half_even_ge (n : Z) x : inject_Z n <= x -> (n <= Py.round_half_even x)%Z.
Proof.
  intros H. apply Qfloor_resp_le in H. rewrite Qfloor_Z in H.
  unfold Py.round_half_even.
  destruct (_ ?= _); [destruct (Z.even _)| |]; lia.
Qed.

Lemma round_half_even_le (n : Z) x : x <= inject_Z n -> (Py.round_half_even x <= n)%Z.
Proof.
  intros H. pose proof (Qfloor_resp_le _ _ H) as Hf. rewrite Qfloor_Z in Hf.
  unfold Py.round_half_even.
  destruct (Z.eq_dec (Qfloor x) n) as [E|E].
  - destruct (Qcompare_spec (x - inject_Z (Qfloor x)) (1 # 2)) as [Hc|Hc|Hc];
      rewrite E in Hc; try lia; lra.
  - destruct (_ ?= _); [destruct (Z.even _)| |]; lia.
Qed.

Lemma scale_pos n : 0 < inject_Z (10 ^ Z.of_nat n).
Proof.
  replace 0 with (inject_Z 0) by reflexivity. rewrite <- Zlt_Qlt.
  apply Z.pow_pos_nonneg; lia.
Qed.

Lemma round_ge (n : Z) x nd : inject_Z n <= x -> inject_Z n <= Py.round x nd.
Proof.
  intros H. unfold Py.round. rewrite Qred_correct.
  pose proof (scale_pos nd) as Hs. set (s := (10 ^ Z.of_nat nd)%Z) in *.
  apply Qle_shift_div_l; [exact Hs|].
  rewrite <- inject_Z_mult, <- Zle_Qle.
  apply round_half_even_ge. rewrite inject_Z_mult.
  apply Qmult_le_compat_r; [exact H | lra].
Qed.

Lemma round_le (n : Z) x nd : x <= inject_Z n -> Py.round x nd <= inject_Z n.
Proof.
  intros H. unfold Py.round. rewrite Qred_correct.
  pose proof (scale_pos nd) as Hs. set (s := (10 ^ Z.of_nat nd)%Z) in *.
  apply Qle_shift_div_r; [exact Hs|].
  rewrite <- inject_Z_mult, <- Zle_Qle.
  apply round_half_even_le. rewrite inject_Z_mult.
  apply Qmult_le_compat_r; [exact H | lra].
Qed.

End PyFacts.

(** ** The fusion engine computes the confidence-weighted mean, rounded *)

Section Fusion.
Import WeightedAI FusionSpec.
Local Open Scope Q_scope.

Lemma fold_accumulate cs ws a :
  total_weight (fold_left (accumulate cs) ws a)
    == total_weight a + denominator (present_in cs ws)
  /\ forall d, sum_of d (fold_left (accumulate cs) ws a)
               == sum_of d a + numerator d (present_in cs ws).
Proof.
  revert a. induction ws as [|[c w] ws IH]; intros a.
  - split; [|intros d]; unfold denominator, numerator; simpl; lra.
  - simpl fold_left. destruct (IH (accumulate cs a (c, w))) as [IHt IHs].
    unfold accumulate, present_in in *. simpl fst in *. simpl snd in *.
    cbn [omap list_omap]. simpl fst. simpl snd.
    destruct (cs !! c) as [s|] eqn:E; cbn [fmap option_fmap option_map].
    + split.
      * rewrite IHt. unfold denominator. simpl. lra.
      * intros d. rewrite (IHs d). unfold numerator.
        destruct d; simpl; lra.
    + split; [exact IHt | exact IHs].
Qed.

Lemma weighted_sums_spec cs :
  total_weight (weighted_sums cs) == denominator (present cs)
  /\ forall d, sum_of d (weighted_sums cs) == numerator d (present cs).
Proof.
  unfold weighted_sums, present.
  destruct (fold_accumulate cs component_weights
              {| sum_depression := 0; sum_anxiety := 0; sum_stress := 0;
                 total_weight := 0 |}) as [Ht Hs].
  split; [rewrite Ht; simpl; lra | intros d; rewrite (Hs d); destruct d; simpl; lra].
Qed.

Lemma final_of_normalize cs d :
  final_of d (_calculate_weighted_scores cs) = normalize (weighted_sums cs) d.
Proof. destruct d; reflexivity. Qed.

Lemma numerator_zero d ms :
  (forall w s, (w, s) ∈ ms -> confidence s == 0) -> numerator d ms == 0.
Proof.
  induction ms as [|[w s] ms IH]; intros H; unfold numerator in *; simpl.
  - reflexivity.
  - rewrite IH.
    + rewrite (H w s) by left. lra.
    + intros w' s' Hin. apply (H w' s'). right. exact Hin.
Qed.

Lemma denominator_zero ms :
  (forall w s, (w, s) ∈ ms -> confidence s == 0) -> denominator ms == 0.
Proof.
  induction ms as [|[w s] ms IH]; intros H; unfold denominator in *; simpl.
  - reflexivity.
  - rewrite IH.
    + rewrite (H w s) by left. lra.
    + intros w' s' Hin. apply (H w' s'). right. exact Hin.
Qed.

Lemma normalize_positive cs d :
  0 < denominator (present cs) ->
  final_of d (_calculate_weighted_scores cs)
  = Py.round (numerator d (present cs) / denominator (present cs)) 2.
Proof.
  intros Hpos. rewrite final_of_normalize. unfold normalize.
  destruct (weighted_sums_spec cs) as [Ht Hs].
  assert (E : Py.Qltb 0 (total_weight (weighted_sums cs)) = true)
    by (apply Qltb_true; rewrite Ht; exact Hpos).
  rewrite E. apply round_proper. rewrite (Hs d), Ht. reflexivity.
Qed.

End Fusion.

(** ** DASS-21: validation and subscale sums *)

Section DASS.
Import Py DASS21 FormContract.
Local Open Scope Q_scope.

Lemma rejected_false v : rejected v = false <-> in_range v.
Proof.
  unfold rejected, in_range. destruct (as_number v) as [q|].
  - rewrite orb_false_iff, !Qltb_false. split.
    + intros [H0 H3]. exists q. auto.
    + intros (q' & [= <-] & H0 & H3). auto.
  - split; [discriminate | intros (q & [=] & _)].
Qed.

Lemma validate_cases i rs :
  (validate i rs = Ok tt /\ Forall in_range rs)
  \/ (exists j v, validate i rs = Raise (ValueError (ResponseOutOfRange j v))
                  /\ v ∈ rs /\ ~ in_range v).
Proof.
  revert i. induction rs as [|r rs IH]; intros i; simpl.
  - left. split; [reflexivity | constructor].
  - destruct (rejected r) eqn:E.
    + right. exists i, r. split; [reflexivity|]. split; [left|].
      intros H. apply rejected_false in H. congruence.
    + apply rejected_false in E. destruct (IH (S i)) as [[H1 H2]|(j & v & H1 & H2 & H3)].
      * left. split; [exact H1 | constructor; assumption].
      * right. exists j, v. split; [exact H1|]. split; [right; exact H2 | exact H3].
Qed.

Lemma subscale_sum_bounds mapping rs c s n :
  Forall in_range rs ->
  (forall idx sub w, (idx, (sub, w)) ∈ mapping -> (idx < length rs)%nat /\ (0 <= w)%Z) ->
  exists s' n',
    subscale_sum mapping rs c s n = Ok (s', n')
    /\ s <= s' <= s + 3 * inject_Z (subscale_weight mapping c)
    /\ n' = (n + length (questions_of mapping c))%nat.
Proof.
  intros Hr. revert s n.
  induction mapping as [|[idx [sub w]] mapping IH]; intros s n Hm.
  - exists s, n. unfold subscale_weight. simpl.
    change (inject_Z 0) with 0. repeat split; [lra | lra | lia].
  - assert (Hm' : forall idx sub w, (idx, (sub, w)) ∈ mapping ->
                                    (idx < length rs)%nat /\ (0 <= w)%Z).
    { intros i' s' w' Hin. apply (Hm i' s' w'). right. exact Hin. }
    destruct (Hm idx sub w) as [Hidx Hw]; [left|].
    unfold subscale_weight, questions_of in *. simpl subscale_sum.
    rewrite filter_cons. simpl fst. simpl snd.
    destruct (decide (sub = c)) as [->|Hne].
    + destruct (lookup_lt_is_Some_2 rs idx Hidx) as [v Hv]. rewrite Hv.
      rewrite Forall_forall in Hr.
      destruct (Hr v) as (q & Hq & Hq0 & Hq3).
      { apply list_elem_of_lookup. eauto. }
      rewrite Hq.
      destruct (IH (s + q * inject_Z w) (S n) Hm') as (s' & n' & E & [Hlo Hhi] & Hn).
      exists s', n'. split; [exact E|].
      assert (Hw' : 0 <= inject_Z w) by (replace 0 with (inject_Z 0) by reflexivity;
                                           rewrite <- Zle_Qle; exact Hw).
      simpl map. simpl fold_right. rewrite inject_Z_plus. cbn [Datatypes.length].
      repeat split; [nra | nra | lia].
    + destruct (IH s n Hm') as (s' & n' & E & Hb & Hn).
      exists s', n'. repeat split; [exact E | apply Hb | apply Hb | exact Hn].
Qed.

Lemma mapping_in_range (rs : list pyval) :
  length rs = 20%nat ->
  forall idx sub w, (idx, (sub, w)) ∈ QUESTION_MAPPING ->
                    (idx < length rs)%nat /\ (0 <= w)%Z.
Proof.
  intros Hl idx sub w Hin. rewrite Hl. unfold QUESTION_MAPPING in Hin.
  repeat (apply elem_of_cons in Hin; destruct Hin as [[= -> -> ->]|Hin]; [split; lia|]).
  inversion Hin.
Qed.

(** A validated list of 20 responses has a subscale score, bounded by
    twice three times the number of questions of the subscale. *)
Lemma subscale_score_bounds rs c :
  length rs = 20%nat -> Forall in_range rs ->
  exists q, _calculate_subscale_score rs c = Ok q
            /\ 0 <= q <= 6 * inject_Z (subscale_weight QUESTION_MAPPING c).
Proof.
  intros Hl Hr. unfold _calculate_subscale_score.
  destruct (subscale_sum_bounds QUESTION_MAPPING rs c 0 O Hr (mapping_in_range rs Hl))
    as (s' & n' & E & [Hlo Hhi] & Hn).
  rewrite E. simpl bind. simpl fst. simpl snd.
  eexists. split; [reflexivity|].
  destruct (Nat.ltb 0 n'); [lra|].
  assert (0 <= inject_Z (subscale_weight QUESTION_MAPPING c)) by (destruct c; vm_compute; discriminate).
  lra.
Qed.

Lemma score_assessment_cases rs :
  (length rs <> 20%nat
   /\ score_assessment rs = Raise (ValueError (ExpectedResponses 20 (length rs))))
  \/ (length rs = 20%nat
      /\ exists j v, score_assessment rs = Raise (ValueError (ResponseOutOfRange j v))
                     /\ v ∈ rs /\ ~ in_range v)
  \/ (length rs = 20%nat /\ Forall in_range rs
      /\ exists r, score_assessment rs = Ok r).
Proof.
  unfold score_assessment, total_questions.
  destruct (Nat.eqb_spec (length rs) 20) as [Hl|Hl]; simpl negb; cbv iota.
  - right. destruct (validate_cases O rs) as [[Hv Hr]|(j & v & Hv & Hin & Hn)].
    + right. split; [exact Hl|]. split; [exact Hr|]. rewrite Hv. simpl bind.
      destruct (subscale_score_bounds rs Depression Hl Hr) as (d & -> & _).
      destruct (subscale_score_bounds rs Anxiety Hl Hr) as (a & -> & _).
      destruct (subscale_score_bounds rs Stress Hl Hr) as (s & -> & _).
      simpl bind. eexists. reflexivity.
    + left. split; [exact Hl|]. exists j, v. rewrite Hv. simpl bind. auto.
  - left. split; [exact Hl | reflexivity].
Qed.

End DASS.

(** ** Scores stay within their declared ranges *)

Section Ranges.
Import Py WeightedAI FusionSpec DASS21 FormContract.
Local Open Scope Q_scope.

Lemma elem_of_present_in cs ws w s :
  (w, s) ∈ present_in cs ws -> exists c, (c, w) ∈ ws /\ cs !! c = Some s.
Proof.
  unfold present_in. rewrite list_elem_of_omap.
  intros ([c w'] & Hin & Hs). simpl in Hs.
  destruct (cs !! c) as [s'|] eqn:E; [|discriminate].
  injection Hs as -> ->. exists c. auto.
Qed.

Lemma component_weights_nonneg c w : (c, w) ∈ component_weights -> 0 <= w.
Proof.
  unfold component_weights. intros Hin.
  repeat (apply elem_of_cons in Hin; destruct Hin as [[= -> ->]|Hin];
          [vm_compute; discriminate|]).
  inversion Hin.
Qed.

Lemma sums_bounds d ms :
  (forall w s, (w, s) ∈ ms -> 0 <= w /\ valid_modality s) ->
  0 <= denominator ms /\ 0 <= numerator d ms <= 100 * denominator ms.
Proof.
  unfold denominator, numerator.
  induction ms as [|[w s] ms IH]; intros H; simpl.
  - lra.
  - destruct IH as (IHd & IHl & IHu).
    { intros w' s' Hin. apply H. right. exact Hin. }
    destruct (H w s) as (Hw & Hdep & Hanx & Hstr & Hc); [left|].
    assert (He : 0 <= w * confidence s) by (apply Qmult_le_0_compat; lra).
    assert (Hs : 0 <= score_of d s <= 100) by (destruct d; assumption).
    assert (Hlo : 0 <= score_of d s * (w * confidence s))
      by (apply Qmult_le_0_compat; lra).
    assert (Hhi : score_of d s * (w * confidence s) <= 100 * (w * confidence s))
      by (apply Qmult_le_compat_r; lra).
    lra.
Qed.

Lemma fused_bounds cs d :
  map_Forall (fun _ s => valid_modality s) cs ->
  0 <= final_of d (_calculate_weighted_scores cs) <= 100.
Proof.
  intros Hv. rewrite final_of_normalize. unfold normalize.
  destruct (weighted_sums_spec cs) as [Ht Hs].
  destruct (sums_bounds d (present cs)) as (Hd & Hl & Hu).
  { intros w s Hin. apply elem_of_present_in in Hin as (c & Hc & Hlk).
    split; [exact (component_weights_nonneg c w Hc) | exact (Hv c s Hlk)]. }
  destruct (Qltb 0 (total_weight (weighted_sums cs))) eqn:E.
  - apply Qltb_true in E. rewrite Ht in E.
    rewrite (round_proper _ (numerator d (present cs) / denominator (present cs)))
      by (rewrite (Hs d), Ht; reflexivity).
    split.
    + apply (round_ge 0). apply Qle_shift_div_l; [exact E | rewrite Qmult_0_l; exact Hl].
    + apply (round_le 100). apply Qle_shift_div_r; [exact E | exact Hu].
  - apply Qltb_false in E. rewrite Ht in E. rewrite (Hs d). lra.
Qed.

Lemma clip_id lo hi x : lo <= x <= hi -> clip lo hi x == x.
Proof.
  intros [Hlo Hhi]. unfold clip.
  rewrite (Q.max_l x lo) by exact Hlo. apply Q.min_l. exact Hhi.
Qed.

Lemma int_bounds q (n : Z) :
  0 <= q <= inject_Z n -> (0 <= int q <= n)%Z.
Proof.
  intros [Hlo Hhi]. unfold int.
  assert (E : Qle_bool 0 q = true) by (apply Qle_bool_iff; exact Hlo).
  rewrite E. apply Qfloor_resp_le in Hlo, Hhi.
  rewrite Qfloor_Z in Hhi. change (Qfloor 0) with 0%Z in Hlo. lia.
Qed.

(** What an accepted submission returns, field by field. *)
Lemma score_assessment_fields rs r :
  score_assessment rs = Ok r ->
  length rs = 20%nat /\ Forall in_range rs
  /\ exists d a s,
      _calculate_subscale_score rs Depression = Ok d
      /\ _calculate_subscale_score rs Anxiety = Ok a
      /\ _calculate_subscale_score rs Stress = Ok s
      /\ (forall c,
            let q := match c with Depression => d | Anxiety => a | Stress => s end in
            field2 r (category_name c) "score" = Some (JInt (int q))
            /\ field2 r (category_name c) "severity"
               = Some (JStr (severity_name (_get_severity q c))))
      /\ field2 r "overall" "severity"
         = Some (JStr (severity_name (_get_overall_severity ((d + a + s) / 3))))
      /\ field2 r "overall" "score" = Some (JFloat (round ((d + a + s) / 3) 1))
      /\ field2 r "overall" "risk_level" = None.
Proof.
  intros H.
  destruct (score_assessment_cases rs)
    as [[_ E]|[(_ & j & v & E & _)|(Hl & Hr & _)]]; [congruence | congruence |].
  split; [exact Hl|]. split; [exact Hr|].
  destruct (subscale_score_bounds rs Depression Hl Hr) as (d & Ed & _).
  destruct (subscale_score_bounds rs Anxiety Hl Hr) as (a & Ea & _).
  destruct (subscale_score_bounds rs Stress Hl Hr) as (s & Es & _).
  exists d, a, s. repeat (split; [assumption|]).
  revert H. unfold score_assessment, total_questions.
  rewrite Hl. simpl negb. cbv iota.
  destruct (validate_cases O rs) as [[-> _]|(j & v & _ & Hin & Hn)].
  - rewrite Ed, Ea, Es. simpl bind. intros [= <-].
    split; [intros c; destruct c; split; reflexivity|].
    repeat split; reflexivity.
  - exfalso. apply Hn. rewrite Forall_forall in Hr. apply Hr. exact Hin.
Qed.

End Ranges.

(** ** Score ranges and the DASS-21 scorer *)

Section Scorer.
Import Py WeightedAI FusionSpec DASS21 FormContract.
Local Open Scope Q_scope.

Lemma subscale_weight_le_7 c : 6 * inject_Z (subscale_weight QUESTION_MAPPING c) <= 42.
Proof. destruct c; vm_compute; discriminate. Qed.

(** C3: for valid inputs every fused domain score lies in [0, 100], so
    that clipping it to [0, 100] after the combination leaves it unchanged,
    and every subscale score the DASS-21 scorer returns lies in [0, 42];
    no returned score is negative. *)
Theorem scores_within_declared_ranges :
  (forall (cs : gmap string ModalityScore) (d : category),
      map_Forall (fun _ s => valid_modality s) cs ->
      0 <= final_of d (_calculate_weighted_scores cs) <= 100
      /\ clip 0 100 (final_of d (_calculate_weighted_scores cs))
         == final_of d (_calculate_weighted_scores cs))
  /\ (forall (rs : list pyval) (r : json) (c : category),
        score_assessment rs = Ok r ->
        exists q, _calculate_subscale_score rs c = Ok q
                  /\ 0 <= q <= 42
                  /\ field2 r (category_name c) "score" = Some (JInt (int q))
                  /\ (0 <= int q <= 42)%Z).
Proof.
  split.
  - intros cs d Hv. pose proof (fused_bounds cs d Hv) as Hb.
    split; [exact Hb | apply clip_id; exact Hb].
  - intros rs r c H.
    destruct (score_assessment_fields rs r H)
      as (Hl & Hr & d & a & s & Ed & Ea & Es & Hf & _).
    destruct (subscale_score_bounds rs c Hl Hr) as (q & Eq & Hq0 & Hq).
    pose proof (subscale_weight_le_7 c) as Hw.
    assert (Hb : 0 <= q <= inject_Z 42) by (change (inject_Z 42) with 42; lra).
    exists q. split; [exact Eq|]. split; [lra|].
    split; [|apply int_bounds; exact Hb].
    destruct (Hf c) as [Hs _]. rewrite Hs.
    destruct c; congruence.
Qed.

Lemma two_modalities_valid :
  map_Forall (fun _ s => valid_modality s) Scenario.two_modalities.
Proof.
  unfold Scenario.two_modalities.
  apply map_Forall_insert_2; [|apply map_Forall_singleton];
    unfold valid_modality; simpl; lra.
Qed.

Lemma scores_within_declared_ranges_witness :
  (0 <= final_of Depression (_calculate_weighted_scores Scenario.two_modalities) <= 100)
  /\ exists q, _calculate_subscale_score Scenario.all_threes Stress = Ok q /\ 0 <= q <= 42.
Proof.
  destruct scores_within_declared_ranges as [Hf Hd]. split.
  - apply (Hf Scenario.two_modalities Depression two_modalities_valid).
  - destruct (score_assessment Scenario.all_threes) as [r|e] eqn:E.
    + destruct (Hd Scenario.all_threes r Stress E) as (q & Hq & Hb & _).
      exists q. split; [exact Hq | exact Hb].
    + vm_compute in E. discriminate E.
Defined.

(** C4, as stated, fails: a form whose first answer is 1.5 violates the
    contract (1.5 is none of 0, 1, 2, 3), yet no error is raised. *)
Lemma fractional_response_is_accepted :
  ~ ((exists e, score_assessment Scenario.half_answer = Raise e)
     <-> ~ form_contract Scenario.half_answer).
Proof.
  intros [_ H].
  destruct H as [e He]; [|vm_compute in He; discriminate He].
  intros [_ Hf]. unfold Scenario.half_answer in Hf.
  apply Forall_cons_1 in Hf as [(q & [= <-] & Hq) _].
  unfold Qeq in Hq. simpl in Hq. lia.
Qed.

(** C4 (amended): the scorer raises if and only if the list does not have
    exactly 20 entries or some entry is not a number between 0 and 3
    inclusive (a non-integer such as 1.5 inside that range is accepted, not
    rejected); whatever it raises is a [ValueError]; and every list of
    exactly 20 responses each in {0, 1, 2, 3} is scored without raising. *)
Theorem validation_rejects_exactly_out_of_range (rs : list pyval) :
  ((exists e, score_assessment rs = Raise e)
   <-> ~ (length rs = 20%nat /\ Forall in_range rs))
  /\ (forall e, score_assessment rs = Raise e -> exists a, e = ValueError a)
  /\ (form_contract rs -> exists r, score_assessment rs = Ok r).
Proof.
  destruct (score_assessment_cases rs)
    as [[Hl E]|[(Hl & j & v & E & Hin & Hn)|(Hl & Hr & r & E)]].
  - split; [|split].
    + split; [intros _ [Hl' _]; contradiction | intros _; eauto].
    + intros e He. rewrite E in He. injection He as <-. eauto.
    + intros [Hl' _]. contradiction.
  - assert (Hnot : ~ Forall in_range rs).
    { intros Hf. rewrite Forall_forall in Hf. exact (Hn (Hf v Hin)). }
    split; [|split].
    + split; [intros _ [_ Hf]; contradiction | intros _; eauto].
    + intros e He. rewrite E in He. injection He as <-. eauto.
    + intros [_ Hf]. exfalso. apply Hnot.
      eapply Forall_impl; [exact Hf|].
      intros x (q & Hq & Hc). exists q. split; [exact Hq|].
      destruct Hc as [Hc|[Hc|[Hc|Hc]]]; rewrite Hc; lra.
  - split; [|split].
    + split; [intros [e He]; congruence | intros Hc; exfalso; apply Hc; auto].
    + intros e He. congruence.
    + intros _. eauto.
Qed.

Lemma all_threes_form_contract : form_contract Scenario.all_threes.
Proof.
  split; [reflexivity|]. unfold Scenario.all_threes.
  apply Forall_replicate. exists 3. split; [reflexivity|].
  right. right. right. reflexivity.
Qed.

Lemma validation_rejects_exactly_out_of_range_witness :
  (exists e, score_assessment (replicate 19 (PyInt 0)) = Raise e)
  /\ (exists a, score_assessment (PyInt 4 :: replicate 19 (PyInt 0))
                = Raise (ValueError a))
  /\ (exists r, score_assessment Scenario.all_threes = Ok r).
Proof.
  split; [|split].
  - apply (proj1 (validation_rejects_exactly_out_of_range (replicate 19 (PyInt 0)))).
    intros [Hl _]. vm_compute in Hl. discriminate Hl.
  - destruct (score_assessment (PyInt 4 :: replicate 19 (PyInt 0))) as [r|e] eqn:E.
    + vm_compute in E. discriminate E.
    + destruct (proj1 (proj2 (validation_rejects_exactly_out_of_range
                                (PyInt 4 :: replicate 19 (PyInt 0)))) e E) as [a ->].
      exists a. reflexivity.
  - apply (proj2 (proj2 (validation_rejects_exactly_out_of_range Scenario.all_threes))).
    exact all_threes_form_contract.
Defined.



(** C10: the fixed mapping assigns 7 of the 20 questions to depression, 7 to
    anxiety and 6 to stress; hence over all accepted response lists the
    stress subscale is at most 36 while depression and anxiety are at most
    42, and an all-threes submission attains exactly (42, 42, 36). *)
Theorem stress_subscale_tops_out_at_36 :
  (length QUESTION_MAPPING = 20%nat
   /\ length (questions_of QUESTION_MAPPING Depression) = 7%nat
   /\ length (questions_of QUESTION_MAPPING Anxiety) = 7%nat
   /\ length (questions_of QUESTION_MAPPING Stress) = 6%nat)
  /\ (forall (rs : list pyval) (r : json),
        score_assessment rs = Ok r ->
        exists d a s,
          _calculate_subscale_score rs Depression = Ok d
          /\ _calculate_subscale_score rs Anxiety = Ok a
          /\ _calculate_subscale_score rs Stress = Ok s
          /\ d <= 42 /\ a <= 42 /\ s <= 36)
  /\ (_calculate_subscale_score Scenario.all_threes Depression = Ok 42
      /\ _calculate_subscale_score Scenario.all_threes Anxiety = Ok 42
      /\ _calculate_subscale_score Scenario.all_threes Stress = Ok 36
      /\ exists r, score_assessment Scenario.all_threes = Ok r
           /\ field2 r "depression" "score" = Some (JInt 42)
           /\ field2 r "anxiety" "score" = Some (JInt 42)
           /\ field2 r "stress" "score" = Some (JInt 36)).
Proof.
  split; [repeat split; reflexivity|]. split.
  - intros rs r H.
    destruct (score_assessment_fields rs r H) as (Hl & Hr & _).
    destruct (subscale_score_bounds rs Depression Hl Hr) as (d & Ed & _ & Hd).
    destruct (subscale_score_bounds rs Anxiety Hl Hr) as (a & Ea & _ & Ha).
    destruct (subscale_score_bounds rs Stress Hl Hr) as (s & Es & _ & Hs).
    exists d, a, s. repeat (split; [assumption|]).
    change (subscale_weight QUESTION_MAPPING Depression) with 7%Z in Hd.
    change (subscale_weight QUESTION_MAPPING Anxiety) with 7%Z in Ha.
    change (subscale_weight QUESTION_MAPPING Stress) with 6%Z in Hs.
    change (inject_Z 7) with 7 in *. change (inject_Z 6) with 6 in *.
    repeat split; lra.
  - repeat (split; [vm_compute; reflexivity|]).
    eexists. split; [vm_compute; reflexivity|].
    repeat split; reflexivity.
Qed.

Lemma stress_subscale_tops_out_at_36_witness :
  exists d a s,
    _calculate_subscale_score Scenario.all_threes Depression = Ok d
    /\ _calculate_subscale_score Scenario.all_threes Anxiety = Ok a
    /\ _calculate_subscale_score Scenario.all_threes Stress = Ok s
    /\ d <= 42 /\ a <= 42 /\ s <= 36.
Proof.
  destruct (score_assessment Scenario.all_threes) as [r|e] eqn:E.
  - exact (proj1 (proj2 stress_subscale_tops_out_at_36) Scenario.all_threes r E).
  - vm_compute in E. discriminate E.
Defined.

End Scorer.

(** ** Severity banding and the risk table *)

Section SeverityBands.
Import Py WeightedAI Bands.
Local Open Scope Q_scope.

Lemma Qle_bool_Z_l (a n : Z) : Qle_bool (a # 1) (inject_Z n) = (a <=? n)%Z.
Proof.
  destruct (Z.leb_spec a n) as [H|H].
  - apply Qle_bool_iff. change (a # 1) with (inject_Z a). rewrite <- Zle_Qle. exact H.
  - apply not_true_is_false. rewrite Qle_bool_iff.
    change (a # 1) with (inject_Z a). rewrite <- Zle_Qle. lia.
Qed.

Lemma Qle_bool_Z_r (a n : Z) : Qle_bool (inject_Z n) (a # 1) = (n <=? a)%Z.
Proof. change (a # 1) with (inject_Z a). apply (Qle_bool_Z_l n a). Qed.

Ltac split_leb :=
  repeat match goal with
    | |- context [(?a <=? ?b)%Z] => destruct (Z.leb_spec a b); try lia
    end.

(** On whole-number scores the tables are exhaustive and disjoint: exactly
    one band contains the score, and it is the one returned. *)
Lemma integer_score_has_one_band (c : category) (n : Z) :
  (0 <= n <= 100)%Z ->
  exists sev, bands_containing (severity_thresholds c) (inject_Z n) = [sev]
              /\ _score_to_severity (inject_Z n) c = sev.
Proof.
  intros Hn. unfold bands_containing, _score_to_severity.
  destruct c; cbn [severity_thresholds first_band List.filter map fst snd];
    change 0 with (0 # 1); rewrite !Qle_bool_Z_l, !Qle_bool_Z_r;
    split_leb; cbn; eauto.
Qed.

Lemma dass_integer_score_has_one_band (c : category) (n : Z) :
  (0 <= n <= 42)%Z ->
  exists sev, bands_containing (DASS21.SEVERITY_THRESHOLDS c) (inject_Z n) = [sev]
              /\ DASS21._get_severity (inject_Z n) c = sev.
Proof.
  intros Hn. unfold bands_containing, DASS21._get_severity.
  destruct c; cbn [DASS21.SEVERITY_THRESHOLDS first_band List.filter map fst snd];
    change 0 with (0 # 1); rewrite !Qle_bool_Z_l, !Qle_bool_Z_r;
    split_leb; cbn; eauto.
Qed.

Example depression_9_is_normal :
  _score_to_severity 9 Depression = Normal
  /\ DASS21._get_severity 9 Depression = Normal.
Proof. split; reflexivity. Qed.

Example depression_10_is_mild :
  _score_to_severity 10 Depression = Mild
  /\ DASS21._get_severity 10 Depression = Mild.
Proof. split; reflexivity. Qed.

(** C2 fails on the code at a fractional score.  A voice-only assessment
    with depression score 13.5 fuses to 13.5, which lies in the valid range
    but in no band of the fusion engine's table (13 is the top of mild, 14
    the bottom of moderate); the lookup falls through every band and
    returns normal, below its neighbours 13 (mild) and 14 (moderate).  The
    sibling engine classifies the same score as moderate, and the DASS-21
    lookup falls through to extremely severe instead. *)
Theorem fractional_score_falls_between_bands :
  (exists report,
      calculate_comprehensive_scores (Some Scenario.voice_13_5) None None None
      = Ok report
      /\ final_depression (final_scores report) = 27 # 2
      /\ depression_severity (final_scores report) = Some Normal)
  /\ bands_containing (severity_thresholds Depression) (27 # 2) = []
  /\ _score_to_severity (27 # 2) Depression = Normal
  /\ _score_to_severity 13 Depression = Mild
  /\ _score_to_severity 14 Depression = Moderate
  /\ WeightedEngine._score_to_severity (27 # 2) Depression = Moderate
  /\ DASS21._get_severity (27 # 2) Depression = ExtremelySevere.
Proof.
  split; [|repeat split; reflexivity].
  assert (H : match calculate_comprehensive_scores
                      (Some Scenario.voice_13_5) None None None with
              | Ok r => Some (final_depression (final_scores r),
                              depression_severity (final_scores r))
              | Raise _ => None
              end = Some (27 # 2, Some Normal)) by (vm_compute; reflexivity).
  destruct (calculate_comprehensive_scores (Some Scenario.voice_13_5) None None None)
    as [report|e]; [|discriminate H].
  injection H as H1 H2. exists report. auto.
Qed.

End SeverityBands.

(** ** Risk assessment *)

Section Risk.
Import Py WeightedAI Bands.

Lemma attention_iff_risk (w : severity) :
  bool_decide (w ∈ [Moderate; Severe; ExtremelySevere]) = true
  <-> risk_mapping w ∈ [Medium; High; Critical].
Proof.
  rewrite bool_decide_eq_true, !list_elem_of_In.
  destruct w; simpl; split; intros H; intuition (try discriminate; auto).
Qed.

Lemma assess_risk_level_total (fs : FinalScores) :
  exists ra, _assess_risk_level fs = Ok ra.
Proof.
  destruct fs as [d a s [sd|] [sa|] [ss|]];
    try destruct sd; try destruct sa; try destruct ss;
    eexists; reflexivity.
Qed.

(** C5: the risk assessor always returns; the severity it reports is the
    worst of the three domain severities; the overall risk is that severity
    mapped through normal/mild to low, moderate to medium, severe to high,
    extremely_severe to critical; and requires_attention holds exactly when
    the risk is medium, high or critical. *)
Theorem risk_is_table_of_worst_severity (fs : FinalScores) :
  exists ra,
    _assess_risk_level fs = Ok ra
    /\ highest_severity ra ∈ severities_of fs
    /\ Forall (fun s => rank s <= rank (highest_severity ra)) (severities_of fs)
    /\ overall_risk ra
       = match highest_severity ra with
         | Normal | Mild => Low
         | Moderate => Medium
         | Severe => High
         | ExtremelySevere => Critical
         end
    /\ (requires_attention ra = true <-> overall_risk ra ∈ [Medium; High; Critical]).
Proof.
  destruct fs as [d a s [sd|] [sa|] [ss|]];
    try destruct sd; try destruct sa; try destruct ss;
    (eexists; split; [reflexivity|]);
    cbn [highest_severity overall_risk requires_attention severities_of
           depression_severity anxiety_severity stress_severity default rank];
    (split; [apply list_elem_of_In; simpl; tauto|]);
    (split; [repeat constructor|]);
    (split; [reflexivity | apply attention_iff_risk]).
Qed.

End Risk.

(** ** Recommendation lists *)

Section Recommendations.
Import Py.

Lemma fromkeys_fold_NoDup (l keys : list string) :
  NoDup keys ->
  NoDup (fold_left (fun keys x => if decide (x ∈ keys) then keys else keys ++ [x])
           l keys).
Proof.
  revert keys. induction l as [|x l IH]; intros keys Hk; simpl.
  - exact Hk.
  - apply IH. destruct (decide (x ∈ keys)) as [Hin|Hout].
    + exact Hk.
    + apply NoDup_app. split; [exact Hk|]. split.
      * intros y Hy Hy'. apply list_elem_of_singleton in Hy'. subst y. contradiction.
      * apply NoDup_singleton.
Qed.

Lemma fromkeys_fold_extends (l keys : list string) :
  exists more,
    fold_left (fun keys x => if decide (x ∈ keys) then keys else keys ++ [x]) l keys
    = keys ++ more.
Proof.
  revert keys. induction l as [|x l IH]; intros keys; simpl.
  - exists []. symmetry. apply app_nil_r.
  - destruct (decide (x ∈ keys)) as [Hin|Hout].
    + apply IH.
    + destruct (IH (keys ++ [x])) as [more ->].
      exists ([x] ++ more). symmetry. apply app_assoc.
Qed.

Lemma fromkeys_NoDup l : NoDup (AssessmentService.fromkeys l).
Proof. apply fromkeys_fold_NoDup. constructor. Qed.

Lemma fromkeys_nonempty l : l <> [] -> AssessmentService.fromkeys l <> [].
Proof.
  destruct l as [|x l]; [congruence|]. intros _.
  unfold AssessmentService.fromkeys. simpl.
  destruct (fromkeys_fold_extends l [x]) as [more E].
  rewrite E. discriminate.
Qed.

Lemma take_nonempty (l : list string) n : l <> [] -> take (S n) l <> [].
Proof. destruct l; [congruence | discriminate]. Qed.

Lemma category_loop_extends cs recs r :
  AssessmentService.category_loop cs recs = Ok r -> exists more, r = recs ++ more.
Proof.
  revert recs. induction cs as [|[category scores] cs IH]; intros recs; simpl.
  - intros [= <-]. exists []. symmetry. apply app_nil_r.
  - destruct (AssessmentService.at_least_70 scores) as [high|e]; simpl; [|discriminate].
    intros H. apply IH in H as [more ->].
    destruct high; [|eauto].
    eexists. symmetry. apply app_assoc.
Qed.

Lemma base_recommendations_nonempty stress_level :
  AssessmentService.base_recommendations stress_level <> [].
Proof.
  unfold AssessmentService.base_recommendations.
  repeat (destruct (decide _); [discriminate|]). discriminate.
Qed.

Lemma generate_recommendations_ok stress_level category_scores facial_analysis :
  let r := AssessmentService.generate_recommendations
             stress_level category_scores facial_analysis in
  NoDup r /\ r <> [] /\ length r <= 8.
Proof.
  unfold AssessmentService.generate_recommendations.
  destruct (AssessmentService.category_loop category_scores
              (AssessmentService.base_recommendations stress_level))
    as [recs|e] eqn:E; simpl.
  - split; [|split].
    + eapply sublist_NoDup; [apply fromkeys_NoDup | apply sublist_take].
    + apply take_nonempty, fromkeys_nonempty.
      apply category_loop_extends in E as [more ->].
      pose proof (base_recommendations_nonempty stress_level) as Hb.
      destruct (AssessmentService.base_recommendations stress_level);
        [congruence | discriminate].
    + rewrite length_take. lia.
  - split; [|split].
    + apply (bool_decide_unpack _). vm_compute. exact I.
    + discriminate.
    + vm_compute. lia.
Qed.

Lemma engine_recommendations_ok (fs : WeightedAI.FinalScores) :
  let r := WeightedAI._generate_recommendations fs in
  NoDup r /\ r <> [] /\ length r <= 8.
Proof.
  destruct fs as [d a s [sd|] [sa|] [ss|]];
    try destruct sd; try destruct sa; try destruct ss;
    (split; [apply (bool_decide_unpack _); vm_compute; exact I|]);
    (split; [discriminate | vm_compute; lia]).
Qed.

(** C6: both recommendation generators are functions of their input alone
    (equal inputs give equal lists), and for every input the list they
    return has no duplicate entries, is not empty, and has at most 8
    entries. *)
Theorem recommendations_distinct_nonempty_capped :
  (forall stress_level category_scores facial_analysis,
      let r := AssessmentService.generate_recommendations
                 stress_level category_scores facial_analysis in
      NoDup r /\ r <> [] /\ length r <= 8)
  /\ (forall fs : WeightedAI.FinalScores,
        let r := WeightedAI._generate_recommendations fs in
        NoDup r /\ r <> [] /\ length r <= 8)
  /\ (forall l1 c1 f1 l2 c2 f2,
        l1 = l2 -> c1 = c2 -> f1 = f2 ->
        AssessmentService.generate_recommendations l1 c1 f1
        = AssessmentService.generate_recommendations l2 c2 f2)
  /\ (forall fs1 fs2 : WeightedAI.FinalScores,
        fs1 = fs2 ->
        WeightedAI._generate_recommendations fs1
        = WeightedAI._generate_recommendations fs2).
Proof.
  split; [exact generate_recommendations_ok|].
  split; [exact engine_recommendations_ok|].
  split; [intros; subst; reflexivity | intros; subst; reflexivity].
Qed.

Lemma recommendations_distinct_nonempty_capped_witness :
  AssessmentService.generate_recommendations "high" Scenario.academic_80
    Scenario.one_sad_face
  = AssessmentService.generate_recommendations "high" Scenario.academic_80
      Scenario.one_sad_face
  /\ length (AssessmentService.generate_recommendations "high" Scenario.academic_80
               Scenario.one_sad_face) = 6.
Proof.
  split.
  - apply (proj1 (proj2 (proj2 recommendations_distinct_nonempty_capped)));
      reflexivity.
  - vm_compute. reflexivity.
Defined.

End Recommendations.

(** ** The keyword normalizers *)

Section Keywords.
Import Py WeightedAI KeywordSpec.
Local Open Scope Q_scope.

Lemma truthy_lookup {V} (m : gmap string V) k v :
  m !! k = Some v -> truthy (Some m) = true.
Proof.
  intros H. unfold truthy. apply negb_true_iff, Nat.eqb_neq.
  apply map_size_ne_0_lookup. exists k. rewrite H. eauto.
Qed.

Lemma truediv_nonzero x y : ~ y == 0 -> truediv x y = Ok (x / y).
Proof.
  intros H. unfold truediv.
  destruct (Qeq_bool y 0) eqn:E; [|reflexivity].
  apply Qeq_bool_iff in E. contradiction.
Qed.

End Keywords.

(** ** A sentiment-only assessment *)

Section Sentiment.
Import Py WeightedAI FusionSpec.
Local Open Scope Q_scope.

Lemma min2_l a b : a <= b -> min2 a b = a.
Proof.
  intros H. unfold min2. apply Qltb_false in H. rewrite H. reflexivity.
Qed.

Lemma max2_l a b : b <= a -> max2 a b = a.
Proof.
  intros H. unfold max2. apply Qltb_false in H. rewrite H. reflexivity.
Qed.

Variables neutral positive : Q.
Hypothesis neutral_nonneg : 0 <= neutral.
Hypothesis positive_nonneg : 0 <= positive.
Hypothesis remaining_share : neutral + positive == 1 # 10.

Let sentiment := Scenario.negative_sentiment neutral positive.
Let scores := _process_sentiment_results sentiment.

Lemma sentiment_scores :
  depression scores == 72
  /\ anxiety scores == 83 - 20 * neutral
  /\ stress scores == 84 - 30 * positive
  /\ confidence scores == 9 # 10.
Proof.
  unfold scores, _process_sentiment_results.
  assert (Hn : sentiment !! "negative" = Some (9 # 10)) by reflexivity.
  assert (Hu : sentiment !! "neutral" = Some neutral) by reflexivity.
  assert (Hp : sentiment !! "positive" = Some positive) by reflexivity.
  rewrite (truthy_lookup _ _ _ Hn). simpl negb. cbv iota.
  unfold get. rewrite Hn, Hu, Hp.
  cbn [default from_option id depression anxiety stress confidence].
  unfold max3. rewrite !min2_l by lra.
  rewrite (max2_l (9 # 10) positive) by lra. rewrite max2_l by lra.
  repeat split; lra.
Qed.

(** With sentiment the only modality that carries confidence, the sums
    reduce to the sentiment terms. *)
Lemma single_modality_sums (cs : gmap string ModalityScore) (s : ModalityScore) :
  cs !! "voice_analysis" = Some zero_scores ->
  cs !! "sentiment_analysis" = Some s ->
  cs !! "keyword_matching" = Some zero_scores ->
  cs !! "facial_analysis" = Some zero_scores ->
  denominator (present cs) == (25 # 100) * confidence s
  /\ forall d, numerator d (present cs) == score_of d s * ((25 # 100) * confidence s).
Proof.
  intros Hv Hs Hk Hf.
  unfold present, present_in, component_weights.
  cbn [omap list_omap fst snd]. rewrite Hv, Hs, Hk, Hf.
  cbn [fmap option_fmap option_map]. unfold denominator, numerator.
  split; [|intros d; destruct d]; simpl; lra.
Qed.

Lemma single_modality_fused (cs : gmap string ModalityScore) (s : ModalityScore) d :
  cs !! "voice_analysis" = Some zero_scores ->
  cs !! "sentiment_analysis" = Some s ->
  cs !! "keyword_matching" = Some zero_scores ->
  cs !! "facial_analysis" = Some zero_scores ->
  0 < confidence s ->
  final_of d (_calculate_weighted_scores cs) = round (score_of d s) 2.
Proof.
  intros Hv Hs Hk Hf Hc.
  destruct (single_modality_sums cs s Hv Hs Hk Hf) as [Hd Hn].
  assert (Hpos : 0 < denominator (present cs)) by (rewrite Hd; lra).
  rewrite (normalize_positive cs d Hpos).
  apply round_proper. rewrite (Hn d), Hd.
  apply Qdiv_mult_l. lra.
Qed.

Lemma sentiment_only_report :
  exists report,
    calculate_comprehensive_scores None (Some sentiment) None None = Ok report
    /\ forall d, final_of d (final_scores report) = round (score_of d scores) 2.
Proof.
  unfold calculate_comprehensive_scores.
  assert (Hn : sentiment !! "negative" = Some (9 # 10)) by reflexivity.
  rewrite (truthy_lookup _ _ _ Hn). cbn [bind].
  match goal with
  | |- context [_assess_risk_level ?fs] =>
      destruct (assess_risk_level_total fs) as (ra & ->)
  end.
  cbn [bind]. eexists. split; [reflexivity|].
  intros d. cbn [final_scores].
  apply single_modality_fused; try reflexivity.
  destruct sentiment_scores as (_ & _ & _ & Hc). fold scores. rewrite Hc. reflexivity.
Qed.

End Sentiment.

Section SentimentOnly.
Import Py WeightedAI FusionSpec.
Local Open Scope Q_scope.

(** C9, as stated, fails: with negative 0.9, neutral 0.1 and positive 0 the
    fused scores are depression 72, anxiety 81 and stress 84, so depression
    is not at least anxiety. *)
Lemma negative_sentiment_not_ordered_by_depression :
  ~ exists report,
      calculate_comprehensive_scores
        None (Some (Scenario.negative_sentiment (1 # 10) 0)) None None = Ok report
      /\ final_anxiety (final_scores report) <= final_depression (final_scores report)
      /\ final_stress (final_scores report) <= final_anxiety (final_scores report).
Proof.
  intros (report & Hr & Ha & _).
  assert (H : match calculate_comprehensive_scores
                      None (Some (Scenario.negative_sentiment (1 # 10) 0)) None None with
              | Ok r => Some (final_depression (final_scores r),
                              final_anxiety (final_scores r))
              | Raise _ => None
              end = Some (72, 81)) by (vm_compute; reflexivity).
  rewrite Hr in H. injection H as Hd Hx. rewrite Hd, Hx in Ha.
  vm_compute in Ha. apply Ha. reflexivity.
Qed.

(** C9 (amended): for a sentiment-only assessment with negative at 0.9 and
    every split of the remaining 0.1 over neutral and positive, the fused
    depression score is exactly 72, anxiety lies in [81, 83] and stress in
    [81, 84]; all three are nonzero and depression is strictly below both
    anxiety and stress. *)
Theorem negative_sentiment_scores (neutral positive : Q) :
  0 <= neutral -> 0 <= positive -> neutral + positive == 1 # 10 ->
  exists report,
    calculate_comprehensive_scores
      None (Some (Scenario.negative_sentiment neutral positive)) None None = Ok report
    /\ final_depression (final_scores report) == 72
    /\ 81 <= final_anxiety (final_scores report) <= 83
    /\ 81 <= final_stress (final_scores report) <= 84
    /\ (~ final_depression (final_scores report) == 0
        /\ ~ final_anxiety (final_scores report) == 0
        /\ ~ final_stress (final_scores report) == 0)
    /\ final_depression (final_scores report) < final_anxiety (final_scores report)
    /\ final_depression (final_scores report) < final_stress (final_scores report).
Proof.
  intros Hn Hp Hsum.
  destruct (sentiment_only_report neutral positive Hn Hp Hsum) as (report & Hr & Hf).
  destruct (sentiment_scores neutral positive Hn Hp Hsum) as (Hd & Ha & Hs & _).
  exists report. split; [exact Hr|].
  pose proof (Hf Depression) as Fd. pose proof (Hf Anxiety) as Fa.
  pose proof (Hf Stress) as Fs. cbn [final_of score_of] in Fd, Fa, Fs.
  assert (Ed : final_depression (final_scores report) == 72).
  { rewrite Fd, (round_proper _ 72 2 Hd). reflexivity. }
  assert (Ea : 81 <= final_anxiety (final_scores report) <= 83).
  { rewrite Fa. split; [apply (round_ge 81) | apply (round_le 83)];
      change (inject_Z 81) with 81; change (inject_Z 83) with 83; lra. }
  assert (Es : 81 <= final_stress (final_scores report) <= 84).
  { rewrite Fs. split; [apply (round_ge 81) | apply (round_le 84)];
      change (inject_Z 81) with 81; change (inject_Z 84) with 84; lra. }
  repeat split; try lra.
Qed.

Lemma negative_sentiment_scores_witness :
  exists report,
    calculate_comprehensive_scores
      None (Some (Scenario.negative_sentiment (1 # 20) (1 # 20))) None None = Ok report
    /\ final_depression (final_scores report) < final_anxiety (final_scores report).
Proof.
  destruct (negative_sentiment_scores (1 # 20) (1 # 20))
    as (report & Hr & _ & _ & _ & _ & Hlt & _).
  - discriminate.
  - discriminate.
  - reflexivity.
  - exists report. split; [exact Hr | exact Hlt].
Defined.

End SentimentOnly.

(** ** The normalizers keep valid raw outputs within range *)

Section NormalizerRanges.
Import Py WeightedAI FusionSpec.
Local Open Scope Q_scope.

Lemma min2_100_bounds x : 0 <= x -> 0 <= min2 x 100 <= 100.
Proof.
  intros H. unfold min2. destruct (Qltb 100 x) eqn:E.
  - lra.
  - apply Qltb_false in E. lra.
Qed.

Lemma max2_unit a b : unit_interval a -> unit_interval b -> unit_interval (max2 a b).
Proof. intros Ha Hb. unfold max2. destruct (Qltb a b); assumption. Qed.

Lemma zero_scores_valid : valid_modality zero_scores.
Proof. unfold valid_modality, zero_scores. simpl. lra. Qed.

Lemma voice_scores_valid v :
  valid_voice v -> valid_modality (_process_voice_results v).
Proof.
  intros [Hs Hc]. unfold _process_voice_results.
  destruct (negb (truthy (Some v))); [exact zero_scores_valid|].
  pose proof (Hs Depression) as Hd. pose proof (Hs Anxiety) as Ha.
  pose proof (Hs Stress) as Ht. simpl category_name in Hd, Ha, Ht.
  unfold valid_modality. cbn [depression anxiety stress confidence].
  repeat split; try (apply min2_100_bounds; lra); apply Hc.
Qed.

Lemma sentiment_scores_valid s :
  valid_sentiment s -> valid_modality (_process_sentiment_results s).
Proof.
  intros (Hn & Hp & Hu). unfold _process_sentiment_results.
  destruct (negb (truthy (Some s))); [exact zero_scores_valid|].
  unfold unit_interval in *.
  unfold valid_modality. cbn [depression anxiety stress confidence].
  split; [apply min2_100_bounds; lra|].
  split; [apply min2_100_bounds; lra|].
  split; [apply min2_100_bounds; lra|].
  apply max2_unit; [apply max2_unit|]; assumption.
Qed.

Lemma facial_scores_valid f :
  valid_facial f -> valid_modality (_process_facial_results f).
Proof.
  intros (Hs & Hf & Ha & Hh). unfold _process_facial_results.
  destruct (negb (truthy (Some f))); [exact zero_scores_valid|].
  unfold unit_interval in *.
  unfold valid_modality. cbn [depression anxiety stress confidence].
  split; [apply min2_100_bounds; lra|].
  split; [apply min2_100_bounds; lra|].
  split; [apply min2_100_bounds; lra|].
  apply max2_unit; [apply max2_unit; [apply max2_unit|]|]; assumption.
Qed.

Lemma keyword_scores_valid k :
  valid_keyword k ->
  exists s, _process_keyword_results k = Ok s /\ valid_modality s.
Proof.
  intros (Hd & Ha & Hs & Ht). unfold _process_keyword_results.
  destruct (negb (truthy (Some k))); [exists zero_scores; split;
                                      [reflexivity | exact zero_scores_valid]|].
  assert (Hnz : ~ get k "total_words" 1 == 0) by lra.
  rewrite !(truediv_nonzero _ _ Hnz). cbn [bind].
  eexists. split; [reflexivity|].
  assert (Hdens : forall x, 0 <= x -> 0 <= x / get k "total_words" 1 * 500).
  { intros x Hx. apply Qmult_le_0_compat; [|lra].
    apply Qle_shift_div_l; [exact Ht | lra]. }
  unfold valid_modality. cbn [depression anxiety stress confidence].
  split; [apply min2_100_bounds, Hdens; exact Hd|].
  split; [apply min2_100_bounds, Hdens; exact Ha|].
  split; [apply min2_100_bounds, Hdens; exact Hs|].
  unfold min2.
  destruct (Qltb 1 _) eqn:E; [lra|]. apply Qltb_false in E.
  split; [|exact E]. apply Qle_shift_div_l; lra.
Qed.

Lemma initial_scores_valid :
  map_Forall (fun _ s => valid_modality s)
    ({[ "voice_analysis" := zero_scores;
        "sentiment_analysis" := zero_scores;
        "keyword_matching" := zero_scores;
        "facial_analysis" := zero_scores ]} : gmap string ModalityScore).
Proof.
  repeat (apply map_Forall_insert_2; [exact zero_scores_valid|]).
  apply map_Forall_empty.
Qed.

(** End to end: on raw outputs within their ranges the engine returns a
    report, and each of its three fused scores lies in [0, 100]. *)
Lemma comprehensive_scores_within_range voice sentiment keyword facial :
  when_given valid_voice voice -> when_given valid_sentiment sentiment ->
  when_given valid_keyword keyword -> when_given valid_facial facial ->
  exists report,
    calculate_comprehensive_scores voice sentiment keyword facial = Ok report
    /\ forall d, 0 <= final_of d (final_scores report) <= 100.
Proof.
  intros Hv Hs Hk Hf. unfold calculate_comprehensive_scores.
  set (cs0 := ({[ "voice_analysis" := zero_scores;
                  "sentiment_analysis" := zero_scores;
                  "keyword_matching" := zero_scores;
                  "facial_analysis" := zero_scores ]} : gmap string ModalityScore)).
  pose proof initial_scores_valid as V0. fold cs0 in V0.
  set (cs1 := match voice with
              | Some v => if truthy voice
                          then <["voice_analysis" := _process_voice_results v]> cs0
                          else cs0
              | None => cs0
              end).
  assert (V1 : map_Forall (fun _ s => valid_modality s) cs1).
  { unfold cs1. destruct voice as [v|]; [|exact V0].
    destruct (truthy (Some v)); [|exact V0].
    apply map_Forall_insert_2; [apply voice_scores_valid; exact Hv | exact V0]. }
  set (cs2 := match sentiment with
              | Some v => if truthy sentiment
                          then <["sentiment_analysis" := _process_sentiment_results v]> cs1
                          else cs1
              | None => cs1
              end).
  assert (V2 : map_Forall (fun _ s => valid_modality s) cs2).
  { unfold cs2. destruct sentiment as [v|]; [|exact V1].
    destruct (truthy (Some v)); [|exact V1].
    apply map_Forall_insert_2; [apply sentiment_scores_valid; exact Hs | exact V1]. }
  assert (V3 : exists cs3,
             match keyword with
             | Some v => if truthy keyword
                         then let! k := _process_keyword_results v in
                              Ok (<["keyword_matching" := k]> cs2)
                         else Ok cs2
             | None => Ok cs2
             end = Ok cs3
             /\ map_Forall (fun _ s => valid_modality s) cs3).
  { destruct keyword as [v|]; [|eauto].
    destruct (truthy (Some v)); [|eauto].
    destruct (keyword_scores_valid v Hk) as (k & -> & Vk). cbn [bind].
    eexists. split; [reflexivity|]. apply map_Forall_insert_2; assumption. }
  destruct V3 as (cs3 & -> & V3). cbn [bind].
  set (cs4 := match facial with
              | Some v => if truthy facial
                          then <["facial_analysis" := _process_facial_results v]> cs3
                          else cs3
              | None => cs3
              end).
  assert (V4 : map_Forall (fun _ s => valid_modality s) cs4).
  { unfold cs4. destruct facial as [v|]; [|exact V3].
    destruct (truthy (Some v)); [|exact V3].
    apply map_Forall_insert_2; [apply facial_scores_valid; exact Hf | exact V3]. }
  destruct (assess_risk_level_total (_calculate_weighted_scores cs4)) as (ra & ->).
  cbn [bind]. eexists. split; [reflexivity|].
  intros d. cbn [final_scores]. apply fused_bounds. exact V4.
Qed.

End NormalizerRanges.

(** * Further properties of the scoring code *)

(** ** Fusion: modalities without confidence, a single confident modality *)

Section FusionInfluence.
Import Py WeightedAI FusionSpec.
Local Open Scope Q_scope.

Lemma Qltb_proper a x y : x == y -> Qltb a x = Qltb a y.
Proof.
  intros H. destruct (Qltb a y) eqn:E.
  - apply Qltb_true. apply Qltb_true in E. lra.
  - apply Qltb_false. apply Qltb_false in E. lra.
Qed.

Lemma Qle_bool_proper a b x y : a == b -> x == y -> Qle_bool a x = Qle_bool b y.
Proof.
  intros Hab Hxy. destruct (Qle_bool b y) eqn:E.
  - apply Qle_bool_iff. apply Qle_bool_iff in E. lra.
  - apply not_true_is_false. intros H. apply Qle_bool_iff in H.
    apply not_true_iff_false in E. apply E. apply Qle_bool_iff. lra.
Qed.

Lemma first_band_proper t x y fallback :
  x == y -> first_band t x fallback = first_band t y fallback.
Proof.
  intros H. induction t as [|[sev [lo hi]] t IH]; simpl; [reflexivity|].
  rewrite (Qle_bool_proper lo lo x y), (Qle_bool_proper x y hi hi), IH;
    (reflexivity || lra).
Qed.

Lemma normalize_proper a1 a2 d :
  total_weight a1 == total_weight a2 -> sum_of d a1 == sum_of d a2 ->
  normalize a1 d == normalize a2 d.
Proof.
  intros Ht Hs. unfold normalize. rewrite (Qltb_proper 0 _ _ Ht).
  destruct (Qltb 0 (total_weight a2)) eqn:E; [|exact Hs].
  rewrite (round_proper _ (sum_of d a2 / total_weight a2)); [reflexivity|].
  rewrite Hs, Ht. reflexivity.
Qed.

Lemma present_in_silent_entry cs k s ws :
  confidence s == 0 ->
  denominator (present_in (<[k:=s]> cs) ws) == denominator (present_in (delete k cs) ws)
  /\ forall d, numerator d (present_in (<[k:=s]> cs) ws)
               == numerator d (present_in (delete k cs) ws).
Proof.
  intros Hc. induction ws as [|[c w] ws [IHd IHn]].
  - split; [|intros d]; reflexivity.
  - unfold present_in in *. cbn [omap list_omap fst snd].
    destruct (decide (k = c)) as [->|Hne].
    + rewrite lookup_insert_eq, lookup_delete_eq. cbn [fmap option_fmap option_map].
      unfold denominator, numerator, Qsum in *. split; [|intros d; specialize (IHn d)];
        cbn [map fold_right fst snd]; rewrite Hc; lra.
    + rewrite lookup_insert_ne, lookup_delete_ne by exact Hne.
      destruct (cs !! c) as [s'|]; cbn [fmap option_fmap option_map].
      * unfold denominator, numerator, Qsum in *. split; [|intros d; specialize (IHn d)];
          cbn [map fold_right fst snd]; lra.
      * split; assumption.
Qed.

(** X1: A modality whose confidence is 0 has no influence: giving it to the
    fusion, whatever its scores, yields the same fused scores and the same
    severities as leaving it out. *)
Theorem zero_confidence_modality_has_no_influence
    (cs : gmap string ModalityScore) (k : string) (s : ModalityScore) (d : category) :
  confidence s == 0 ->
  final_of d (_calculate_weighted_scores (<[k:=s]> cs))
    == final_of d (_calculate_weighted_scores (delete k cs))
  /\ severity_key d (_calculate_weighted_scores (<[k:=s]> cs))
     = severity_key d (_calculate_weighted_scores (delete k cs)).
Proof.
  intros Hc.
  destruct (present_in_silent_entry cs k s component_weights Hc) as [Hd Hn].
  destruct (weighted_sums_spec (<[k:=s]> cs)) as [Ht1 Hs1].
  destruct (weighted_sums_spec (delete k cs)) as [Ht2 Hs2].
  assert (E : normalize (weighted_sums (<[k:=s]> cs)) d
              == normalize (weighted_sums (delete k cs)) d).
  { apply normalize_proper.
    - rewrite Ht1, Ht2. exact Hd.
    - rewrite (Hs1 d), (Hs2 d). exact (Hn d). }
  rewrite !final_of_normalize. split; [exact E|].
  destruct d; cbn [severity_key _calculate_weighted_scores depression_severity
                     anxiety_severity stress_severity];
    f_equal; apply first_band_proper; exact E.
Qed.

Lemma zero_confidence_modality_has_no_influence_witness :
  final_of Depression
    (_calculate_weighted_scores
       (<["facial_analysis" :=
            {| depression := 90; anxiety := 90; stress := 90; confidence := 0 |}]>
          Scenario.two_modalities))
  == final_of Depression
       (_calculate_weighted_scores (delete "facial_analysis" Scenario.two_modalities)).
Proof.
  apply (zero_confidence_modality_has_no_influence Scenario.two_modalities
           "facial_analysis"
           {| depression := 90; anxiety := 90; stress := 90; confidence := 0 |}
           Depression).
  reflexivity.
Defined.

Ltac silence_others H :=
  repeat match goal with
    | |- context [?cs !! ?key] =>
        let E := fresh "E" in
        let s' := fresh "s" in
        destruct (cs !! key) as [s'|] eqn:E;
        [ let Hz := fresh "Hz" in
          assert (Hz : confidence s' == 0) by (apply (H key s'); [discriminate | exact E])
        | ]
    end.

Lemma sole_modality_sums (cs : gmap string ModalityScore) k w s :
  (k, w) ∈ component_weights -> cs !! k = Some s ->
  (forall k' s', k' <> k -> cs !! k' = Some s' -> confidence s' == 0) ->
  denominator (present cs) == w * confidence s
  /\ forall d, numerator d (present cs) == score_of d s * (w * confidence s).
Proof.
  intros Hin Hk Hz. unfold component_weights in Hin.
  unfold present, present_in, component_weights. cbn [omap list_omap fst snd].
  repeat (apply elem_of_cons in Hin; destruct Hin as [[= -> ->]|Hin]);
    [| | | | inversion Hin]; rewrite Hk; silence_others Hz;
    cbn [fmap option_fmap option_map]; unfold denominator, numerator, Qsum;
    (split; [|intros d]); cbn [map fold_right fst snd];
    repeat match goal with Hq : confidence _ == 0 |- _ => rewrite Hq; clear Hq end;
    lra.
Qed.

Lemma filter_none (f : Q -> bool) (l : list Q) :
  (forall x, x ∈ l -> f x = false) -> List.filter f l = [].
Proof.
  induction l as [|x l IH]; intros H; simpl; [reflexivity|].
  rewrite (H x) by left. apply IH. intros y Hy. apply H. right. exact Hy.
Qed.

(** X3: When no modality carries confidence every fused score is 0 and the
    result reads exactly like a normal assessment: severity normal in every
    domain, risk low without attention flag, and the single "appear normal"
    recommendation; only the confidence summary (0.0 over 0 components) tells
    the two apart. *)
Theorem no_confident_modality_reads_as_normal (cs : gmap string ModalityScore) :
  (forall k s, cs !! k = Some s -> confidence s == 0) ->
  (forall d, final_of d (_calculate_weighted_scores cs) == 0
             /\ severity_key d (_calculate_weighted_scores cs) = Some Normal)
  /\ _generate_recommendations (_calculate_weighted_scores cs)
     = ["Mental health indicators appear normal - continue healthy practices"]
  /\ _assess_risk_level (_calculate_weighted_scores cs)
     = Ok {| overall_risk := Low; highest_severity := Normal;
             requires_attention := false |}
  /\ _calculate_overall_confidence cs
     = {| overall_confidence := 0; component_count := 0; confidence_range := None |}.
Proof.
  intros Hz.
  assert (Hp : forall w s, (w, s) ∈ present cs -> confidence s == 0).
  { intros w s Hin. apply elem_of_present_in in Hin as (c & _ & Hl). exact (Hz c s Hl). }
  assert (Hf : forall d, final_of d (_calculate_weighted_scores cs) == 0).
  { intros d. rewrite final_of_normalize. unfold normalize.
    destruct (weighted_sums_spec cs) as [Ht Hs].
    rewrite (Qltb_proper 0 _ 0) by (rewrite Ht; exact (denominator_zero _ Hp)).
    change (Qltb 0 0) with false. cbv iota. rewrite (Hs d).
    exact (numerator_zero d _ Hp). }
  assert (Hsev : forall d, severity_key d (_calculate_weighted_scores cs) = Some Normal).
  { intros d. pose proof (Hf d) as E. rewrite final_of_normalize in E.
    destruct d; cbn [severity_key _calculate_weighted_scores depression_severity
                       anxiety_severity stress_severity];
      f_equal; unfold _score_to_severity;
      rewrite (first_band_proper _ _ 0 Normal E); reflexivity. }
  split; [intros d; split; [exact (Hf d) | exact (Hsev d)]|].
  split; [|split].
  - unfold _generate_recommendations. cbn [flat_map].
    rewrite (Hsev Depression), (Hsev Anxiety), (Hsev Stress). reflexivity.
  - unfold _assess_risk_level.
    change (depression_severity (_calculate_weighted_scores cs))
      with (severity_key Depression (_calculate_weighted_scores cs)).
    change (anxiety_severity (_calculate_weighted_scores cs))
      with (severity_key Anxiety (_calculate_weighted_scores cs)).
    change (stress_severity (_calculate_weighted_scores cs))
      with (severity_key Stress (_calculate_weighted_scores cs)).
    rewrite (Hsev Depression), (Hsev Anxiety), (Hsev Stress). reflexivity.
  - unfold _calculate_overall_confidence, positive_confidences.
    rewrite filter_none; [reflexivity|].
    intros x Hx. apply list_elem_of_fmap in Hx as ([k s] & -> & Hks).
    apply elem_of_map_to_list in Hks. apply Qltb_false.
    rewrite (Hz k s Hks). lra.
Qed.

Lemma no_confident_modality_reads_as_normal_witness :
  _generate_recommendations (_calculate_weighted_scores Scenario.silent_voice)
  = ["Mental health indicators appear normal - continue healthy practices"].
Proof.
  apply (no_confident_modality_reads_as_normal Scenario.silent_voice).
  intros k s Hl. unfold Scenario.silent_voice in Hl.
  apply lookup_singleton_Some in Hl as [_ <-]. reflexivity.
Defined.

End FusionInfluence.

(** ** The only failure of the engines: a keyword result over no words *)

Section ZeroWords.
Import Py Conditions.
Local Open Scope Q_scope.

Lemma truediv_cases x y :
  (y == 0 /\ truediv x y = Raise ZeroDivisionError)
  \/ (~ y == 0 /\ truediv x y = Ok (x / y)).
Proof.
  unfold truediv. destruct (Qeq_bool y 0) eqn:E.
  - left. split; [apply Qeq_bool_iff; exact E | reflexivity].
  - right. split; [|reflexivity]. intros H. apply Qeq_bool_iff in H. congruence.
Qed.

Lemma process_keyword_results_cases (kw : gmap string Q) :
  WeightedAI.truthy (Some kw) = true ->
  (WeightedAI.get kw "total_words" 1 == 0
   /\ WeightedAI._process_keyword_results kw = Raise ZeroDivisionError)
  \/ (~ WeightedAI.get kw "total_words" 1 == 0
      /\ exists s, WeightedAI._process_keyword_results kw = Ok s).
Proof.
  intros Ht. unfold WeightedAI._process_keyword_results. rewrite Ht.
  simpl negb. cbv iota.
  destruct (truediv_cases (WeightedAI.get kw "depression_indicators" 0)
              (WeightedAI.get kw "total_words" 1)) as [[Hz E]|[Hnz _]].
  - left. rewrite E. split; [exact Hz | reflexivity].
  - right. split; [exact Hnz|]. rewrite !(truediv_nonzero _ _ Hnz). cbn [bind]. eauto.
Qed.

Lemma convert_keywords_cases (kw : gmap string Q) :
  (WeightedAI.get kw "total_words" 1 == 0
   /\ WeightedEngine._convert_keywords_to_scores kw = Raise ZeroDivisionError)
  \/ (~ WeightedAI.get kw "total_words" 1 == 0
      /\ exists s, WeightedEngine._convert_keywords_to_scores kw = Ok s).
Proof.
  unfold WeightedEngine._convert_keywords_to_scores.
  destruct (truediv_cases (WeightedAI.get kw "depression_indicators" 0)
              (WeightedAI.get kw "total_words" 1)) as [[Hz E]|[Hnz _]].
  - left. rewrite E. split; [exact Hz | reflexivity].
  - right. split; [exact Hnz|]. rewrite !(truediv_nonzero _ _ Hnz). cbn [bind]. eauto.
Qed.

(** X4: A missing, empty or zero-confidence modality never fails an assessment.
    The fusion engine raises in exactly one situation, a non-empty keyword
    result whose word count is 0, and what it raises is the
    [ZeroDivisionError] of the density; on the same inputs the standalone
    engine returns its error dictionary instead, and on all others it
    returns a report. *)
Theorem engines_fail_only_on_zero_word_count
    (voice : option (gmap string (gmap string Q)))
    (sentiment keyword facial : option (gmap string Q)) :
  ((exists e, WeightedAI.calculate_comprehensive_scores voice sentiment keyword facial
              = Raise e)
   <-> zero_word_count keyword)
  /\ (forall e, WeightedAI.calculate_comprehensive_scores voice sentiment keyword facial
                = Raise e -> e = ZeroDivisionError)
  /\ (WeightedEngine.calculate_comprehensive_scores voice sentiment keyword facial
      = WeightedEngine.Error ZeroDivisionError
      <-> zero_word_count keyword)
  /\ (~ zero_word_count keyword ->
      exists report,
        WeightedEngine.calculate_comprehensive_scores voice sentiment keyword facial
        = WeightedEngine.Assessed report).
Proof.
  unfold WeightedAI.calculate_comprehensive_scores,
    WeightedEngine.calculate_comprehensive_scores, zero_word_count.
  destruct keyword as [kw|].
  - destruct (WeightedAI.truthy (Some kw)) eqn:Ht.
    + destruct (process_keyword_results_cases kw Ht) as [[Hz Ea]|[Hnz [sa Ea]]];
        destruct (convert_keywords_cases kw) as [[Hz' Ee]|[Hnz' [se Ee]]];
        try contradiction; rewrite Ea, Ee; cbn [bind].
      * repeat split; eauto.
        -- intros e [= <-]. reflexivity.
        -- intros H. exfalso. apply H. eauto.
      * match goal with
        | |- context [WeightedAI._assess_risk_level ?fs] =>
            destruct (assess_risk_level_total fs) as (ra & ->)
        end.
        cbn [bind]. repeat split.
        -- intros [e He]. discriminate He.
        -- intros (kw' & [= <-] & _ & Hz). contradiction.
        -- intros e He. discriminate He.
        -- intros He. discriminate He.
        -- intros (kw' & [= <-] & _ & Hz). contradiction.
        -- intros _. eauto.
    + cbn [bind].
      match goal with
      | |- context [WeightedAI._assess_risk_level ?fs] =>
          destruct (assess_risk_level_total fs) as (ra & ->)
      end.
      cbn [bind]. repeat split.
      * intros [e He]. discriminate He.
      * intros (kw' & [= <-] & Ht' & _). congruence.
      * intros e He. discriminate He.
      * intros He. discriminate He.
      * intros (kw' & [= <-] & Ht' & _). congruence.
      * intros _. eauto.
  - cbn [bind].
    match goal with
    | |- context [WeightedAI._assess_risk_level ?fs] =>
        destruct (assess_risk_level_total fs) as (ra & ->)
    end.
    cbn [bind]. repeat split.
    + intros [e He]. discriminate He.
    + intros (kw' & [=] & _).
    + intros e He. discriminate He.
    + intros He. discriminate He.
    + intros (kw' & [=] & _).
    + intros _. eauto.
Qed.

Lemma engines_fail_only_on_zero_word_count_witness :
  (exists e, WeightedAI.calculate_comprehensive_scores
               None None (Some Sample.no_words) None = Raise e)
  /\ WeightedEngine.calculate_comprehensive_scores
       None None (Some Sample.no_words) None
     = WeightedEngine.Error ZeroDivisionError
  /\ exists report,
       WeightedEngine.calculate_comprehensive_scores
         None None (Some Scenario.one_in_ten) None
       = WeightedEngine.Assessed report.
Proof.
  assert (Hz : zero_word_count (Some Sample.no_words)).
  { exists Sample.no_words. repeat split; reflexivity. }
  split; [|split].
  - apply (proj1 (engines_fail_only_on_zero_word_count
                    None None (Some Sample.no_words) None)). exact Hz.
  - apply (proj1 (proj2 (proj2 (engines_fail_only_on_zero_word_count
                                  None None (Some Sample.no_words) None)))). exact Hz.
  - apply (proj2 (proj2 (proj2 (engines_fail_only_on_zero_word_count
                                  None None (Some Scenario.one_in_ten) None)))).
    intros (kw & [= <-] & _ & H). vm_compute in H. discriminate H.
Defined.

End ZeroWords.

(** ** The three severity lookups compared *)

Section SeverityLookups.
Import Py Bands.
Local Open Scope Q_scope.

Ltac split_le_bool :=
  repeat match goal with
    | |- context [Qle_bool ?a ?b] =>
        let E := fresh "E" in
        destruct (Qle_bool a b) eqn:E;
        [apply Qle_bool_iff in E
        | apply not_true_iff_false in E; rewrite Qle_bool_iff in E;
          apply Qnot_le_lt in E];
        try lra
    end.

(** X5: Outside the tables the lookups fall through every band: the fusion
    engine calls a score below 0 or above 100 normal, while the DASS-21
    scorer calls a score below 0 or above 42 extremely severe. *)
Theorem out_of_table_scores_fall_through (score : Q) (c : category) :
  (score < 0 \/ 100 < score -> WeightedAI._score_to_severity score c = Normal)
  /\ (score < 0 \/ 42 < score -> DASS21._get_severity score c = ExtremelySevere).
Proof.
  split; intros H;
    unfold WeightedAI._score_to_severity, DASS21._get_severity;
    destruct c; cbn [WeightedAI.severity_thresholds DASS21.SEVERITY_THRESHOLDS first_band];
    destruct H; split_le_bool; reflexivity.
Qed.

Lemma out_of_table_scores_fall_through_witness :
  WeightedAI._score_to_severity (201 # 2) Depression = Normal
  /\ DASS21._get_severity (-1) Stress = ExtremelySevere.
Proof.
  split.
  - apply (proj1 (out_of_table_scores_fall_through (201 # 2) Depression)).
    right. reflexivity.
  - apply (proj2 (out_of_table_scores_fall_through (-1) Stress)).
    left. reflexivity.
Defined.

(** X6: The standalone engine's cascade has no gaps: it is monotone over all
    scores, fractional ones included. *)
Theorem cascade_severity_is_monotone (x y : Q) (c : category) :
  x <= y ->
  (rank (WeightedEngine._score_to_severity x c)
   <= rank (WeightedEngine._score_to_severity y c))%nat.
Proof.
  intros H. unfold WeightedEngine._score_to_severity.
  destruct c; cbn [WeightedEngine.severity_thresholds WeightedEngine.normal
                     WeightedEngine.mild WeightedEngine.moderate WeightedEngine.severe];
    split_le_bool; cbn [rank]; lia.
Qed.

Lemma cascade_severity_is_monotone_witness :
  (rank (WeightedEngine._score_to_severity (27 # 2) Depression)
   <= rank (WeightedEngine._score_to_severity 14 Depression))%nat.
Proof.
  apply (cascade_severity_is_monotone (27 # 2) 14 Depression). discriminate.
Defined.

Ltac split_leb_Z :=
  repeat match goal with
    | |- context [(?a <=? ?b)%Z] => destruct (Z.leb_spec a b); try lia
    end.

(** X7: On whole-number scores the three lookups encode the same thresholds:
    the fusion engine's band table agrees with the standalone engine's
    cascade on 0..100, and so does the DASS-21 table on 0..42. *)
Theorem lookups_agree_on_whole_scores (n : Z) (c : category) :
  ((0 <= n <= 100)%Z ->
     WeightedAI._score_to_severity (inject_Z n) c
     = WeightedEngine._score_to_severity (inject_Z n) c)
  /\ ((0 <= n <= 42)%Z ->
        DASS21._get_severity (inject_Z n) c
        = WeightedEngine._score_to_severity (inject_Z n) c).
Proof.
  split; intros Hn;
    unfold WeightedAI._score_to_severity, DASS21._get_severity,
      WeightedEngine._score_to_severity;
    destruct c;
    cbn [WeightedAI.severity_thresholds DASS21.SEVERITY_THRESHOLDS first_band
           WeightedEngine.severity_thresholds WeightedEngine.normal
           WeightedEngine.mild WeightedEngine.moderate WeightedEngine.severe];
    change 0 with (0 # 1); rewrite !Qle_bool_Z_l, !Qle_bool_Z_r;
    split_leb_Z; reflexivity.
Qed.

Lemma lookups_agree_on_whole_scores_witness :
  WeightedAI._score_to_severity (inject_Z 13) Depression
  = WeightedEngine._score_to_severity (inject_Z 13) Depression
  /\ DASS21._get_severity (inject_Z 34) Stress
     = WeightedEngine._score_to_severity (inject_Z 34) Stress.
Proof.
  split.
  - apply (proj1 (lookups_agree_on_whole_scores 13 Depression)). lia.
  - apply (proj2 (lookups_agree_on_whole_scores 34 Stress)). lia.
Defined.

End SeverityLookups.

(** ** What the engine's recommendations say about the severities *)

Section EngineRecommendations.
Import Py WeightedAI.

Lemma iff_by_bool_decide (P R : Prop) `{Decision P} `{Decision R} :
  bool_decide P = bool_decide R -> (P <-> R).
Proof.
  intros E. rewrite <- (bool_decide_spec P), <- (bool_decide_spec R), E. reflexivity.
Qed.

(** X8: The engine recommends immediate professional consultation for a domain
    exactly when that domain is severe or extremely severe, and it gives the
    "appear normal" message exactly when all three domains are normal. *)
Theorem urgent_recommendation_iff_severe (fs : FinalScores) :
  (forall c,
      ("Immediate professional consultation recommended for " +:+ category_name c)
        ∈ _generate_recommendations fs
      <-> default Normal (severity_key c fs) ∈ [Severe; ExtremelySevere])
  /\ ("Mental health indicators appear normal - continue healthy practices"
        ∈ _generate_recommendations fs
      <-> Forall (fun c => default Normal (severity_key c fs) = Normal)
            [Depression; Anxiety; Stress]).
Proof.
  destruct fs as [d a s [sd|] [sa|] [ss|]];
    try destruct sd; try destruct sa; try destruct ss;
    (split; [intros c; destruct c|]);
    apply (iff_by_bool_decide _ _); vm_compute; reflexivity.
Qed.

End EngineRecommendations.

(** ** The confidence summary *)

Section ConfidenceSummary.
Import Py WeightedAI.
Local Open Scope Q_scope.

Lemma round_half_even_monotone x y :
  x <= y -> (round_half_even x <= round_half_even y)%Z.
Proof.
  intros H. pose proof (Qfloor_resp_le _ _ H) as Hf.
  pose proof (Qfloor_le x) as Hx. pose proof (Qlt_floor x) as Hx'.
  pose proof (Qfloor_le y) as Hy. pose proof (Qlt_floor y) as Hy'.
  unfold round_half_even.
  destruct (Z.eq_dec (Qfloor x) (Qfloor y)) as [E|E].
  - rewrite E in *.
    destruct (Qcompare_spec (x - inject_Z (Qfloor y)) (1 # 2)) as [Cx|Cx|Cx];
      destruct (Qcompare_spec (y - inject_Z (Qfloor y)) (1 # 2)) as [Cy|Cy|Cy];
      try destruct (Z.even (Qfloor y)); try lia; lra.
  - assert (Hlt : (Qfloor x + 1 <= Qfloor y)%Z) by lia.
    destruct (Qcompare_spec (x - inject_Z (Qfloor x)) (1 # 2)) as [Cx|Cx|Cx];
      destruct (Qcompare_spec (y - inject_Z (Qfloor y)) (1 # 2)) as [Cy|Cy|Cy];
      try destruct (Z.even (Qfloor x)); try destruct (Z.even (Qfloor y)); lia.
Qed.









End ConfidenceSummary.

(** ** The standalone engine: weighted average, sentiment, risk *)

Section StandaloneEngine.
Import Py WeightedEngine Conditions.
Local Open Scope Q_scope.

Lemma lookup_weight_positive k w :
  lookup_weight weight_mapping k = Some w -> 0 < w.
Proof.
  unfold weight_mapping. cbn [lookup_weight].
  repeat (destruct (decide _); [intros [= <-]; reflexivity|]).
  discriminate.
Qed.

Lemma condition_sums_fold lo hi items ws cw :
  Forall (fun item => lo <= snd item <= hi) items ->
  let r := fold_left
             (fun acc item =>
                match lookup_weight weight_mapping (fst item) with
                | Some weight => (fst acc + snd item * weight, snd acc + weight)
                | None => acc
                end) items (ws, cw) in
  cw <= snd r
  /\ lo * (snd r - cw) <= fst r - ws <= hi * (snd r - cw)
  /\ (items <> [] -> known_components items -> cw < snd r).
Proof.
  intros Hall. revert ws cw.
  induction Hall as [|[k v] items [Hlo Hhi] _ IH]; intros ws cw; cbn [fold_left fst snd].
  - repeat split; try lra. congruence.
  - destruct (lookup_weight weight_mapping k) as [w|] eqn:E.
    + pose proof (lookup_weight_positive k w E) as Hw.
      destruct (IH (ws + v * w) (cw + w)) as (H1 & [H2 H3] & _).
      cbn [fst snd] in *. repeat split; first [nra | intros _ _; lra].
    + destruct (IH ws cw) as (H1 & H2 & _).
      repeat split; try apply H2; try exact H1.
      intros _ Hk. apply Forall_cons_1 in Hk as [[w Hk] _].
      cbn [fst] in Hk. congruence.
Qed.

Lemma max2_0_monotone x y : x <= y -> max2 0 x <= max2 0 y.
Proof.
  intros H. unfold max2.
  destruct (Qltb 0 x) eqn:Ex; destruct (Qltb 0 y) eqn:Ey;
    try apply Qltb_true in Ex; try apply Qltb_false in Ex;
    try apply Qltb_true in Ey; try apply Qltb_false in Ey; lra.
Qed.

Lemma max2_0_nonneg x : 0 <= max2 0 x.
Proof.
  unfold max2. destruct (Qltb 0 x) eqn:E; [apply Qltb_true in E|]; lra.
Qed.

(** X11: The standalone engine's sentiment conversion never goes below 0, and
    for a negative-sentiment share that is not negative it orders the domains
    anxiety <= stress <= depression; a larger positive share never raises
    any of the three. *)
Theorem sentiment_conversion_order (sentiment : gmap string Q) :
  (forall c, 0 <= score_of c (_convert_sentiment_to_scores sentiment))
  /\ (0 <= WeightedAI.get sentiment "negative" 0 ->
      anxiety (_convert_sentiment_to_scores sentiment)
      <= stress (_convert_sentiment_to_scores sentiment)
      /\ stress (_convert_sentiment_to_scores sentiment)
         <= depression (_convert_sentiment_to_scores sentiment))
  /\ (forall p c,
        WeightedAI.get sentiment "positive" 0 <= p ->
        score_of c (_convert_sentiment_to_scores (<["positive" := p]> sentiment))
        <= score_of c (_convert_sentiment_to_scores sentiment)).
Proof.
  split; [|split].
  - intros c. destruct c; apply max2_0_nonneg.
  - intros Hn. unfold _convert_sentiment_to_scores. cbn [anxiety stress depression].
    split; apply max2_0_monotone; lra.
  - intros p c Hp. unfold _convert_sentiment_to_scores, WeightedAI.get.
    rewrite lookup_insert_eq, lookup_insert_ne by discriminate.
    cbn [default from_option id].
    fold (WeightedAI.get sentiment "negative" 0).
    fold (WeightedAI.get sentiment "positive" 0) in *.
    destruct c; cbn [score_of anxiety stress depression];
      apply max2_0_monotone; lra.
Qed.

Lemma sentiment_conversion_order_witness :
  anxiety (_convert_sentiment_to_scores (Scenario.negative_sentiment (1 # 20) (1 # 20)))
  <= stress (_convert_sentiment_to_scores (Scenario.negative_sentiment (1 # 20) (1 # 20))).
Proof.
  apply (proj1 (proj2 (sentiment_conversion_order
                         (Scenario.negative_sentiment (1 # 20) (1 # 20))))).
  discriminate.
Defined.

Lemma max2_monotone a b a' b' : a <= a' -> b <= b' -> max2 a b <= max2 a' b'.
Proof.
  intros Ha Hb. unfold max2.
  destruct (Qltb a b) eqn:E; destruct (Qltb a' b') eqn:E';
    try apply Qltb_true in E; try apply Qltb_false in E;
    try apply Qltb_true in E'; try apply Qltb_false in E'; lra.
Qed.

Ltac split_le_bool' :=
  repeat match goal with
    | |- context [Qle_bool ?a ?b] =>
        let E := fresh "E" in
        destruct (Qle_bool a b) eqn:E;
        [apply Qle_bool_iff in E
        | apply not_true_iff_false in E; rewrite Qle_bool_iff in E;
          apply Qnot_le_lt in E];
        try lra
    end.

(** X12: The standalone engine's overall risk never drops when scores rise: if
    no domain score is lower in a second result, its risk level is at least
    as high. *)
Theorem overall_risk_is_monotone (fs1 fs2 : FinalScores) :
  (forall c, score_of c (final fs1) <= score_of c (final fs2)) ->
  (risk_rank (overall_risk (_assess_overall_risk fs1))
   <= risk_rank (overall_risk (_assess_overall_risk fs2)))%nat.
Proof.
  intros H. pose proof (H Depression) as Hd. pose proof (H Anxiety) as Ha.
  pose proof (H Stress) as Hs. cbn [score_of] in Hd, Ha, Hs.
  unfold _assess_overall_risk. cbn [overall_risk].
  assert (Hm : max3 (depression (final fs1)) (anxiety (final fs1)) (stress (final fs1))
               <= max3 (depression (final fs2)) (anxiety (final fs2)) (stress (final fs2))).
  { unfold max3. apply max2_monotone; [apply max2_monotone|]; assumption. }
  assert (Hv : (depression (final fs1) + anxiety (final fs1) + stress (final fs1)) / 3
               <= (depression (final fs2) + anxiety (final fs2) + stress (final fs2)) / 3).
  { apply Qmult_le_compat_r; [lra | discriminate]. }
  set (m1 := max3 _ _ _) in *. set (m2 := max3 _ _ _) in *.
  set (v1 := (_ / 3)) in *. set (v2 := (_ / 3)) in *.
  split_le_bool'; cbn [orb risk_rank]; lia.
Qed.

Lemma overall_risk_is_monotone_witness :
  (risk_rank (overall_risk (_assess_overall_risk
                              (_calculate_weighted_scores (fun _ => []))))
   <= risk_rank (overall_risk (_assess_overall_risk
                                 (_calculate_weighted_scores
                                    (fun _ => Sample.voice_and_keyword)))))%nat.
Proof.
  apply (overall_risk_is_monotone
           (_calculate_weighted_scores (fun _ => []))
           (_calculate_weighted_scores (fun _ => Sample.voice_and_keyword))).
  intros c. destruct c; discriminate.
Defined.

(** X13: The primary concern is a domain with the highest score, and a tie goes
    to the earlier of depression, anxiety, stress: a later domain is named
    only when its score is strictly above every earlier one. *)
Theorem primary_concern_has_highest_score (fs : FinalScores) :
  (forall c, score_of c (final fs)
             <= score_of (_identify_primary_concern fs) (final fs))
  /\ (_identify_primary_concern fs = Anxiety ->
      depression (final fs) < anxiety (final fs))
  /\ (_identify_primary_concern fs = Stress ->
      depression (final fs) < stress (final fs)
      /\ anxiety (final fs) < stress (final fs)).
Proof.
  unfold _identify_primary_concern. cbn [fold_left score_of].
  destruct (Qltb (depression (final fs)) (anxiety (final fs))) eqn:E1;
    cbn [score_of];
    [apply Qltb_true in E1 | apply Qltb_false in E1];
    match goal with
    | |- context [Qltb ?a ?b] =>
        destruct (Qltb a b) eqn:E2;
        [apply Qltb_true in E2 | apply Qltb_false in E2]
    end;
    (split; [intros c; destruct c; cbn [score_of]; lra|]);
    (split; [intros Hp; try discriminate Hp; lra|]);
    intros Hp; try discriminate Hp; lra.
Qed.

Lemma primary_concern_has_highest_score_witness :
  depression (final (_calculate_weighted_scores (fun _ => Sample.voice_and_keyword)))
  <= score_of
       (_identify_primary_concern
          (_calculate_weighted_scores (fun _ => Sample.voice_and_keyword)))
       (final (_calculate_weighted_scores (fun _ => Sample.voice_and_keyword))).
Proof.
  exact (proj1 (primary_concern_has_highest_score
                  (_calculate_weighted_scores (fun _ => Sample.voice_and_keyword)))
           Depression).
Defined.

End StandaloneEngine.

(** ** DASS-21: what is reported, and how answers enter the subscales *)

Section DASSAnswers.
Import Py DASS21 FormContract Conditions Bands.
Local Open Scope Q_scope.

Lemma validate_first_offender i0 rs i v :
  validate i0 rs = Raise (ValueError (ResponseOutOfRange i v)) ->
  exists j, i = (i0 + j)%nat /\ rs !! j = Some v /\ rejected v = true
            /\ forall j' w, (j' < j)%nat -> rs !! j' = Some w -> rejected w = false.
Proof.
  revert i0. induction rs as [|r rs IH]; intros i0; simpl; [discriminate|].
  destruct (rejected r) eqn:E.
  - intros [= <- <-]. exists O. split; [lia|]. split; [reflexivity|].
    split; [exact E|]. intros j' w Hj. lia.
  - intros H. destruct (IH (S i0) H) as (j & -> & Hl & Hr & Hbefore).
    exists (S j). split; [lia|]. split; [exact Hl|]. split; [exact Hr|].
    intros [|j'] w Hj Hw.
    + simpl in Hw. injection Hw as <-. exact E.
    + apply (Hbefore j' w); [lia | exact Hw].
Qed.

Lemma score_assessment_validation_error rs e :
  length rs = 20%nat -> validate O rs = Raise e -> score_assessment rs = Raise e.
Proof.
  intros Hl Hv. unfold score_assessment, total_questions.
  rewrite Hl, Hv. reflexivity.
Qed.

(** X14: A wrong number of responses is reported before any response is looked
    at, with the count found; otherwise the error names the first response
    that is out of range, with its position and value, and every response
    before it is in range. *)
Theorem validation_reports_the_first_offender (rs : list pyval) :
  (length rs <> 20%nat ->
   score_assessment rs = Raise (ValueError (ExpectedResponses 20 (length rs))))
  /\ (forall i v,
        score_assessment rs = Raise (ValueError (ResponseOutOfRange i v)) ->
        length rs = 20%nat /\ rs !! i = Some v /\ rejected v = true
        /\ forall j w, (j < i)%nat -> rs !! j = Some w -> rejected w = false).
Proof.
  split.
  - intros Hl. destruct (score_assessment_cases rs)
      as [[_ E]|[(Hl' & _)|(Hl' & _)]]; [exact E | contradiction | contradiction].
  - intros i v H.
    destruct (score_assessment_cases rs)
      as [[Hl E]|[(Hl & _)|(Hl & Hr & r & E)]]; [congruence | | congruence].
    split; [exact Hl|].
    destruct (validate_cases O rs) as [[Hv Hr]|(j & w & Hv & _)].
    + destruct (score_assessment_cases rs)
        as [[Hl' _]|[(_ & j & w & _ & Hin & Hn)|(_ & _ & r & E)]];
        [contradiction | | congruence].
      exfalso. apply Hn. rewrite Forall_forall in Hr. exact (Hr w Hin).
    + pose proof (score_assessment_validation_error rs _ Hl Hv) as E.
      rewrite E in H. injection H as -> ->.
      destruct (validate_first_offender O rs i v Hv) as (j' & -> & H1 & H2 & H3).
      simpl. auto.
Qed.

Lemma validation_reports_the_first_offender_witness :
  score_assessment (replicate 3 (PyInt 7))
  = Raise (ValueError (ExpectedResponses 20 3)).
Proof.
  apply (proj1 (validation_reports_the_first_offender (replicate 3 (PyInt 7)))).
  discriminate.
Defined.

(** The sum the loop accumulates, for any mapping: the answers of the
    subscale's questions, each times its weight. *)
Lemma subscale_sum_value mapping rs c s n :
  Forall in_range rs ->
  (forall idx sub w, (idx, (sub, w)) ∈ mapping -> (idx < length rs)%nat) ->
  exists s' n',
    subscale_sum mapping rs c s n = Ok (s', n')
    /\ s' == s + fold_right Qplus 0
                   (map (fun e => answer_value (default PyNone (rs !! fst e))
                                  * inject_Z (snd (snd e)))
                      (questions_of mapping c)).
Proof.
  intros Hr. revert s n.
  induction mapping as [|[idx [sub w]] mapping IH]; intros s n Hm.
  - exists s, n. split; [reflexivity|]. unfold questions_of. simpl. lra.
  - assert (Hm' : forall idx sub w, (idx, (sub, w)) ∈ mapping -> (idx < length rs)%nat).
    { intros i' s' w' Hin. apply (Hm i' s' w'). right. exact Hin. }
    pose proof (Hm idx sub w ltac:(left)) as Hidx.
    unfold questions_of in *. simpl subscale_sum.
    rewrite filter_cons. simpl fst. simpl snd.
    destruct (decide (sub = c)) as [->|Hne].
    + destruct (lookup_lt_is_Some_2 rs idx Hidx) as [v Hv]. rewrite Hv.
      rewrite Forall_forall in Hr.
      destruct (Hr v) as (q & Hq & _).
      { apply list_elem_of_lookup. eauto. }
      rewrite Hq.
      destruct (IH (s + q * inject_Z w) (S n) Hm') as (s' & n' & E & Hs).
      exists s', n'. split; [exact E|].
      cbn [map fold_right fst snd]. rewrite Hv. cbn [default from_option id].
      unfold answer_value at 1. rewrite Hq. cbn [default from_option id].
      rewrite Hs. ring.
    + destruct (IH s n Hm') as (s' & n' & E & Hs).
      exists s', n'. split; [exact E | exact Hs].
Qed.

Lemma subscale_score_is_mapping_sum (rs : list pyval) (r : json) (c : category) :
  score_assessment rs = Ok r ->
  length rs = 20%nat
  /\ exists q, _calculate_subscale_score rs c = Ok q
               /\ q == 2 * fold_right Qplus 0
                             (map (fun e =>
                                     answer_value (default PyNone (rs !! fst e))
                                     * inject_Z (snd (snd e)))
                                (questions_of QUESTION_MAPPING c)).
Proof.
  intros H. destruct (score_assessment_fields rs r H) as (Hl & Hr & _).
  split; [exact Hl|].
  destruct (subscale_sum_value QUESTION_MAPPING rs c 0 O Hr)
    as (s' & n' & E & Hs).
  { intros idx sub w Hin. exact (proj1 (mapping_in_range rs Hl idx sub w Hin)). }
  destruct (subscale_sum_bounds QUESTION_MAPPING rs c 0 O Hr (mapping_in_range rs Hl))
    as (s2 & n2 & E2 & _ & Hn).
  rewrite E in E2. injection E2 as <- <-.
  unfold _calculate_subscale_score. rewrite E. cbn [bind fst snd].
  assert (Hpos : Nat.ltb 0 n' = true).
  { apply Nat.ltb_lt. rewrite Hn. destruct c; vm_compute; lia. }
  rewrite Hpos. eexists. split; [reflexivity|]. rewrite Hs. lra.
Qed.

Lemma mapping_sum_own_answers (rs : list pyval) (c : category) :
  length rs = 20%nat ->
  fold_right Qplus 0
    (map (fun e => answer_value (default PyNone (rs !! fst e))
                   * inject_Z (snd (snd e)))
       (questions_of QUESTION_MAPPING c))
  == fold_right Qplus 0 (own_answers rs c).
Proof.
  intros Hl.
  destruct rs as [|r0 [|r1 [|r2 [|r3 [|r4 [|r5 [|r6 [|r7 [|r8 [|r9 [|r10 [|r11
    [|r12 [|r13 [|r14 [|r15 [|r16 [|r17 [|r18 [|r19 [|r20 rs]]]]]]]]]]]]]]]]]]]]];
    try discriminate Hl.
  destruct c;
    cbv [own_answers answers_from subscale_index Nat.eqb Nat.modulo Nat.divmod
           Nat.sub fst snd];
    cbv [questions_of QUESTION_MAPPING filter list_filter decide_rel decide
           category_eq_dec category_rect category_rec sumbool_rec sumbool_rect
           map fold_right fst snd lookup list_lookup default from_option id];
    change (inject_Z 1) with 1; ring.
Qed.

Lemma form_contract_accepted rs :
  form_contract rs -> exists r, score_assessment rs = Ok r.
Proof.
  intros [Hl Hf].
  destruct (score_assessment_cases rs)
    as [[Hl' _]|[(_ & j & v & _ & Hin & Hn)|(_ & _ & r & E)]];
    [contradiction | | eauto].
  exfalso. apply Hn. rewrite Forall_forall in Hf.
  destruct (Hf v Hin) as (q & Hq & Hc). exists q. split; [exact Hq|].
  destruct Hc as [Hc|[Hc|[Hc|Hc]]]; rewrite Hc; lra.
Qed.

(** X15: Each answer counts, doubled, toward exactly one subscale: on a form
    filled with whole answers 0..3 the depression score is twice the sum of
    the answers at positions 0, 3, 6, ..., the anxiety score that of
    positions 1, 4, 7, ..., and the stress score that of positions 2, 5, 8,
    ... (whole answers are added without rounding error). *)
Theorem subscale_is_twice_its_own_answers (rs : list pyval) (c : category) :
  form_contract rs ->
  exists q, _calculate_subscale_score rs c = Ok q
            /\ q == 2 * fold_right Qplus 0 (own_answers rs c).
Proof.
  intros Hc. destruct (form_contract_accepted rs Hc) as [r H].
  destruct (subscale_score_is_mapping_sum rs r c H) as (Hl & q & Hq & Hs).
  exists q. split; [exact Hq|].
  rewrite Hs, (mapping_sum_own_answers rs c Hl). reflexivity.
Qed.

Lemma subscale_is_twice_its_own_answers_witness :
  exists q, _calculate_subscale_score Scenario.all_threes Stress = Ok q
            /\ q == 2 * fold_right Qplus 0 (own_answers Scenario.all_threes Stress).
Proof.
  exact (subscale_is_twice_its_own_answers Scenario.all_threes Stress
           all_threes_form_contract).
Defined.

Lemma whole_answers j rs k :
  Forall form_value rs ->
  exists z : Z, fold_right Qplus 0 (answers_from j rs k) == inject_Z z.
Proof.
  intros H. revert j. induction H as [|r rs (q & Hq & Hc) _ IH]; intros j.
  - exists 0%Z. reflexivity.
  - cbn [answers_from]. destruct (IH (S j)) as [z Hz].
    destruct (Nat.eqb (j mod 3) k); [|exists z; exact Hz].
    cbn [fold_right]. unfold answer_value. rewrite Hq. cbn [default from_option id].
    destruct Hc as [Hc|[Hc|[Hc|Hc]]];
      [exists (0 + z)%Z | exists (1 + z)%Z | exists (2 + z)%Z | exists (3 + z)%Z];
      rewrite Hc, Hz, inject_Z_plus; reflexivity.
Qed.

Lemma int_of_whole q z : q == inject_Z z -> int q = z.
Proof.
  intros H. unfold int. rewrite (Qfloor_comp _ _ H), Qfloor_Z.
  destruct (Qle_bool 0 q) eqn:E; [reflexivity|].
  unfold Qceiling. rewrite (Qfloor_comp (- q) (inject_Z (- z))).
  - rewrite Qfloor_Z. lia.
  - rewrite H, inject_Z_opp. reflexivity.
Qed.

(** X16: On a form filled with whole answers 0..3 every subscale score is an
    even whole number, and the integer the result reports is exactly that
    score: the conversion to [int] drops nothing. *)
Theorem whole_answers_give_even_scores (rs : list pyval) (c : category) :
  form_contract rs ->
  exists (r : json) (q : Q) (z : Z),
    score_assessment rs = Ok r
    /\ _calculate_subscale_score rs c = Ok q
    /\ q == inject_Z (2 * z)
    /\ field2 r (category_name c) "score" = Some (JInt (2 * z)).
Proof.
  intros Hc.
  destruct (form_contract_accepted rs Hc) as [r Hr].
  destruct (subscale_score_is_mapping_sum rs r c Hr) as (Hl & q & Hq & Hs).
  destruct (whole_answers 0 rs (subscale_index c) (proj2 Hc)) as [z Hz].
  fold (own_answers rs c) in Hz.
  assert (Hqz : q == inject_Z (2 * z)).
  { rewrite Hs, (mapping_sum_own_answers rs c Hl), Hz, inject_Z_mult. reflexivity. }
  exists r, q, z. repeat (split; [assumption|]).
  destruct (score_assessment_fields rs r Hr) as (_ & _ & d & a & s & Ed & Ea & Es & Hf & _).
  destruct (Hf c) as [Hscore _]. rewrite Hscore. do 2 f_equal.
  apply int_of_whole.
  destruct c; [rewrite Ed in Hq | rewrite Ea in Hq | rewrite Es in Hq];
    injection Hq as ->; exact Hqz.
Qed.

Lemma whole_answers_give_even_scores_witness :
  exists (r : json) (q : Q) (z : Z),
    score_assessment Scenario.all_threes = Ok r
    /\ _calculate_subscale_score Scenario.all_threes Stress = Ok q
    /\ q == inject_Z (2 * z)
    /\ field2 r "stress" "score" = Some (JInt (2 * z)).
Proof.
  exact (whole_answers_give_even_scores Scenario.all_threes Stress
           all_threes_form_contract).
Defined.

End DASSAnswers.

(** ** DASS-21: overall severity and recommendations *)

Section DASSOverall.
Import Py DASS21 Bands.
Local Open Scope Q_scope.

Ltac split_bands :=
  repeat match goal with
    | |- context [Qle_bool ?a ?b] =>
        let E := fresh "E" in
        destruct (Qle_bool a b) eqn:E;
        [apply Qle_bool_iff in E
        | apply not_true_iff_false in E; rewrite Qle_bool_iff in E;
          apply Qnot_le_lt in E];
        cbn [andb]
    end.

Lemma normal_subscale_bound x c :
  _get_severity x c = Normal ->
  x <= match c with Depression => 9 | Anxiety => 7 | Stress => 14 end.
Proof.
  unfold _get_severity.
  destruct c; cbn [SEVERITY_THRESHOLDS first_band];
    split_bands; intros H; first [discriminate H | lra].
Qed.

Lemma high_score_is_severe x c :
  27 < x -> (3 <= rank (_get_severity x c))%nat.
Proof.
  intros Hx. unfold _get_severity.
  destruct c; cbn [SEVERITY_THRESHOLDS first_band];
    split_bands; cbn [rank]; first [lia | lra].
Qed.

(** X17: The overall severity is consistent with the subscales at both ends:
    when all three subscales are normal the overall severity is normal, and
    when the overall severity is extremely severe at least one subscale is
    severe or extremely severe. *)
Theorem overall_severity_consistent_with_subscales (d a s : Q) :
  (_get_severity d Depression = Normal ->
   _get_severity a Anxiety = Normal ->
   _get_severity s Stress = Normal ->
   _get_overall_severity ((d + a + s) / 3) = Normal)
  /\ (_get_overall_severity ((d + a + s) / 3) = ExtremelySevere ->
      (3 <= rank (_get_severity d Depression))%nat
      \/ (3 <= rank (_get_severity a Anxiety))%nat
      \/ (3 <= rank (_get_severity s Stress))%nat).
Proof.
  split.
  - intros Hd Ha Hs.
    apply normal_subscale_bound in Hd, Ha, Hs. cbv iota in Hd, Ha, Hs.
    unfold _get_overall_severity.
    assert (E : Qle_bool ((d + a + s) / 3) 10 = true).
    { apply Qle_bool_iff. apply Qle_shift_div_r; lra. }
    rewrite E. reflexivity.
  - unfold _get_overall_severity. split_bands; intros H; try discriminate H.
    assert (Hsum : 81 < d + a + s).
    { pose proof (Qmult_div_r (d + a + s) 3 ltac:(discriminate)) as Hm. lra. }
    destruct (Qlt_le_dec 27 d) as [Hd|Hd];
      [left; apply high_score_is_severe; exact Hd|].
    destruct (Qlt_le_dec 27 a) as [Ha|Ha];
      [right; left; apply high_score_is_severe; exact Ha|].
    right. right. apply high_score_is_severe. lra.
Qed.

Lemma overall_severity_consistent_with_subscales_witness :
  _get_overall_severity ((8 + 6 + 14) / 3) = Normal.
Proof.
  apply (proj1 (overall_severity_consistent_with_subscales 8 6 14)); reflexivity.
Defined.

Ltac split_triggers :=
  repeat match goal with
    | |- context [Qltb ?a ?b] =>
        let E := fresh "E" in
        destruct (Qltb a b) eqn:E;
        [apply Qltb_true in E | apply Qltb_false in E]
    end.

(** X18: The DASS-21 recommendations come in pairs, one pair for each of
    depression above 13, anxiety above 9 and stress above 18, or the pair of
    maintenance messages when none applies: the list has 2, 4 or 6 distinct
    entries, it names depression exactly when the depression score is above
    13, and it gives the maintenance advice exactly when no threshold is
    exceeded. *)
Theorem dass_recommendations_come_in_pairs (d a s : Q) :
  NoDup (_get_recommendations d a s)
  /\ (length (_get_recommendations d a s) = 2%nat
      \/ length (_get_recommendations d a s) = 4%nat
      \/ length (_get_recommendations d a s) = 6%nat)
  /\ ("Consider speaking with a mental health professional about depression symptoms"
        ∈ _get_recommendations d a s <-> 13 < d)
  /\ ("Maintain your current healthy lifestyle and coping strategies"
        ∈ _get_recommendations d a s <-> d <= 13 /\ a <= 9 /\ s <= 18).
Proof.
  unfold _get_recommendations. split_triggers; cbn [app];
    (split; [apply (bool_decide_unpack _); vm_compute; exact I|]);
    (split; [cbn; tauto|]);
    rewrite !list_elem_of_In; cbn [In];
    (split; split; intros H; repeat split;
     first [ assumption | lra
           | (repeat (destruct H as [H|H]; try discriminate H); tauto)
           | tauto
           | (exfalso; lra)
           | (exfalso; destruct H as (H1 & H2 & H3); lra)]).
Qed.

End DASSOverall.

(** ** The questionnaire analysis and the comprehensive assessment *)

Section Questionnaire.
Import Py AssessmentService Conditions.
Local Open Scope Q_scope.

Lemma update_category_within category ws ms l :
  0 <= ws <= ms -> tallies_within l ->
  tallies_within (update_category category ws ms l).
Proof.
  intros Hw Hl. unfold tallies_within, update_category in *.
  apply Forall_fmap. eapply Forall_impl; [exact Hl|].
  intros [k t] Ht. cbn [fst snd compose] in *.
  destruct (decide (k = category)); cbn [snd score max_score]; lra.
Qed.

Lemma update_category_keys category ws ms l :
  map fst (update_category category ws ms l) = map fst l.
Proof.
  unfold update_category. rewrite map_map. apply map_ext.
  intros [k t]. cbn [fst]. destruct (decide (k = category)); reflexivity.
Qed.

Lemma process_responses_within responses t :
  Forall valid_response responses ->
  0 <= total_score t <= max_possible_score t -> tallies_within (tallies t) ->
  let t' := fold_left process_response responses t in
  0 <= total_score t' <= max_possible_score t'
  /\ tallies_within (tallies t')
  /\ map fst (tallies t') = map fst (tallies t).
Proof.
  intros Hv. revert t.
  induction Hv as [|r responses [[Hv0 Hv1] Hw] _ IH]; intros t Ht Hl; cbn [fold_left].
  - auto.
  - assert (Hws : 0 <= default 0 (value r) * default 1 (weight r)
                  <= default 5 (scale_max r) * default 1 (weight r)).
    { split; [apply Qmult_le_0_compat; assumption
             | apply Qmult_le_compat_r; assumption]. }
    destruct (IH (process_response t r)) as (H1 & H2 & H3).
    + unfold process_response. cbn [total_score max_possible_score]. lra.
    + unfold process_response. cbn [tallies].
      apply update_category_within; assumption.
    + split; [exact H1|]. split; [exact H2|].
      rewrite H3. unfold process_response. cbn [tallies].
      apply update_category_keys.
Qed.

Lemma percent_within x y : 0 <= x <= y ->
  0 <= (if Qltb 0 y then x / y * 100 else 0) <= 100.
Proof.
  intros [Hx Hy]. destruct (Qltb 0 y) eqn:E; [|lra].
  apply Qltb_true in E.
  assert (H0 : 0 <= x / y) by (apply Qle_shift_div_l; [exact E | lra]).
  assert (H1 : x / y <= 1) by (apply Qle_shift_div_r; [exact E | lra]).
  lra.
Qed.



(** X19: For responses within their scales (0 <= value <= scale maximum, weight
    not negative) the questionnaire score and the percentage of every
    category lie in [0, 100]; the categories reported are always the five
    configured ones, so a response of any other category counts toward the
    overall score only. *)
Theorem questionnaire_scores_are_percentages (responses : list Response) :
  Forall valid_response responses ->
  0 <= questionnaire_score (analyze_questionnaire_responses responses) <= 100
  /\ Forall (fun kv => 0 <= percentage (snd kv) <= 100)
       (category_scores (analyze_questionnaire_responses responses))
  /\ (responses <> [] ->
      map fst (category_scores (analyze_questionnaire_responses responses))
      = stress_categories).
Proof.
  intros Hv. unfold analyze_questionnaire_responses.
  destruct responses as [|r0 responses]; cbn [questionnaire_score category_scores].
  - split; [lra|]. split; [constructor | congruence].
  - set (t0 := {| total_score := 0; max_possible_score := 0;
                  tallies := map (fun c => (c, {| score := 0; max_score := 0;
                                                   count := 0 |}))
                               stress_categories |}).
    destruct (process_responses_within (r0 :: responses) t0 Hv) as (H1 & H2 & H3).
    { cbn. lra. }
    { unfold t0, tallies_within. cbn. repeat constructor; cbn; lra. }
    cbn zeta in *. set (t := fold_left process_response (r0 :: responses) t0) in *.
    pose proof (percent_within _ _ H1) as Hp.
    split; [split; [apply (round_ge 0) | apply (round_le 100)]; apply Hp|].
    split.
    + apply Forall_fmap. eapply Forall_impl; [exact H2|].
      intros [k ta] Hta. cbn [compose snd percentage with_percentage] in *.
      apply percent_within. exact Hta.
    + intros _. rewrite map_map. cbn [fst]. 
      change (map (fun x : string * Tally => fst x) (tallies t)) with (map fst (tallies t)).
      rewrite H3. reflexivity.
Qed.

Lemma two_answers_valid : Forall valid_response Sample.two_answers.
Proof. repeat constructor; cbn; lra. Qed.

Lemma questionnaire_scores_are_percentages_witness :
  0 <= questionnaire_score (analyze_questionnaire_responses Sample.two_answers) <= 100.
Proof.
  exact (proj1 (questionnaire_scores_are_percentages Sample.two_answers
                  two_answers_valid)).
Defined.

Lemma round_half_even_whole k : round_half_even (inject_Z k) = k.
Proof.
  unfold round_half_even. rewrite Qfloor_Z.
  destruct (Qcompare_spec (inject_Z k - inject_Z k) (1 # 2)) as [H|H|H];
    [exfalso; lra | reflexivity | exfalso; lra].
Qed.

(** Rounding an already rounded number changes nothing. *)
Lemma round_idempotent x n : round (round x n) n = round x n.
Proof.
  unfold round at 1 3. f_equal. f_equal. f_equal.
  pose proof (scale_pos n) as Hs. set (s := inject_Z (10 ^ Z.of_nat n)) in *.
  rewrite (round_half_even_proper _ (inject_Z (round_half_even (x * s)))).
  - apply round_half_even_whole.
  - unfold round. fold s. rewrite Qred_correct.
    unfold Qdiv. rewrite <- Qmult_assoc, (Qmult_comm (/ s)), Qmult_inv_r; lra.
Qed.

Lemma level_of_round x :
  (level_rank (level_of x) <= level_rank (level_of (round x 2)))%nat.
Proof.
  unfold level_of.
  destruct (Qle_bool 75 x) eqn:E75.
  { apply Qle_bool_iff in E75. apply (round_ge 75 x 2) in E75.
    change (inject_Z 75) with 75 in E75. apply Qle_bool_iff in E75.
    rewrite E75. reflexivity. }
  destruct (Qle_bool 50 x) eqn:E50.
  { apply Qle_bool_iff in E50. apply (round_ge 50 x 2) in E50.
    change (inject_Z 50) with 50 in E50. apply Qle_bool_iff in E50.
    rewrite E50. destruct (Qle_bool 75 (round x 2)); vm_compute; lia. }
  destruct (Qle_bool 25 x) eqn:E25.
  { apply Qle_bool_iff in E25. apply (round_ge 25 x 2) in E25.
    change (inject_Z 25) with 25 in E25. apply Qle_bool_iff in E25.
    rewrite E25.
    destruct (Qle_bool 75 (round x 2)); destruct (Qle_bool 50 (round x 2));
      vm_compute; lia. }
  change (level_rank "low") with 0%nat. lia.
Qed.

Lemma questionnaire_score_rounded responses :
  round (questionnaire_score (analyze_questionnaire_responses responses)) 2
  = questionnaire_score (analyze_questionnaire_responses responses).
Proof.
  unfold analyze_questionnaire_responses.
  destruct responses; cbn [questionnaire_score]; [reflexivity|].
  apply round_idempotent.
Qed.

(** X20: Without a usable facial score (no image, an empty image string, or a
    facial score that is not positive) the comprehensive assessment repeats
    the questionnaire score with confidence 1; its stress level is computed
    from that rounded score, so it is the questionnaire level or a higher
    one, never a lower one. *)
Theorem comprehensive_repeats_the_questionnaire
    (service : string -> ServiceOutcome) (responses : list Response)
    (image : option string) :
  no_facial_score service image ->
  exists result,
    generate_comprehensive_assessment service responses image = Completed result
    /\ overall_score result
       = questionnaire_score (analyze_questionnaire_responses responses)
    /\ combined_confidence result = 1
    /\ (responses <> [] ->
        (level_rank (stress_level (analyze_questionnaire_responses responses))
         <= level_rank (final_stress_level result))%nat).
Proof.
  intros Hno. unfold generate_comprehensive_assessment.
  set (qa := analyze_questionnaire_responses responses).
  assert (Hc : match
                 match image with
                 | Some data =>
                     if decide (data = "") then None
                     else Some (analyze_facial_emotions (service data))
                 | None => None
                 end
               with
               | Some fa =>
                   if Qltb 0 (facial_score fa) then
                     match facial_confidence fa with
                     | Some confidence =>
                         Some (questionnaire_score qa * (7 # 10)
                               + facial_score fa * (3 # 10),
                               1 * (7 # 10) + confidence * (3 # 10))
                     | None => None
                     end
                   else Some (questionnaire_score qa, 1)
               | None => Some (questionnaire_score qa, 1)
               end = Some (questionnaire_score qa, 1)).
  { destruct image as [data|]; [|reflexivity].
    destruct (decide (data = "")) as [->|Hne]; [reflexivity|].
    destruct Hno as [->|Hle]; [congruence|].
    apply Qltb_false in Hle. rewrite Hle. reflexivity. }
  rewrite Hc. eexists. split; [reflexivity|].
  cbn [overall_score combined_confidence final_stress_level].
  split; [apply questionnaire_score_rounded|]. split; [reflexivity|].
  intros Hne. unfold qa, analyze_questionnaire_responses.
  destruct responses as [|r0 responses]; [congruence|].
  cbn [stress_level questionnaire_score]. apply level_of_round.
Qed.

Lemma comprehensive_repeats_the_questionnaire_witness :
  exists result,
    generate_comprehensive_assessment Sample.no_service Sample.two_answers (Some "img")
    = Completed result
    /\ overall_score result
       = questionnaire_score (analyze_questionnaire_responses Sample.two_answers).
Proof.
  destruct (comprehensive_repeats_the_questionnaire
              Sample.no_service Sample.two_answers (Some "img"))
    as (result & H1 & H2 & _).
  - right. discriminate.
  - exists result. split; assumption.
Defined.

(** X22: The comprehensive assessment never takes its error branch: a facial
    analysis without a confidence entry always has facial score 0, so the
    confidence is only read when it is there; and the recommendations it
    returns are distinct, not empty and at most 8. *)
Theorem comprehensive_assessment_always_completes
    (service : string -> ServiceOutcome) (responses : list Response)
    (image : option string) :
  exists result,
    generate_comprehensive_assessment service responses image = Completed result
    /\ NoDup (recommendations result)
    /\ recommendations result <> []
    /\ (length (recommendations result) <= 8)%nat
    /\ (facial_emotion_used result = true
        <-> exists data, image = Some data /\ data <> "").
Proof.
  unfold generate_comprehensive_assessment.
  set (qa := analyze_questionnaire_responses responses).
  destruct image as [data|].
  - destruct (decide (data = "")) as [->|Hne].
    + eexists. split; [reflexivity|].
      cbn [recommendations facial_emotion_used].
      match goal with
      | |- context [generate_recommendations ?l ?c ?f] =>
          destruct (generate_recommendations_ok l c f) as (H1 & H2 & H3)
      end.
      repeat split; try assumption; [discriminate|].
      intros (d & [= <-] & Hd). congruence.
    + destruct (service data) as [| |emotions assessment];
        cbn [analyze_facial_emotions failed_facial_result facial_score facial_confidence].
      1,2: change (Qltb 0 0) with false; cbv iota.
      3: destruct (Qltb 0 (default 0 (stress_score assessment))).
      all: (eexists; split; [reflexivity|]);
        cbn [recommendations facial_emotion_used];
        match goal with
        | |- context [generate_recommendations ?l ?c ?f] =>
            destruct (generate_recommendations_ok l c f) as (H1 & H2 & H3)
        end;
        repeat split; try assumption; eauto.
  - eexists. split; [reflexivity|].
    cbn [recommendations facial_emotion_used].
    match goal with
    | |- context [generate_recommendations ?l ?c ?f] =>
        destruct (generate_recommendations_ok l c f) as (H1 & H2 & H3)
    end.
    repeat split; try assumption; [discriminate|].
    intros (d & [=] & _).
Qed.

End Questionnaire.

(** ** The DASS-21 endpoint *)

Section Endpoint.
Import Py DASS21 FormContract Api.
Local Open Scope Q_scope.

Lemma in_range_int z : in_range (PyInt z) <-> (0 <= z <= 3)%Z.
Proof.
  unfold in_range. cbn [as_number]. split.
  - intros (q & [= <-] & H0 & H3).
    change 0 with (inject_Z 0) in H0. change 3 with (inject_Z 3) in H3.
    rewrite <- Zle_Qle in H0, H3. lia.
  - intros [H0 H3]. exists (inject_Z z). split; [reflexivity|].
    change 0 with (inject_Z 0). change 3 with (inject_Z 3).
    rewrite <- !Zle_Qle. lia.
Qed.

Lemma in_range_ints (rs : list Z) :
  Forall in_range (map PyInt rs) <-> Forall (fun z => (0 <= z <= 3)%Z) rs.
Proof.
  rewrite Forall_fmap. apply Forall_proper; [|reflexivity].
  intros z. apply in_range_int.
Qed.

(** X23: On a request body parsed as a list of integers the endpoint answers
    with the scored result exactly when there are 20 responses, each of 0, 1,
    2, 3, and with status 400 otherwise; when the scorer could not be loaded
    it answers 500 for every request: the 503 raised for that case is caught
    by the endpoint's own handler. *)
Theorem endpoint_statuses (rs : list Z) :
  score_dass21 false rs = Failure 500
  /\ ((exists data, score_dass21 true rs = Success data
                    /\ score_assessment (map PyInt rs) = Ok data)
      <-> length rs = 20%nat /\ Forall (fun z => (0 <= z <= 3)%Z) rs)
  /\ (score_dass21 true rs = Failure 400
      <-> ~ (length rs = 20%nat /\ Forall (fun z => (0 <= z <= 3)%Z) rs)).
Proof.
  split; [reflexivity|].
  unfold score_dass21. cbn [negb].
  rewrite <- in_range_ints, <- (length_map PyInt rs).
  destruct (score_assessment_cases (map PyInt rs))
    as [[Hl E]|[(Hl & j & v & E & Hin & Hn)|(Hl & Hr & r & E)]]; rewrite E.
  - split; split.
    + intros (data & [=] & _).
    + intros [Hl' _]. contradiction.
    + intros _ [Hl' _]. contradiction.
    + reflexivity.
  - assert (Hnot : ~ Forall in_range (map PyInt rs)).
    { intros Hf. rewrite Forall_forall in Hf. exact (Hn (Hf v Hin)). }
    split; split.
    + intros (data & [=] & _).
    + intros [_ Hf]. contradiction.
    + intros _ [_ Hf]. contradiction.
    + reflexivity.
  - split; split.
    + intros _. auto.
    + intros _. exists r. auto.
    + intros [=].
    + intros Hc. exfalso. apply Hc. auto.
Qed.

End Endpoint.

(** ** The standalone engine on raw outputs within range *)

Section StandaloneRange.
Import Py WeightedEngine FusionSpec Conditions.
Local Open Scope Q_scope.

Lemma add_component_within component scores cs :
  is_Some (lookup_weight weight_mapping component) ->
  (forall c, 0 <= score_of c scores <= 100) ->
  collected_within cs -> collected_within (add_component component scores cs).
Proof.
  intros Hk Hs Hcs c. destruct (Hcs c) as [H1 H2].
  unfold add_component, known_components in *.
  split; apply Forall_app; (split; [assumption|]);
    constructor; [exact Hk | constructor | exact (Hs c) | constructor].
Qed.

Lemma add_voice_within v cs :
  valid_voice v -> collected_within cs -> collected_within (add_voice v cs).
Proof.
  intros [Hv _] Hcs c. destruct (Hcs c) as [H1 H2].
  pose proof (Hv c) as Hc. unfold WeightedAI.get in Hc.
  unfold add_voice, known_components in *.
  destruct (v !! category_name c) as [entry|] eqn:E.
  - cbn [default from_option id] in Hc.
    split; apply Forall_app; (split; [assumption|]); constructor.
    + eexists; reflexivity.
    + constructor.
    + exact Hc.
    + constructor.
  - split; assumption.
Qed.

Lemma sentiment_conversion_within s :
  valid_sentiment s -> forall c, 0 <= score_of c (_convert_sentiment_to_scores s) <= 100.
Proof.
  intros ([Hn0 Hn1] & [Hp0 Hp1] & _) c.
  split; [destruct c; apply max2_0_nonneg|].
  unfold _convert_sentiment_to_scores.
  destruct c; cbn [score_of depression anxiety stress]; unfold max2;
    match goal with |- context [Qltb ?a ?b] => destruct (Qltb a b) end; lra.
Qed.

Lemma facial_conversion_within f :
  valid_facial f -> forall c, 0 <= score_of c (_convert_facial_to_scores f) <= 100.
Proof.
  intros ([Hs0 Hs1] & [Hf0 Hf1] & [Ha0 Ha1] & [Hh0 Hh1]) c.
  unfold _convert_facial_to_scores.
  destruct c; cbn [score_of depression anxiety stress];
    apply min2_100_bounds; nra.
Qed.

Lemma keyword_conversion_within k :
  valid_keyword k ->
  exists s, _convert_keywords_to_scores k = Ok s
            /\ forall c, 0 <= score_of c s <= 100.
Proof.
  intros (Hd & Ha & Hs & Ht).
  assert (Hnz : ~ WeightedAI.get k "total_words" 1 == 0) by lra.
  unfold _convert_keywords_to_scores. rewrite !(truediv_nonzero _ _ Hnz). cbn [bind].
  eexists. split; [reflexivity|].
  assert (Hdens : forall x, 0 <= x -> 0 <= x / WeightedAI.get k "total_words" 1 * 200).
  { intros x Hx. apply Qmult_le_0_compat; [|lra].
    apply Qle_shift_div_l; [exact Ht | lra]. }
  intros c. destruct c; cbn [score_of depression anxiety stress];
    apply min2_100_bounds, Hdens; assumption.
Qed.

Lemma weighted_score_within items :
  known_components items -> Forall (fun item => 0 <= snd item <= 100) items ->
  0 <= weighted_score items <= 100.
Proof.
  intros Hk Hall. destruct items as [|item items].
  - vm_compute. split; discriminate.
  - assert (Hne : item :: items <> []) by discriminate.
    unfold weighted_score, condition_sums.
    destruct (condition_sums_fold 0 100 _ 0 0 Hall) as (_ & [H2 H3] & H4).
    specialize (H4 Hne Hk). cbn zeta in *.
    set (r := fold_left _ (item :: items) (0, 0)) in *.
    assert (E : Qltb 0 (snd r) = true) by (apply Qltb_true; exact H4).
    rewrite E. split.
    + apply Qle_shift_div_l; [exact H4 | lra].
    + apply Qle_shift_div_r; [exact H4 | lra].
Qed.

(** X24: On raw modality outputs within their documented ranges the standalone
    engine returns a report, never the error dictionary, and each of its three
    scores lies in [0, 100]. *)
Theorem standalone_scores_within_range
    (voice : option (gmap string (gmap string Q)))
    (sentiment keyword facial : option (gmap string Q)) :
  when_given valid_voice voice -> when_given valid_sentiment sentiment ->
  when_given valid_keyword keyword -> when_given valid_facial facial ->
  exists report,
    calculate_comprehensive_scores voice sentiment keyword facial = Assessed report
    /\ forall c, 0 <= score_of c (final (final_scores report)) <= 100.
Proof.
  intros Hv Hs Hk Hf. unfold calculate_comprehensive_scores.
  set (cs0 := (fun _ => []) : ComponentScores).
  assert (V0 : collected_within cs0).
  { intros c. split; constructor. }
  set (cs1 := match voice with
              | Some v => if WeightedAI.truthy voice then add_voice v cs0 else cs0
              | None => cs0
              end).
  assert (V1 : collected_within cs1).
  { unfold cs1. destruct voice as [v|]; [|exact V0].
    destruct (WeightedAI.truthy (Some v)); [|exact V0].
    apply add_voice_within; assumption. }
  set (cs2 := match sentiment with
              | Some v => if WeightedAI.truthy sentiment
                          then add_component "sentiment" (_convert_sentiment_to_scores v) cs1
                          else cs1
              | None => cs1
              end).
  assert (V2 : collected_within cs2).
  { unfold cs2. destruct sentiment as [v|]; [|exact V1].
    destruct (WeightedAI.truthy (Some v)); [|exact V1].
    apply add_component_within;
      [eexists; reflexivity | apply sentiment_conversion_within; exact Hs | exact V1]. }
  assert (V3 : exists cs3,
             match keyword with
             | Some v => if WeightedAI.truthy keyword
                         then let! k := _convert_keywords_to_scores v in
                              Ok (add_component "keyword" k cs2)
                         else Ok cs2
             | None => Ok cs2
             end = Ok cs3 /\ collected_within cs3).
  { destruct keyword as [v|]; [|eauto].
    destruct (WeightedAI.truthy (Some v)); [|eauto].
    destruct (keyword_conversion_within v Hk) as (k & -> & Vk). cbn [bind].
    eexists. split; [reflexivity|].
    apply add_component_within; [eexists; reflexivity | exact Vk | exact V2]. }
  destruct V3 as (cs3 & -> & V3). cbn [bind].
  set (cs4 := match facial with
              | Some v => if WeightedAI.truthy facial
                          then add_component "facial" (_convert_facial_to_scores v) cs3
                          else cs3
              | None => cs3
              end).
  assert (V4 : collected_within cs4).
  { unfold cs4. destruct facial as [v|]; [|exact V3].
    destruct (WeightedAI.truthy (Some v)); [|exact V3].
    apply add_component_within;
      [eexists; reflexivity | apply facial_conversion_within; exact Hf | exact V3]. }
  eexists. split; [reflexivity|].
  intros c. cbn [final_scores]. destruct (V4 c) as [Hkn Hall].
  destruct c; cbn [_calculate_weighted_scores final score_of depression anxiety stress];
    apply weighted_score_within.
  all: first [apply (V4 Depression) | apply (V4 Anxiety) | apply (V4 Stress)].
Qed.

Lemma standalone_scores_within_range_witness :
  exists report,
    calculate_comprehensive_scores None None (Some Scenario.one_in_ten) None
    = Assessed report
    /\ forall c, 0 <= score_of c (final (final_scores report)) <= 100.
Proof.
  apply (standalone_scores_within_range None None (Some Scenario.one_in_ten) None).
  - exact I.
  - exact I.
  - unfold valid_keyword. repeat split; discriminate.
  - exact I.
Defined.

End StandaloneRange.

(** ** Binary64 rounding: accuracy, monotonicity, exact integers *)

Section Binary64Facts.
Import Py Binary64.
Local Open Scope Q_scope.

Lemma pow2_pos z : 0 < 2 ^ z.
Proof. apply Qpower_0_lt. reflexivity. Qed.

Lemma pow2_plus a b : 2 ^ (a + b) == 2 ^ a * 2 ^ b.
Proof. apply Qpower_plus. discriminate. Qed.

Lemma pow2_succ a : 2 ^ (a + 1) == 2 * 2 ^ a.
Proof. rewrite pow2_plus. change (2 ^ 1) with 2. ring. Qed.

Lemma pow2_inject a : (0 <= a)%Z -> 2 ^ a == inject_Z (2 ^ a).
Proof. intros H. rewrite (Zpower_Qpower 2 a H). reflexivity. Qed.

Lemma pow2_le a b : (a <= b)%Z -> 2 ^ a <= 2 ^ b.
Proof. intros H. apply Qpower_le_compat_l; [exact H | discriminate]. Qed.

Lemma pow2_lt_inv a b : 2 ^ a < 2 ^ b -> (a < b)%Z.
Proof. intros H. apply (Qpower_lt_compat_l_inv 2); [exact H | reflexivity]. Qed.

Lemma Qdiv_le_cross a b c d : 0 < b -> 0 < d -> a * d <= c * b -> a / b <= c / d.
Proof.
  intros Hb Hd H. apply Qle_shift_div_r; [exact Hb|].
  assert (Erw : c / d * b == c * b / d) by (unfold Qdiv; ring). rewrite Erw.
  apply Qle_shift_div_l; [exact Hd | exact H].
Qed.

Lemma Qdiv_lt_cross a b c d : 0 < b -> 0 < d -> a * d < c * b -> a / b < c / d.
Proof.
  intros Hb Hd H. apply Qlt_shift_div_r; [exact Hb|].
  assert (Erw : c / d * b == c * b / d) by (unfold Qdiv; ring). rewrite Erw.
  apply Qlt_shift_div_l; [exact Hd | exact H].
Qed.

(** The exponent is the floor of the binary logarithm. *)
Lemma exponent_spec x :
  0 < x -> 2 ^ exponent x <= x /\ x < 2 ^ (exponent x + 1).
Proof.
  intros Hx. destruct x as [n d].
  assert (Hn : (0 < n)%Z).
  { unfold Qlt in Hx. simpl in Hx. lia. }
  unfold exponent. cbn [Qnum Qden].
  set (a := Z.log2 n). set (b := Z.log2 (Z.pos d)).
  destruct (Z.log2_spec n Hn) as [Ha1 Ha2]. fold a in Ha1, Ha2.
  destruct (Z.log2_spec (Z.pos d) ltac:(lia)) as [Hb1 Hb2]. fold b in Hb1, Hb2.
  assert (Ha0 : (0 <= a)%Z) by apply Z.log2_nonneg.
  assert (Hb0 : (0 <= b)%Z) by apply Z.log2_nonneg.
  rewrite Zle_Qle in Ha1, Hb1. rewrite Zlt_Qlt in Ha2, Hb2.
  rewrite <- pow2_inject in Ha1, Hb1 by lia.
  unfold Z.succ in Ha2, Hb2.
  rewrite <- pow2_inject, pow2_succ in Ha2, Hb2 by lia.
  pose proof (pow2_pos a) as Pa. pose proof (pow2_pos b) as Pb.
  assert (Hd : 0 < inject_Z (Z.pos d)) by reflexivity.
  assert (Ek : 2 ^ (a - b) == 2 ^ a / 2 ^ b) by (apply Qpower_minus; discriminate).
  assert (Ex : n # d == inject_Z n / inject_Z (Z.pos d)) by apply Qmake_Qdiv.
  assert (Hlo : 2 ^ (a - b) / 2 <= n # d).
  { rewrite Ek, Ex.
    assert (Erw : 2 ^ a / 2 ^ b / 2 == 2 ^ a / (2 * 2 ^ b)) by (field; lra). rewrite Erw.
    apply Qdiv_le_cross; [lra | exact Hd | nra]. }
  assert (Hhi : n # d < 2 * 2 ^ (a - b)).
  { rewrite Ek, Ex.
    assert (Erw : 2 * (2 ^ a / 2 ^ b) == 2 * 2 ^ a / 2 ^ b) by (unfold Qdiv; ring). rewrite Erw.
    apply Qdiv_lt_cross; [exact Hd | exact Pb | nra]. }
  destruct (Qle_bool (2 ^ (a - b)) (n # d)) eqn:E.
  - apply Qle_bool_iff in E. split; [exact E|].
    rewrite pow2_succ. exact Hhi.
  - assert (Hlt : n # d < 2 ^ (a - b)).
    { apply Qnot_le_lt. intros H. apply Qle_bool_iff in H. congruence. }
    replace (a - b - 1 + 1)%Z with (a - b)%Z by lia.
    split; [|exact Hlt].
    assert (Erw : 2 ^ (a - b - 1) == 2 ^ (a - b) / 2).
    { rewrite (Qpower_minus 2 (a - b) 1) by discriminate. reflexivity. }
    rewrite Erw. exact Hlo.
Qed.

Lemma half_even_error y :
  y - (1 # 2) <= inject_Z (round_half_even y) <= y + (1 # 2).
Proof.
  pose proof (Qfloor_le y) as H1. pose proof (Qlt_floor y) as H2.
  rewrite inject_Z_plus in H2. change (inject_Z 1) with 1 in H2.
  unfold round_half_even.
  destruct (Qcompare_spec (y - inject_Z (Qfloor y)) (1 # 2)) as [C|C|C];
    [destruct (Z.even (Qfloor y))| |];
    rewrite ?inject_Z_plus; change (inject_Z 1) with 1; lra.
Qed.

Lemma half_u : (1 # 2) == u * 2 ^ 52.
Proof. reflexivity. Qed.

(** A positive number is rounded with relative error at most [u], and stays
    in its binade. *)
Lemma round_positive_spec x :
  0 < x ->
  (1 - u) * x <= round_positive x <= (1 + u) * x
  /\ 2 ^ exponent x <= round_positive x <= 2 ^ (exponent x + 1).
Proof.
  intros Hx. destruct (exponent_spec x Hx) as [Hlo Hhi].
  unfold round_positive. set (e := exponent x) in *.
  set (s := (52 - e)%Z).
  pose proof (pow2_pos s) as Ps.
  pose proof (half_even_error (x * 2 ^ s)) as [Hm1 Hm2].
  set (m := inject_Z (round_half_even (x * 2 ^ s))) in *.
  assert (E52 : 2 ^ e * 2 ^ s == 2 ^ 52).
  { rewrite <- pow2_plus. replace (e + s)%Z with 52%Z by (unfold s; lia).
    reflexivity. }
  assert (E53 : 2 ^ (e + 1) * 2 ^ s == 2 ^ 53).
  { rewrite <- pow2_plus. replace (e + 1 + s)%Z with 53%Z by (unfold s; lia).
    reflexivity. }
  assert (Hy : 2 ^ 52 <= x * 2 ^ s).
  { rewrite <- E52. apply Qmult_le_compat_r; lra. }
  assert (Hy' : x * 2 ^ s <= 2 ^ 53).
  { rewrite <- E53. apply Qmult_le_compat_r; lra. }
  assert (Hm52 : 2 ^ 52 <= m).
  { unfold m. change (2 ^ 52) with (inject_Z (2 ^ 52)). rewrite <- Zle_Qle.
    apply round_half_even_ge. exact Hy. }
  assert (Hm53 : m <= 2 ^ 53).
  { unfold m. change (2 ^ 53) with (inject_Z (2 ^ 53)). rewrite <- Zle_Qle.
    apply round_half_even_le. exact Hy'. }
  assert (Hu : (1 # 2) <= u * (x * 2 ^ s)).
  { rewrite half_u. apply Qmult_le_l; [reflexivity | exact Hy]. }
  repeat split.
  - apply Qle_shift_div_l; [exact Ps | lra].
  - apply Qle_shift_div_r; [exact Ps | lra].
  - apply Qle_shift_div_l; [exact Ps | lra].
  - apply Qle_shift_div_r; [exact Ps | lra].
Qed.

Lemma fl_proper x y : x == y -> fl x = fl y.
Proof.
  intros H. unfold fl.
  rewrite (Qred_complete _ _ H).
  assert (H' : - x == - y) by (rewrite H; reflexivity).
  rewrite (Qred_complete _ _ H'). reflexivity.
Qed.

Lemma fl_cases x :
  (x == 0 /\ fl x = 0)
  \/ (0 < x /\ fl x == round_positive (Qred x))
  \/ (x < 0 /\ fl x == - round_positive (Qred (- x))).
Proof.
  unfold fl.
  destruct (Qcompare_spec (Qred x) 0) as [C|C|C]; rewrite Qred_correct in C.
  - left. split; [exact C | reflexivity].
  - right. right. split; [exact C | apply Qred_correct].
  - right. left. split; [exact C | apply Qred_correct].
Qed.

(** The standard model of floating-point arithmetic: every operation is
    exact up to a relative error of [u]. *)
Lemma fl_error x : Qabs (fl x - x) <= u * Qabs x.
Proof.
  destruct (fl_cases x) as [[Hx E]|[[Hx E]|[Hx E]]].
  - rewrite E, Hx. vm_compute. discriminate.
  - pose proof (Qred_correct x) as Qx. set (r := Qred x) in *.
    destruct (round_positive_spec r ltac:(lra)) as [[H1 H2] _].
    rewrite E, (Qabs_pos x) by lra. apply Qabs_Qle_condition.
    unfold u in *. lra.
  - pose proof (Qred_correct (- x)) as Qx. set (r := Qred (- x)) in *.
    destruct (round_positive_spec r ltac:(lra)) as [[H1 H2] _].
    rewrite E, (Qabs_neg x) by lra. apply Qabs_Qle_condition.
    unfold u in *. lra.
Qed.

Lemma fl_error_nonneg x : 0 <= x -> (1 - u) * x <= fl x <= (1 + u) * x.
Proof.
  intros Hx. pose proof (fl_error x) as H.
  rewrite (Qabs_pos x) in H by exact Hx.
  apply Qabs_Qle_condition in H. unfold u in *. lra.
Qed.

Lemma fl_nonneg x : 0 <= x -> 0 <= fl x.
Proof.
  intros Hx. destruct (fl_error_nonneg x Hx) as [H _].
  unfold u in *. lra.
Qed.

Lemma fl_opp x : fl (- x) == - fl x.
Proof.
  destruct (fl_cases x) as [[Hx E]|[[Hx E]|[Hx E]]];
    destruct (fl_cases (- x)) as [[Hy F]|[[Hy F]|[Hy F]]]; try (exfalso; lra);
    rewrite E, F.
  - reflexivity.
  - assert (G : Qred (- - x) = Qred x) by (apply Qred_complete; ring).
    rewrite G. reflexivity.
  - ring.
Qed.

Lemma fl_monotone_positive x y : 0 < x -> x <= y -> fl x <= fl y.
Proof.
  intros Hx Hxy.
  assert (Hy : 0 < y) by lra.
  destruct (fl_cases x) as [[Hx0 _]|[[_ Ex]|[Hx0 _]]]; try (exfalso; lra).
  destruct (fl_cases y) as [[Hy0 _]|[[_ Ey]|[Hy0 _]]]; try (exfalso; lra).
  rewrite Ex, Ey.
  pose proof (Qred_correct x) as Qx. set (rx := Qred x) in *.
  pose proof (Qred_correct y) as Qy. set (ry := Qred y) in *.
  destruct (exponent_spec rx ltac:(lra)) as [X1 X2].
  destruct (exponent_spec ry ltac:(lra)) as [Y1 Y2].
  destruct (round_positive_spec rx ltac:(lra)) as [_ [_ RX]].
  destruct (round_positive_spec ry ltac:(lra)) as [_ [RY _]].
  assert (Hle : (exponent rx <= exponent ry)%Z).
  { assert (H : 2 ^ exponent rx < 2 ^ (exponent ry + 1)) by lra.
    apply pow2_lt_inv in H. lia. }
  destruct (Z.eq_dec (exponent rx) (exponent ry)) as [Heq|Hne].
  - unfold round_positive. rewrite Heq.
    set (s := (52 - exponent ry)%Z). pose proof (pow2_pos s) as Ps.
    apply Qmult_le_compat_r; [|apply Qlt_le_weak, Qinv_lt_0_compat; exact Ps].
    rewrite <- Zle_Qle. apply round_half_even_monotone.
    apply Qmult_le_compat_r; lra.
  - assert (H : 2 ^ (exponent rx + 1) <= 2 ^ exponent ry)
      by (apply pow2_le; lia).
    lra.
Qed.

Lemma fl_monotone x y : x <= y -> fl x <= fl y.
Proof.
  intros Hxy.
  destruct (Qlt_le_dec 0 x) as [Hx|Hx]; [apply fl_monotone_positive; assumption|].
  destruct (Qlt_le_dec y 0) as [Hy|Hy].
  - assert (H : fl (- y) <= fl (- x)) by (apply fl_monotone_positive; lra).
    rewrite !fl_opp in H. lra.
  - assert (H1 : 0 <= fl y) by (apply fl_nonneg; exact Hy).
    assert (H2 : 0 <= fl (- x)) by (apply fl_nonneg; lra).
    rewrite fl_opp in H2. lra.
Qed.

(** Whole numbers below 2^53 are floats. *)
Lemma fl_whole z : (0 <= z < 2 ^ 53)%Z -> fl (inject_Z z) == inject_Z z.
Proof.
  intros [H0 H53].
  rewrite Zle_Qle in H0. rewrite Zlt_Qlt in H53.
  change (inject_Z 0) with 0 in H0. change (inject_Z (2 ^ 53)) with (2 ^ 53) in H53.
  destruct (fl_cases (inject_Z z)) as [[Hx E]|[[Hx E]|[Hx E]]].
  - rewrite E, Hx. reflexivity.
  - rewrite E.
    pose proof (Qred_correct (inject_Z z)) as Qx. set (r := Qred (inject_Z z)) in *.
    destruct (exponent_spec r ltac:(lra)) as [X1 _].
    unfold round_positive. set (e := exponent r) in *.
    assert (He : (e < 53)%Z) by (apply pow2_lt_inv; lra).
    set (s := (52 - e)%Z). pose proof (pow2_pos s) as Ps.
    assert (Es : 2 ^ s == inject_Z (2 ^ s)) by (apply pow2_inject; unfold s; lia).
    rewrite (round_half_even_proper _ (inject_Z (z * 2 ^ s))).
    + rewrite round_half_even_whole, inject_Z_mult, <- Es.
      apply Qdiv_mult_l. lra.
    + rewrite Qx, inject_Z_mult, Es. reflexivity.
  - exfalso. lra.
Qed.

(** The model on some well-known cases: 0.1 + 0.2 is 0.30000000000000004,
    [round(2.675, 2)] is 2.67 because the float 2.675 lies below the tie, and
    [round(0.125, 2)] is 0.12 because 0.125 is a float and the tie goes to
    the even digit. *)
Lemma binary64_examples :
  add (fl (1 # 10)) (fl (2 # 10)) = fl (30000000000000004 # 100000000000000000)
  /\ ~ add (fl (1 # 10)) (fl (2 # 10)) == fl (3 # 10)
  /\ Binary64.round (fl (2675 # 1000)) 2 = fl (267 # 100)
  /\ Binary64.round (fl (125 # 1000)) 2 = fl (12 # 100).
Proof.
  split; [vm_compute; reflexivity|].
  split; [intros H; vm_compute in H; discriminate H|].
  split; vm_compute; reflexivity.
Qed.

End Binary64Facts.

(** ** Error propagation *)

Section Closeness.
Import Py Binary64.
Local Open Scope Q_scope.

Lemma shrink_pos k : 0 < shrink k <= 1.
Proof.
  induction k as [|k IH]; cbn [shrink]; unfold u in *; [lra | nra].
Qed.

Lemma shrink_plus j k : shrink (j + k) == shrink j * shrink k.
Proof.
  induction j as [|j IH]; cbn [shrink Nat.add]; [ring | rewrite IH; ring].
Qed.

Lemma shrink_le j k : (j <= k)%nat -> shrink k <= shrink j.
Proof.
  intros H. replace k with (j + (k - j))%nat by lia. rewrite shrink_plus.
  pose proof (shrink_pos j). pose proof (shrink_pos (k - j)). nra.
Qed.

Lemma close_refl x : close 0 x x.
Proof. unfold close. cbn [shrink]. lra. Qed.

Lemma close_proper k x x' y y' : x == x' -> y == y' -> close k x y -> close k x' y'.
Proof. unfold close. intros -> ->. tauto. Qed.

Lemma close_nonneg k x y : 0 <= y -> close k x y -> 0 <= x.
Proof.
  intros Hy [H _]. pose proof (shrink_pos k). nra.
Qed.

Lemma close_pos k x y : 0 < y -> close k x y -> 0 < x.
Proof.
  intros Hy [H _]. pose proof (shrink_pos k). nra.
Qed.

Lemma close_weaken j k x y : (j <= k)%nat -> 0 <= y -> close j x y -> close k x y.
Proof.
  intros Hjk Hy H. pose proof (close_nonneg _ _ _ Hy H) as Hx.
  destruct H as [H1 H2]. pose proof (shrink_le j k Hjk).
  pose proof (shrink_pos k). pose proof (shrink_pos j).
  split; nra.
Qed.

Lemma close_fl k x y : 0 <= y -> close k x y -> close (S k) (fl x) y.
Proof.
  intros Hy H. pose proof (close_nonneg _ _ _ Hy H) as Hx.
  destruct H as [H1 H2]. destruct (fl_error_nonneg x Hx) as [F1 F2].
  pose proof (shrink_pos k). unfold close. cbn [shrink]. unfold u in *.
  split; nra.
Qed.

Lemma close_add k x a y b : close k x a -> close k y b -> close k (x + y) (a + b).
Proof. unfold close. intros [H1 H2] [H3 H4]. split; lra. Qed.

Lemma close_mul j k x a y b :
  0 <= a -> 0 <= b -> close j x a -> close k y b -> close (j + k) (x * y) (a * b).
Proof.
  intros Ha Hb Hx Hy.
  pose proof (close_nonneg _ _ _ Ha Hx) as Hx0.
  pose proof (close_nonneg _ _ _ Hb Hy) as Hy0.
  destruct Hx as [H1 H2]. destruct Hy as [H3 H4].
  pose proof (shrink_pos j) as [Pj _]. pose proof (shrink_pos k) as [Pk _].
  unfold close. rewrite shrink_plus. split.
  - assert (E : shrink j * shrink k * (a * b) == (shrink j * a) * (shrink k * b)) by ring.
    rewrite E. apply Qmult_le_compat_nonneg; split; try assumption;
      apply Qmult_le_0_compat; lra.
  - assert (E : shrink j * shrink k * (x * y) == (shrink j * x) * (shrink k * y)) by ring.
    rewrite E. apply Qmult_le_compat_nonneg; split; try assumption;
      apply Qmult_le_0_compat; lra.
Qed.

Lemma close_div j k x a y b :
  0 <= a -> 0 < b -> close j x a -> close k y b -> close (j + k) (x / y) (a / b).
Proof.
  intros Ha Hb Hx Hy.
  pose proof (close_nonneg _ _ _ Ha Hx) as Hx0.
  pose proof (close_pos _ _ _ Hb Hy) as Hy0.
  destruct Hx as [H1 H2]. destruct Hy as [H3 H4].
  pose proof (shrink_pos j) as [Pj _]. pose proof (shrink_pos k) as [Pk _].
  unfold close. rewrite shrink_plus. split.
  - apply Qle_shift_div_l; [exact Hy0|].
    assert (E : shrink j * shrink k * (a / b) * y == (shrink j * a) * (shrink k * y) / b)
      by (field; lra).
    rewrite E. apply Qle_shift_div_r; [exact Hb|].
    apply Qmult_le_compat_nonneg; split; try assumption;
      apply Qmult_le_0_compat; lra.
  - apply Qle_shift_div_l; [exact Hb|].
    assert (E : shrink j * shrink k * (x / y) * b == (shrink j * x) * (shrink k * b) / y)
      by (field; lra).
    rewrite E. apply Qle_shift_div_r; [exact Hy0|].
    apply Qmult_le_compat_nonneg; split; try assumption;
      apply Qmult_le_0_compat; lra.
Qed.

Lemma close_min k x a c : 0 <= c -> close k x a -> close k (min2 x c) (Qmin c a).
Proof.
  intros Hc [H1 H2]. pose proof (shrink_pos k) as [P0 P1].
  unfold close. rewrite min2_spec.
  destruct (Q.min_spec x c) as [[M1 ->]|[M1 ->]];
    destruct (Q.min_spec c a) as [[M2 ->]|[M2 ->]]; split; nra.
Qed.

(** Closeness as an absolute error, for a bounded exact value. *)
Lemma close_within k x y bound tolerance :
  close k x y -> 0 <= y <= bound ->
  bound <= shrink k * (bound + tolerance) ->
  Qabs (x - y) <= tolerance.
Proof.
  intros [H1 H2] [Hy0 Hyb] Hs. pose proof (shrink_pos k) as [P0 P1].
  set (s := shrink k) in *.
  assert (A : y * (1 - s) <= bound * (1 - s)) by nra.
  assert (B : bound * (1 - s) <= s * tolerance) by lra.
  assert (C : 0 <= s * tolerance) by nra.
  assert (D : s * tolerance <= tolerance) by nra.
  apply Qabs_Qle_condition. split; [nra|].
  apply (Qmult_le_l _ _ s P0). nra.
Qed.

End Closeness.

(** ** The fusion engine in floating-point arithmetic *)

Section FloatFusion.
Import Py WeightedAI FusionSpec Binary64.
Local Open Scope Q_scope.

Lemma close_literal q : 0 <= q -> close 1 (fl q) q.
Proof. intros H. apply close_fl; [exact H | apply close_refl]. Qed.

Lemma component_weights_rounded :
  rounded_weights WeightedAI64.component_weights component_weights.
Proof.
  unfold rounded_weights, WeightedAI64.component_weights, component_weights.
  do 4 (constructor;
        [split; [reflexivity | split; [discriminate | apply close_literal; discriminate]]|]).
  constructor.
Qed.

Lemma denominator_cons w s ms :
  denominator ((w, s) :: ms) == w * confidence s + denominator ms.
Proof. unfold denominator, Qsum. cbn [map fold_right fst snd]. reflexivity. Qed.

Lemma numerator_cons d w s ms :
  numerator d ((w, s) :: ms) == score_of d s * w * confidence s + numerator d ms.
Proof. unfold numerator, Qsum. cbn [map fold_right fst snd]. reflexivity. Qed.

Lemma present_in_bounds cs ws d :
  (forall c s, cs !! c = Some s -> valid_modality s) ->
  Forall (fun cw => 0 <= snd cw) ws ->
  0 <= denominator (present_in cs ws)
  /\ 0 <= numerator d (present_in cs ws) <= 100 * denominator (present_in cs ws).
Proof.
  intros Hv Hw. apply sums_bounds.
  intros w s Hin. apply elem_of_present_in in Hin as (c & Hc & Hlk).
  rewrite Forall_forall in Hw. split; [exact (Hw (c, w) Hc) | exact (Hv c s Hlk)].
Qed.

Lemma rounded_weights_nonneg ws64 ws :
  rounded_weights ws64 ws -> Forall (fun cw => 0 <= snd cw) ws.
Proof.
  induction 1 as [|? ? ? ? (_ & H & _) _ IH]; constructor; assumption.
Qed.

(** The running sums stay close to the exact sums: each component adds
    one rounding. *)
Lemma fold_accumulate_close cs ws64 ws :
  rounded_weights ws64 ws ->
  (forall c s, cs !! c = Some s -> valid_modality s) ->
  forall (k : nat) (a : sums) (W : Q) (S : category -> Q),
    (3 <= k)%nat -> 0 <= W -> close k (total_weight a) W ->
    (forall d, 0 <= S d /\ close k (sum_of d a) (S d)) ->
    close (k + length ws)
      (total_weight (fold_left (WeightedAI64.accumulate cs) ws64 a))
      (W + denominator (present_in cs ws))
    /\ forall d,
         close (k + length ws)
           (sum_of d (fold_left (WeightedAI64.accumulate cs) ws64 a))
           (S d + numerator d (present_in cs ws)).
Proof.
  intros Hr Hv.
  induction Hr as [|[c64 w64] [c w] ws64 ws (Hc & Hw & Hw64) Hr IH];
    intros k a W S Hk HW Ht Hs.
  - cbn [fold_left Datatypes.length]. replace (k + 0)%nat with k by lia.
    split; [|intros d; destruct (Hs d) as [_ Hd]];
      (eapply close_proper; [reflexivity | | eassumption]);
      unfold present_in, denominator, numerator, Qsum; simpl; ring.
  - cbn [fst snd] in Hc, Hw, Hw64. subst c64.
    pose proof (rounded_weights_nonneg _ _ Hr) as Hnn.
    cbn [fold_left Datatypes.length]. unfold WeightedAI64.accumulate at 2 4.
    unfold present_in. cbn [omap list_omap fst snd]. fold (present_in cs ws).
    destruct (cs !! c) as [s|] eqn:E; cbn [fmap option_fmap option_map].
    + destruct (Hv c s E) as (Hdep & Hanx & Hstr & Hconf).
      assert (Hwc : 0 <= w * confidence s) by (apply Qmult_le_0_compat; lra).
      assert (Cew : close 2 (mul w64 (confidence s)) (w * confidence s)).
      { unfold mul. apply close_fl; [exact Hwc|].
        apply (close_mul 1 0); [exact Hw | lra | exact Hw64 | apply close_refl]. }
      replace (k + Datatypes.S (length ws))%nat with (Datatypes.S k + length ws)%nat by lia.
      destruct (IH (Datatypes.S k)
                  {| total_weight := add (total_weight a) (mul w64 (confidence s));
                     sum_depression :=
                       add (sum_depression a) (mul (depression s) (mul w64 (confidence s)));
                     sum_anxiety :=
                       add (sum_anxiety a) (mul (anxiety s) (mul w64 (confidence s)));
                     sum_stress :=
                       add (sum_stress a) (mul (stress s) (mul w64 (confidence s))) |}
                  (W + w * confidence s)
                  (fun d => S d + score_of d s * w * confidence s))
        as [IHt IHs].
      * lia.
      * lra.
      * cbn [total_weight]. unfold add. apply close_fl; [lra|].
        apply close_add; [exact Ht|].
        apply (close_weaken 2 k); [lia | exact Hwc | exact Cew].
      * intros d. destruct (Hs d) as [HS0 HSd].
        assert (Hsc : 0 <= score_of d s <= 100) by (destruct d; assumption).
        assert (Hterm : 0 <= score_of d s * w * confidence s).
        { rewrite <- Qmult_assoc. apply Qmult_le_0_compat; lra. }
        split; [lra|].
        assert (Cterm : close 3 (mul (score_of d s) (mul w64 (confidence s)))
                          (score_of d s * w * confidence s)).
        { unfold mul at 1. apply close_fl; [exact Hterm|].
          eapply close_proper; [reflexivity | apply Qmult_assoc |].
          apply (close_mul 0 2); [lra | exact Hwc | apply close_refl | exact Cew]. }
        assert (Cd : close (Datatypes.S k)
                       (add (sum_of d a) (mul (score_of d s) (mul w64 (confidence s))))
                       (S d + score_of d s * w * confidence s)).
        { unfold add. apply close_fl; [lra|].
          apply close_add; [exact HSd|].
          apply (close_weaken 3 k); [lia | exact Hterm | exact Cterm]. }
        destruct d; exact Cd.
      * split.
        -- eapply close_proper; [reflexivity | | exact IHt].
           rewrite denominator_cons. ring.
        -- intros d. eapply close_proper; [reflexivity | | exact (IHs d)].
           rewrite numerator_cons. ring.
    + destruct (IH k a W S Hk HW Ht Hs) as [IHt IHs].
      destruct (present_in_bounds cs ws Depression Hv Hnn) as [Hden _].
      split.
      * apply (close_weaken (k + length ws)); [lia | lra | exact IHt].
      * intros d. destruct (present_in_bounds cs ws d Hv Hnn) as (_ & Hnum & _).
        destruct (Hs d) as [HS0 _].
        apply (close_weaken (k + length ws)); [lia | lra | exact (IHs d)].
Qed.

Lemma weighted_sums_close cs :
  (forall c s, cs !! c = Some s -> valid_modality s) ->
  close 7 (total_weight (WeightedAI64.weighted_sums cs)) (denominator (present cs))
  /\ forall d, close 7 (sum_of d (WeightedAI64.weighted_sums cs))
                 (numerator d (present cs)).
Proof.
  intros Hv. unfold WeightedAI64.weighted_sums, present.
  destruct (fold_accumulate_close cs _ _ component_weights_rounded Hv 3
              {| sum_depression := 0; sum_anxiety := 0; sum_stress := 0;
                 total_weight := 0 |} 0 (fun _ => 0)) as [Ht Hs].
  - lia.
  - lra.
  - split; cbn [total_weight]; vm_compute; discriminate.
  - intros d. split; [lra|]. destruct d; split; vm_compute; discriminate.
  - split.
    + eapply close_proper; [reflexivity | | exact Ht]. ring.
    + intros d. eapply close_proper; [reflexivity | | exact (Hs d)]. ring.
Qed.

(** With a modality that carries confidence, the floating-point quotient
    is the exact quotient up to 15 roundings; both lie in [0, 100]. *)
Lemma quotient_close cs d :
  (forall c s, cs !! c = Some s -> valid_modality s) ->
  0 < denominator (present cs) ->
  Qltb 0 (total_weight (WeightedAI64.weighted_sums cs)) = true
  /\ 0 <= numerator d (present cs) / denominator (present cs) <= 100
  /\ close 15 (WeightedAI64.quotient (WeightedAI64.weighted_sums cs) d)
       (numerator d (present cs) / denominator (present cs)).
Proof.
  intros Hv Hpos. destruct (weighted_sums_close cs Hv) as [Ht Hs].
  destruct (present_in_bounds cs component_weights d Hv) as (_ & Hn0 & Hn100).
  { apply (rounded_weights_nonneg _ _ component_weights_rounded). }
  fold (present cs) in Hn0, Hn100.
  assert (Hq : 0 <= numerator d (present cs) / denominator (present cs) <= 100).
  { split; [apply Qle_shift_div_l | apply Qle_shift_div_r]; lra. }
  split; [|split; [exact Hq|]].
  - apply Qltb_true. exact (close_pos _ _ _ Hpos Ht).
  - unfold WeightedAI64.quotient. apply close_fl; [apply Hq|].
    apply (close_div 7 7); [exact Hn0 | exact Hpos | exact (Hs d) | exact Ht].
Qed.

Ltac eval_eps :=
  repeat match goal with
    | |- context [eps ?k] =>
        let v := eval vm_compute in (eps k) in change (eps k) with v
    | H : context [eps ?k] |- _ =>
        let v := eval vm_compute in (eps k) in change (eps k) with v in H
    end.

Lemma round_error x : Qabs (Py.round x 2 - x) <= 1 # 200.
Proof.
  unfold Py.round. rewrite Qred_correct.
  change (inject_Z (10 ^ Z.of_nat 2)) with 100.
  pose proof (half_even_error (x * 100)) as [H1 H2].
  set (m := inject_Z (round_half_even (x * 100))) in *.
  assert (E : m / 100 == m * (1 # 100)) by reflexivity.
  rewrite E. apply Qabs_Qle_condition. lra.
Qed.

Lemma float_round_close x :
  0 <= x <= 101 -> Qabs (Binary64.round x 2 - x) <= (1 # 200) + eps 46.
Proof.
  intros [H0 H1]. unfold Binary64.round.
  pose proof (round_error x) as He. apply Qabs_Qle_condition in He.
  assert (Hr0 : 0 <= Py.round x 2) by (apply (round_ge 0); exact H0).
  assert (Hr1 : Py.round x 2 <= 101) by (apply (round_le 101); exact H1).
  destruct (fl_error_nonneg _ Hr0) as [F1 F2].
  eval_eps. unfold u in *. apply Qabs_Qle_condition. lra.
Qed.

(** The fused score of a domain, for valid modality scores of which one
    carries confidence. *)
Lemma normalize_close cs d :
  map_Forall (fun _ s => valid_modality s) cs ->
  0 < denominator (present cs) ->
  final_of d (WeightedAI64._calculate_weighted_scores cs)
  = Binary64.round (WeightedAI64.quotient (WeightedAI64.weighted_sums cs) d) 2
  /\ Qabs (WeightedAI64.quotient (WeightedAI64.weighted_sums cs) d
           - numerator d (present cs) / denominator (present cs)) <= eps 42
  /\ Qabs (final_of d (WeightedAI64._calculate_weighted_scores cs)
           - numerator d (present cs) / denominator (present cs))
     <= (1 # 200) + eps 41.
Proof.
  intros Hv Hpos. destruct (quotient_close cs d Hv Hpos) as (Hlt & Hq & Hc).
  set (q := numerator d (present cs) / denominator (present cs)) in *.
  set (q64 := WeightedAI64.quotient (WeightedAI64.weighted_sums cs) d) in *.
  assert (E : final_of d (WeightedAI64._calculate_weighted_scores cs)
              = Binary64.round q64 2).
  { unfold q64. destruct d; cbn [WeightedAI64._calculate_weighted_scores final_of
      final_depression final_anxiety final_stress];
      unfold WeightedAI64.normalize; rewrite Hlt; reflexivity. }
  assert (Hclose : Qabs (q64 - q) <= eps 42).
  { apply (close_within 15 q64 q 100); [exact Hc | exact Hq|].
    vm_compute. discriminate. }
  split; [exact E|]. split; [exact Hclose|]. rewrite E.
  pose proof Hclose as Hc'. apply Qabs_Qle_condition in Hc'.
  assert (Hr : Qabs (Binary64.round q64 2 - q64) <= (1 # 200) + eps 46).
  { pose proof (close_nonneg _ _ _ (proj1 Hq) Hc) as H0.
    apply float_round_close. eval_eps. lra. }
  apply Qabs_Qle_condition in Hr. eval_eps. apply Qabs_Qle_condition. lra.
Qed.

Lemma accumulate_silent cs c w s :
  cs !! c = Some s -> confidence s == 0 ->
  WeightedAI64.accumulate cs
    {| sum_depression := 0; sum_anxiety := 0; sum_stress := 0; total_weight := 0 |}
    (c, w)
  = {| sum_depression := 0; sum_anxiety := 0; sum_stress := 0; total_weight := 0 |}.
Proof.
  intros Hs Hc. unfold WeightedAI64.accumulate. cbn [fst snd]. rewrite Hs.
  cbn [total_weight sum_depression sum_anxiety sum_stress].
  assert (E : mul w (confidence s) = 0).
  { unfold mul. rewrite (fl_proper _ 0); [reflexivity | rewrite Hc; ring]. }
  rewrite E.
  assert (M : forall x, mul x 0 = 0).
  { intros x. unfold mul. rewrite (fl_proper _ 0); [reflexivity | ring]. }
  rewrite !M. reflexivity.
Qed.

Lemma fold_accumulate_silent cs ws64 :
  (forall c w s, (c, w) ∈ ws64 -> cs !! c = Some s -> confidence s == 0) ->
  fold_left (WeightedAI64.accumulate cs) ws64
    {| sum_depression := 0; sum_anxiety := 0; sum_stress := 0; total_weight := 0 |}
  = {| sum_depression := 0; sum_anxiety := 0; sum_stress := 0; total_weight := 0 |}.
Proof.
  induction ws64 as [|[c w] ws64 IH]; intros H; cbn [fold_left]; [reflexivity|].
  assert (IH' : forall c w s, (c, w) ∈ ws64 -> cs !! c = Some s -> confidence s == 0).
  { intros c' w' s' Hin. apply (H c' w' s'). right. exact Hin. }
  destruct (cs !! c) as [s|] eqn:E.
  - rewrite (accumulate_silent cs c w s E (H c w s ltac:(left) E)).
    exact (IH IH').
  - unfold WeightedAI64.accumulate at 2. cbn [fst]. rewrite E. exact (IH IH').
Qed.

Lemma rounded_weights_keys ws64 ws c w64 :
  rounded_weights ws64 ws -> (c, w64) ∈ ws64 -> exists w, (c, w) ∈ ws.
Proof.
  induction 1 as [|[c1 w1] [c2 w2] ws64 ws (Hc & _) _ IH]; intros Hin.
  - inversion Hin.
  - cbn [fst] in Hc. subst c2.
    apply elem_of_cons in Hin as [[= -> ->]|Hin].
    + exists w2. left.
    + destruct (IH Hin) as [w Hw]. exists w. right. exact Hw.
Qed.

Lemma weighted_sums_silent cs :
  (forall w s, (w, s) ∈ present cs -> confidence s == 0) ->
  WeightedAI64.weighted_sums cs
  = {| sum_depression := 0; sum_anxiety := 0; sum_stress := 0; total_weight := 0 |}.
Proof.
  intros Hz. apply fold_accumulate_silent.
  intros c w64 s Hin Hs.
  destruct (rounded_weights_keys _ _ c w64 component_weights_rounded Hin) as [w Hw].
  apply (Hz w s). unfold present, present_in.
  apply list_elem_of_omap. exists (c, w). split; [exact Hw|].
  cbn [fst snd]. rewrite Hs. reflexivity.
Qed.

(** C1, as stated, fails: with voice (depression 1) and sentiment
    (depression 0) both at confidence 1 the quotient is 0.4/0.65 = 8/13,
    0.6153846153846154 in floating point, but the engine returns 0.62. *)
Lemma fused_is_not_the_plain_quotient :
  final_of Depression (WeightedAI64._calculate_weighted_scores Scenario.two_modalities)
  = fl (62 # 100)
  /\ ~ (final_of Depression
          (WeightedAI64._calculate_weighted_scores Scenario.two_modalities)
        == fused Depression Scenario.two_modalities)
  /\ ~ (final_of Depression
          (WeightedAI64._calculate_weighted_scores Scenario.two_modalities)
        == WeightedAI64.quotient
             (WeightedAI64.weighted_sums Scenario.two_modalities) Depression).
Proof.
  split; [vm_compute; reflexivity|].
  split; intros H; vm_compute in H; discriminate H.
Qed.

(** C1 (amended): for modality scores within their declared ranges of which
    at least one carries confidence, the fused score of a domain is Python's
    [round(q, 2)] of the floating-point quotient [q] of the two running
    sums; [q] differs from the exact quotient
    [Σ (score * weight * confidence) / Σ (weight * confidence)] by at most
    2^-42, and the fused score by at most 0.005 + 2^-41.  When no present
    modality has nonzero confidence the fused score is 0, whatever the
    scores are. *)
Theorem fused_score_is_rounded_quotient (cs : gmap string ModalityScore) (d : category) :
  (map_Forall (fun _ s => valid_modality s) cs ->
   0 < denominator (present cs) ->
     final_of d (WeightedAI64._calculate_weighted_scores cs)
     = Binary64.round (WeightedAI64.quotient (WeightedAI64.weighted_sums cs) d) 2
     /\ Qabs (WeightedAI64.quotient (WeightedAI64.weighted_sums cs) d
              - numerator d (present cs) / denominator (present cs)) <= eps 42
     /\ Qabs (final_of d (WeightedAI64._calculate_weighted_scores cs)
              - numerator d (present cs) / denominator (present cs))
        <= (1 # 200) + eps 41)
  /\ ((forall w s, (w, s) ∈ present cs -> confidence s == 0) ->
        final_of d (WeightedAI64._calculate_weighted_scores cs) == 0).
Proof.
  split.
  - intros Hv Hpos. exact (normalize_close cs d Hv Hpos).
  - intros Hz.
    assert (E : final_of d (WeightedAI64._calculate_weighted_scores cs)
                = WeightedAI64.normalize (WeightedAI64.weighted_sums cs) d)
      by (destruct d; reflexivity).
    rewrite E, (weighted_sums_silent cs Hz). unfold WeightedAI64.normalize.
    destruct d; reflexivity.
Qed.

Lemma fused_score_is_rounded_quotient_witness :
  Qabs (final_of Depression
          (WeightedAI64._calculate_weighted_scores Scenario.two_modalities)
        - numerator Depression (present Scenario.two_modalities)
          / denominator (present Scenario.two_modalities))
  <= (1 # 200) + eps 41
  /\ final_of Depression (WeightedAI64._calculate_weighted_scores Scenario.silent_voice)
     == 0.
Proof.
  split.
  - apply (proj1 (fused_score_is_rounded_quotient Scenario.two_modalities Depression)).
    + exact two_modalities_valid.
    + vm_compute. reflexivity.
  - apply (proj2 (fused_score_is_rounded_quotient Scenario.silent_voice Depression)).
    intros w s Hin. vm_compute in Hin.
    apply list_elem_of_singleton in Hin. inversion Hin. reflexivity.
Defined.

(** A sole voice score of 1.125 at confidence 0.6 is fused to 1.13: the
    floating-point quotient 1.1250000000000002 is past the tie that
    [round(1.125, 2)] resolves to 1.12. *)
Lemma sole_modality_is_not_rounded_exactly :
  let cs : gmap string ModalityScore :=
    {[ "voice_analysis" :=
         {| depression := fl (1125 # 1000); anxiety := 0; stress := 0;
            confidence := fl (6 # 10) |} ]} in
  final_of Depression (WeightedAI64._calculate_weighted_scores cs) = fl (113 # 100)
  /\ Binary64.round (fl (1125 # 1000)) 2 = fl (112 # 100).
Proof. split; vm_compute; reflexivity. Qed.

(** X2: When exactly one modality of the weight table carries confidence (the
    others are missing or have confidence 0), each fused score is that
    modality's score up to the rounding to two decimals: it differs from
    the score by at most 0.005 + 2^-41, and is not diluted by the weights of
    the silent modalities. *)
Theorem sole_confident_modality_sets_the_scores
    (cs : gmap string ModalityScore) (k : string) (w : Q) (s : ModalityScore)
    (d : category) :
  map_Forall (fun _ s => valid_modality s) cs ->
  (k, w) ∈ component_weights -> cs !! k = Some s -> 0 < confidence s ->
  (forall k' s', k' <> k -> cs !! k' = Some s' -> confidence s' == 0) ->
  Qabs (final_of d (WeightedAI64._calculate_weighted_scores cs) - score_of d s)
  <= (1 # 200) + eps 41.
Proof.
  intros Hv Hin Hk Hc Hz.
  destruct (sole_modality_sums cs k w s Hin Hk Hz) as [Hd Hn].
  assert (Hw : 0 < w).
  { unfold component_weights in Hin.
    repeat (apply elem_of_cons in Hin; destruct Hin as [[= -> ->]|Hin]);
      [reflexivity | reflexivity | reflexivity | reflexivity | inversion Hin]. }
  assert (Hpos : 0 < w * confidence s) by (apply Qmult_lt_0_compat; assumption).
  assert (Hden : 0 < denominator (present cs)) by (rewrite Hd; exact Hpos).
  destruct (normalize_close cs d Hv Hden) as (_ & _ & Hf).
  assert (Eq : numerator d (present cs) / denominator (present cs) == score_of d s).
  { rewrite (Hn d), Hd. apply Qdiv_mult_l. lra. }
  rewrite Eq in Hf. exact Hf.
Qed.

Lemma voice_and_silent_face_valid :
  map_Forall (fun _ s => valid_modality s) Sample.voice_and_silent_face.
Proof.
  unfold Sample.voice_and_silent_face.
  apply map_Forall_insert_2; [|apply map_Forall_singleton];
    unfold valid_modality; simpl; lra.
Qed.

Lemma sole_confident_modality_sets_the_scores_witness :
  Qabs (final_of Depression
          (WeightedAI64._calculate_weighted_scores Sample.voice_and_silent_face) - 80)
  <= (1 # 200) + eps 41.
Proof.
  apply (sole_confident_modality_sets_the_scores Sample.voice_and_silent_face
           "voice_analysis" (40 # 100)
           {| depression := 80; anxiety := 10; stress := 30; confidence := 9 # 10 |}
           Depression).
  - exact voice_and_silent_face_valid.
  - left.
  - reflexivity.
  - reflexivity.
  - intros k' s' Hne Hl. unfold Sample.voice_and_silent_face in Hl.
    apply lookup_insert_Some in Hl as [[E _]|[_ Hl]]; [congruence|].
    apply lookup_singleton_Some in Hl as [_ <-]. reflexivity.
Defined.

End FloatFusion.

(** ** The keyword normalizers in floating-point arithmetic *)

Section FloatKeywords.
Import Py WeightedAI KeywordSpec Binary64 FloatConditions.
Local Open Scope Q_scope.

Lemma float_truediv_nonzero x y : ~ y == 0 -> Binary64.truediv x y = Ok (fl (x / y)).
Proof.
  intros H. unfold Binary64.truediv.
  destruct (Qeq_bool y 0) eqn:E; [|reflexivity].
  apply Qeq_bool_iff in E. contradiction.
Qed.

(** A density scaled by a factor and capped at 100: two roundings. *)
Lemma density_score_close (count total_words factor : Q) :
  0 <= count -> 0 < total_words -> 0 <= factor ->
  Qabs (min2 (mul (fl (count / total_words)) factor) 100
        - Qmin 100 (factor * count / total_words)) <= eps 45.
Proof.
  intros Hc Ht Hf.
  assert (Hd : 0 <= count / total_words) by (apply Qle_shift_div_l; lra).
  assert (C : close 2 (mul (fl (count / total_words)) factor)
                (factor * count / total_words)).
  { unfold mul. apply close_fl.
    - apply Qle_shift_div_l; [exact Ht|]. rewrite Qmult_0_l.
      apply Qmult_le_0_compat; assumption.
    - eapply close_proper; [reflexivity | |
        apply (close_mul 1 0 _ (count / total_words) _ factor);
          [exact Hd | exact Hf | apply close_literal; exact Hd | apply close_refl]].
      unfold Qdiv. ring. }
  apply (close_min _ _ _ 100) in C; [|discriminate].
  apply (close_within 2 _ _ 100); [exact C | | vm_compute; discriminate].
  split; [|apply Q.le_min_l].
  apply Q.min_glb; [discriminate|].
  apply Qle_shift_div_l; [exact Ht|]. rewrite Qmult_0_l.
  apply Qmult_le_0_compat; assumption.
Qed.

Lemma whole_total keyword_results :
  whole_counts keyword_results ->
  0 <= total_matches keyword_results
  /\ add (add (count keyword_results Depression) (count keyword_results Anxiety))
       (count keyword_results Stress)
     == total_matches keyword_results.
Proof.
  intros H. unfold total_matches.
  destruct (H Depression) as (nd & Hd & Ed).
  destruct (H Anxiety) as (na & Ha & Ea).
  destruct (H Stress) as (ns & Hs & Es).
  assert (P : (2 ^ 50 = 1125899906842624)%Z) by reflexivity.
  assert (P' : (2 ^ 53 = 9007199254740992)%Z) by reflexivity.
  split.
  - rewrite Ed, Ea, Es, <- !inject_Z_plus.
    change 0 with (inject_Z 0). rewrite <- Zle_Qle. lia.
  - unfold add.
    rewrite (fl_proper (count keyword_results Depression + count keyword_results Anxiety)
               (inject_Z (nd + na)))
      by (rewrite Ed, Ea, inject_Z_plus; reflexivity).
    rewrite (fl_proper (fl (inject_Z (nd + na)) + count keyword_results Stress)
               (inject_Z (nd + na + ns))).
    + rewrite fl_whole by lia. rewrite Ed, Ea, Es, !inject_Z_plus. reflexivity.
    + rewrite fl_whole by lia. rewrite Es, !inject_Z_plus. reflexivity.
Qed.

(** C7, as stated, fails on the fusion engine's keyword normalizer: one
    depression keyword in ten words scores 50 (five hundred times the
    density), which is nowhere near min(100, 200 * 1 / 10) = 20. *)
Lemma keyword_score_is_not_200_times_density :
  ~ exists s, WeightedAI64._process_keyword_results Scenario.one_in_ten = Ok s
              /\ Qabs (depression s - Qmin 100 (200 * 1 / 10)) <= 1.
Proof.
  intros (s & Hs & Hd). vm_compute in Hs. injection Hs as <-.
  vm_compute in Hd. apply Hd. reflexivity.
Qed.

(** Seven matches in a hundred words: the standalone engine's score is
    14.000000000000002, not 14. *)
Lemma seven_in_a_hundred :
  min2 (mul (fl (7 / 100)) 200) 100 = fl (14000000000000002 # 1000000000000000)
  /\ ~ min2 (mul (fl (7 / 100)) 200) 100 == 14.
Proof.
  split; [vm_compute; reflexivity|]. intros H. vm_compute in H. discriminate H.
Qed.

(** C7 (amended): for every keyword result with whole match counts and a
    positive total word count, the fusion engine's keyword normalizer gives
    each domain the score min(100, 500 * count / total_words) up to
    floating-point rounding (an error of at most 2^-45), with confidence
    min(1, total matches / 10) up to 2^-52, which is exactly 1 from 10
    matches on; the score min(100, 200 * count / total_words), again up to
    2^-45, is the one computed by the standalone engine's keyword
    conversion, which carries no confidence. *)
Theorem keyword_scores_by_density (keyword_results : gmap string Q) (total_words : Q) :
  keyword_results !! "total_words" = Some total_words ->
  0 < total_words ->
  whole_counts keyword_results ->
  (exists s,
      WeightedAI64._process_keyword_results keyword_results = Ok s
      /\ (forall c, Qabs (score_of c s
                          - Qmin 100 (500 * count keyword_results c / total_words))
                    <= eps 45)
      /\ Qabs (confidence s - Qmin 1 (total_matches keyword_results / 10)) <= eps 52
      /\ (10 <= total_matches keyword_results -> confidence s == 1))
  /\ (exists s',
        WeightedEngine64._convert_keywords_to_scores keyword_results = Ok s'
        /\ forall c, Qabs (WeightedEngine.score_of c s'
                           - Qmin 100 (200 * count keyword_results c / total_words))
                     <= eps 45).
Proof.
  intros Ht Hpos Hw.
  assert (Hnz : ~ total_words == 0) by lra.
  assert (Hget : get keyword_results "total_words" 1 = total_words)
    by (unfold get; rewrite Ht; reflexivity).
  assert (Hcount : forall c, 0 <= count keyword_results c).
  { intros c. destruct (Hw c) as (n & Hn & ->).
    change 0 with (inject_Z 0). rewrite <- Zle_Qle. lia. }
  destruct (whole_total keyword_results Hw) as [Htot Esum].
  split.
  - unfold WeightedAI64._process_keyword_results.
    rewrite (truthy_lookup _ _ _ Ht), Hget. simpl negb. cbv iota.
    rewrite !(float_truediv_nonzero _ _ Hnz). cbn [bind].
    rewrite (float_truediv_nonzero _ 10) by discriminate. cbn [bind].
    eexists. split; [reflexivity|]. cbn [confidence].
    fold (count keyword_results Depression) (count keyword_results Anxiety)
      (count keyword_results Stress).
    rewrite (fl_proper (_ / 10) (total_matches keyword_results / 10))
      by (rewrite Esum; reflexivity).
    assert (Hten : 0 <= total_matches keyword_results / 10)
      by (apply Qle_shift_div_l; lra).
    split; [|split].
    + intros c. destruct c; cbn [score_of depression anxiety stress];
        apply density_score_close; try apply Hcount; try exact Hpos; discriminate.
    + pose proof (close_literal _ Hten) as C.
      apply (close_min _ _ _ 1) in C; [|discriminate].
      apply (close_within 1 _ _ 1); [exact C | | vm_compute; discriminate].
      split; [apply Q.min_glb; [discriminate | exact Hten] | apply Q.le_min_l].
    + intros H10. rewrite min2_spec. apply Q.min_r.
      assert (H1 : 1 <= total_matches keyword_results / 10)
        by (apply Qle_shift_div_l; lra).
      apply fl_monotone in H1. exact H1.
  - unfold WeightedEngine64._convert_keywords_to_scores.
    rewrite Hget, !(float_truediv_nonzero _ _ Hnz). cbn [bind].
    eexists. split; [reflexivity|].
    intros c. destruct c;
      cbn [WeightedEngine.score_of WeightedEngine.depression
             WeightedEngine.anxiety WeightedEngine.stress];
      apply density_score_close; try apply Hcount; try exact Hpos; discriminate.
Qed.

Lemma one_in_ten_whole : whole_counts Scenario.one_in_ten.
Proof.
  intros c. destruct c; [exists 1%Z | exists 0%Z | exists 0%Z];
    (split; [lia | reflexivity]).
Qed.

Lemma keyword_scores_by_density_witness :
  exists s, WeightedAI64._process_keyword_results Scenario.one_in_ten = Ok s
            /\ Qabs (depression s
                     - Qmin 100 (500 * count Scenario.one_in_ten Depression / 10))
               <= eps 45.
Proof.
  destruct (keyword_scores_by_density Scenario.one_in_ten 10) as [(s & Hs & Hsc & _) _].
  - reflexivity.
  - reflexivity.
  - exact one_in_ten_whole.
  - exists s. split; [exact Hs | exact (Hsc Depression)].
Defined.

End FloatKeywords.

(** ** The standalone engine's weighted mean in floating-point arithmetic *)

Section FloatStandalone.
Import Py WeightedEngine Binary64 Conditions.
Local Open Scope Q_scope.

(** The float weight of a component is its exact weight rounded once. *)
Lemma lookup_weight_rounded k :
  match lookup_weight WeightedEngine64.weight_mapping k,
        lookup_weight weight_mapping k with
  | Some w64, Some w => 0 < w /\ close 1 w64 w
  | None, None => True
  | _, _ => False
  end.
Proof.
  unfold WeightedEngine64.weight_mapping, weight_mapping. cbn [lookup_weight].
  repeat (destruct (decide (_ = k)) as [_|_];
          [split; [reflexivity | vm_compute; split; discriminate]|]).
  exact I.
Qed.

Lemma condition_sums_close items :
  Forall (fun item => 0 <= snd item) items ->
  forall (k : nat) (a64 a : Q * Q),
    (2 <= k)%nat -> 0 <= fst a -> 0 <= snd a ->
    close k (fst a64) (fst a) -> close k (snd a64) (snd a) ->
    let r64 :=
      fold_left
        (fun acc item =>
           match lookup_weight WeightedEngine64.weight_mapping (fst item) with
           | Some weight =>
               (add (fst acc) (mul (snd item) weight), add (snd acc) weight)
           | None => acc
           end) items a64 in
    let r :=
      fold_left
        (fun acc item =>
           match lookup_weight weight_mapping (fst item) with
           | Some weight => (fst acc + snd item * weight, snd acc + weight)
           | None => acc
           end) items a in
    close (k + length items) (fst r64) (fst r)
    /\ close (k + length items) (snd r64) (snd r)
    /\ 0 <= fst r /\ 0 <= snd r.
Proof.
  induction 1 as [|[c v] items Hv _ IH]; intros k a64 a Hk Ha1 Ha2 C1 C2;
    cbv zeta in *; cbn [fold_left Datatypes.length fst snd] in *.
  - replace (k + 0)%nat with k by lia. split; [|split; [|split]]; assumption.
  - pose proof (lookup_weight_rounded c) as Hl.
    destruct (lookup_weight WeightedEngine64.weight_mapping c) as [w64|];
      destruct (lookup_weight weight_mapping c) as [w|]; try contradiction.
    + destruct Hl as [Hw Cw].
      assert (Hvw : 0 <= v * w) by (apply Qmult_le_0_compat; lra).
      replace (k + S (length items))%nat with (S k + length items)%nat by lia.
      apply IH; cbn [fst snd].
      * lia.
      * lra.
      * lra.
      * unfold add. apply close_fl; [lra|]. apply close_add; [exact C1|].
        apply (close_weaken 2 k); [lia | exact Hvw|].
        unfold mul. apply close_fl; [exact Hvw|].
        apply (close_mul 0 1); [exact Hv | lra | apply close_refl | exact Cw].
      * unfold add. apply close_fl; [lra|]. apply close_add; [exact C2|].
        apply (close_weaken 1 k); [lia | lra | exact Cw].
    + destruct (IH k a64 a Hk Ha1 Ha2 C1 C2) as (I1 & I2 & N1 & N2).
      split; [|split; [|split]]; try assumption;
        (eapply close_weaken; [| |eassumption]); first [lia | assumption].
Qed.

(** X10: The standalone engine's score for a condition is a weighted mean
    of the component scores collected for it, computed in floating point: it
    lies between the smallest and the largest of them up to a relative
    error of 2^-49 (the mean of 50 and 50 is 49.99999999999999), and
    nothing is rounded to decimals; with no component collected the score
    is 0. *)
Theorem weighted_score_between_components (lo hi : Q) (items : list (string * Q)) :
  (items <> [] -> known_components items -> (length items <= 4)%nat ->
   0 <= lo -> Forall (fun item => lo <= snd item <= hi) items ->
   (1 - eps 49) * lo <= WeightedEngine64.weighted_score items <= (1 + eps 49) * hi)
  /\ WeightedEngine64.weighted_score [] = 0
  /\ WeightedEngine64.weighted_score [("voice", 50); ("keyword", 50)]
     = fl (4999999999999999 # 100000000000000).
Proof.
  split; [|split; vm_compute; reflexivity].
  intros Hne Hk Hlen Hlo Hall.
  assert (Hnn : Forall (fun item : string * Q => 0 <= snd item) items).
  { eapply Forall_impl; [exact Hall|]. cbn beta. intros item [H _]. lra. }
  assert (C0 : close 2 0 0) by (split; vm_compute; discriminate).
  set (r64 := WeightedEngine64.condition_sums items).
  set (r := condition_sums items).
  assert (HC : close (2 + length items) (fst r64) (fst r)
               /\ close (2 + length items) (snd r64) (snd r)
               /\ 0 <= fst r /\ 0 <= snd r)
    by exact (condition_sums_close items Hnn 2 (0, 0) (0, 0)
                (le_n 2) (Qle_refl 0) (Qle_refl 0) C0 C0).
  destruct HC as (C1 & C2 & N1 & N2).
  assert (HE : 0 <= snd r
               /\ lo * (snd r - 0) <= fst r - 0 <= hi * (snd r - 0)
               /\ (items <> [] -> known_components items -> 0 < snd r))
    by exact (condition_sums_fold lo hi items 0 0 Hall).
  destruct HE as (_ & [H2 H3] & H4). specialize (H4 Hne Hk).
  unfold WeightedEngine64.weighted_score. fold r64.
  assert (E : Qltb 0 (snd r64) = true)
    by (apply Qltb_true; exact (close_pos _ _ _ H4 C2)).
  rewrite E.
  assert (Hq : lo <= fst r / snd r <= hi).
  { split; [apply Qle_shift_div_l | apply Qle_shift_div_r]; lra. }
  assert (C : close (S (2 + length items + (2 + length items)))
                (fl (fst r64 / snd r64)) (fst r / snd r)).
  { apply close_fl; [lra|]. apply close_div; assumption. }
  apply (close_weaken _ 13) in C; [|lia|lra].
  destruct C as [L U].
  assert (S13 : 1 - eps 49 <= shrink 13 /\ 1 <= shrink 13 * (1 + eps 49))
    by (split; vm_compute; discriminate).
  destruct S13 as [S1 S2]. pose proof (shrink_pos 13) as [P0 P1].
  set (q64 := fl (fst r64 / snd r64)) in *. set (q := fst r / snd r) in *.
  assert (E49 : 0 <= eps 49 <= 1) by (split; vm_compute; discriminate).
  split.
  - apply Qle_trans with (shrink 13 * q); [|exact L]. nra.
  - apply (Qmult_le_l _ _ (shrink 13) P0). nra.
Qed.

Lemma weighted_score_between_components_witness :
  (1 - eps 49) * 20 <= WeightedEngine64.weighted_score Sample.voice_and_keyword
  <= (1 + eps 49) * 60.
Proof.
  apply (proj1 (weighted_score_between_components 20 60 Sample.voice_and_keyword)).
  - discriminate.
  - repeat constructor; eexists; reflexivity.
  - cbn. lia.
  - discriminate.
  - repeat constructor; cbn; lra.
Defined.

End FloatStandalone.

(** ** Statements that do not depend on how a tie is rounded *)

Section RoundingTolerant.
Import Py WeightedAI AssessmentService Conditions.
Local Open Scope Q_scope.





End RoundingTolerant.
